(** * MadMiner Fisher-information engine: a shallow embedding

    This development embeds the numerical core of
    [madminer/fisherinformation.py] (projection and profiling of Fisher
    matrices, the per-event Fisher tensor, the histogram and rate
    reductions, the evaluation of cut expressions) together with
    [madminer/models/readers.py] ([Observable]) and states the properties
    of the specification against it.

    Conventions.
    - Python exceptions are values of [exn]; a Python call is a
      computation in the error monad [res].
    - A NumPy float is a [float64]: an exact rational or one of the three
      IEEE special values.  Rounding is not modelled; the special values
      are, because the code sanitises them.
    - NumPy arrays are nested lists ([vec], [mat], [t3], [t4]); where the
      rank of an array is decided at run time it is a tagged union. *)

From Stdlib Require Import ZArith QArith Lia Lqa.
From stdpp Require Import base list strings gmap.

Close Scope Q_scope.
Local Open Scope nat_scope.

(** ** Exceptions and the error monad *)

Inductive exn : Set :=
| AssertionError
| IndexError
| LinAlgError
| NameError
| StopIteration
| TypeError
| ValueError
| ZeroDivisionError.

Inductive res (A : Type) : Type :=
| Ok (a : A)
| Raise (e : exn).
Arguments Ok {A} a.
Arguments Raise {A} e.

#[global] Instance res_ret : MRet res := λ A a, Ok a.
#[global] Instance res_bind : MBind res := λ A B f m,
  match m with
  | Ok a => f a
  | Raise e => Raise e
  end.
#[global] Instance res_fmap : FMap res := λ A B f m,
  match m with
  | Ok a => Ok (f a)
  | Raise e => Raise e
  end.

(** [assert cond] *)
Definition py_assert (cond : bool) : res unit :=
  if cond then Ok tt else Raise AssertionError.

(** [for x in l: s = body s x], stopping at the first exception. *)
Fixpoint for_each {S A : Type} (body : S → A → res S) (l : list A) (s : S) : res S :=
  match l with
  | [] => Ok s
  | x :: l' => s' ← body s x; for_each body l' s'
  end.

(** [[f(x) for x in l]], stopping at the first exception. *)
Fixpoint list_comp {A B : Type} (f : A → res B) (l : list A) : res (list B) :=
  match l with
  | [] => Ok []
  | x :: l' => y ← f x; ys ← list_comp f l'; Ok (y :: ys)
  end.

(** [enumerate(l, start)] and [range(n)]; Python integers are [Z]. *)
Fixpoint enumerate_from {A : Type} (start : nat) (l : list A) : list (Z * A) :=
  match l with
  | [] => []
  | x :: l' => (Z.of_nat start, x) :: enumerate_from (S start) l'
  end.

Definition enumerate {A : Type} (l : list A) : list (Z * A) := enumerate_from 0 l.

Definition range (n : nat) : list Z := Z.of_nat <$> seq 0 n.

(** [i in l] for a list of integers. *)
Definition py_in (i : Z) (l : list Z) : bool := existsb (Z.eqb i) l.

(** ** Floating-point values *)

Inductive float64 : Set :=
| Fin (q : Q)
| PInf
| NInf
| NaN.

Definition fzero : float64 := Fin 0%Q.
Definition fone : float64 := Fin 1%Q.

Definition is_finite (x : float64) : bool :=
  match x with Fin _ => true | _ => false end.

(** Sign of a rational: [Lt], [Eq] or [Gt] against zero. *)
Definition Qsign (q : Q) : comparison := (Qnum q ?= 0)%Z.

Definition fneg (x : float64) : float64 :=
  match x with
  | Fin q => Fin (Qred (- q)%Q)
  | PInf => NInf
  | NInf => PInf
  | NaN => NaN
  end.

Definition fadd (x y : float64) : float64 :=
  match x, y with
  | NaN, _ | _, NaN => NaN
  | Fin a, Fin b => Fin (Qred (a + b)%Q)
  | PInf, NInf | NInf, PInf => NaN
  | PInf, _ | _, PInf => PInf
  | NInf, _ | _, NInf => NInf
  end.

Definition fsub (x y : float64) : float64 := fadd x (fneg y).

(** Infinity of the sign of [c]; zero times infinity is [NaN]. *)
Definition inf_of_sign (c : comparison) : float64 :=
  match c with Gt => PInf | Lt => NInf | Eq => NaN end.

Definition fmul (x y : float64) : float64 :=
  match x, y with
  | NaN, _ | _, NaN => NaN
  | Fin a, Fin b => Fin (Qred (a * b)%Q)
  | Fin a, PInf | PInf, Fin a => inf_of_sign (Qsign a)
  | Fin a, NInf | NInf, Fin a => inf_of_sign (CompOpp (Qsign a))
  | PInf, PInf | NInf, NInf => PInf
  | PInf, NInf | NInf, PInf => NInf
  end.

(** NumPy's true division: dividing by zero gives an infinity or [NaN]
    (with a warning), it does not raise. *)
Definition fdiv (x y : float64) : float64 :=
  match x, y with
  | NaN, _ | _, NaN => NaN
  | Fin a, Fin b =>
      match Qsign b with
      | Eq => inf_of_sign (Qsign a)
      | _ => Fin (Qred (a / b)%Q)
      end
  | Fin _, _ => fzero
  | PInf, Fin b => match Qsign b with Lt => NInf | _ => PInf end
  | NInf, Fin b => match Qsign b with Lt => PInf | _ => NInf end
  | _, _ => NaN
  end.

Definition fsquare (x : float64) : float64 := fmul x x.

(** ** Arrays *)

Abbreviation vec := (list float64).
Abbreviation mat := (list (list float64)).
Abbreviation t3 := (list (list (list float64))).
Abbreviation t4 := (list (list (list (list float64)))).

(** An array whose rank (zero, one or two) is only known at run time:
    the operands of the linear algebra in [profile_information]. *)
Inductive ndarray : Set :=
| A0 (x : float64)
| A1 (v : vec)
| A2 (m : mat).

Definition ndim (a : ndarray) : nat :=
  match a with A0 _ => 0 | A1 _ => 1 | A2 _ => 2 end.

(** [np.zeros] *)
Definition zeros1 (n : nat) : vec := replicate n fzero.
Definition zeros2 (r c : nat) : mat := replicate r (zeros1 c).
Definition zeros3 (n r c : nat) : t3 := replicate n (zeros2 r c).
Definition zeros4 (a b c d : nat) : t4 := replicate a (zeros3 b c d).

(** Number of columns of a matrix, read off its first row as NumPy reads
    the shape of a rectangular array. *)
Definition ncols (m : mat) : nat :=
  match m with [] => 0 | r :: _ => length r end.

Definition is_matrix (r c : nat) (m : mat) : Prop :=
  length m = r ∧ Forall (λ row, length row = c) m.

(** An integer index into an axis of length [n]: negative indices count
    from the end, anything outside [-n, n) is an [IndexError]. *)
Definition norm_index (n : nat) (i : Z) : res nat :=
  if (0 <=? i)%Z && (i <? Z.of_nat n)%Z then Ok (Z.to_nat i)
  else if (- Z.of_nat n <=? i)%Z && (i <? 0)%Z then Ok (Z.to_nat (Z.of_nat n + i))
  else Raise IndexError.

Definition from_lookup {A : Type} (o : option A) : res A :=
  match o with Some a => Ok a | None => Raise IndexError end.

(** [next(iter(l))] *)
Definition py_next {A : Type} (l : list A) : res A :=
  match l with x :: _ => Ok x | [] => Raise StopIteration end.

(** The entry of a matrix, and of a stack of matrices, if it exists. *)
Definition lookup2 (m : mat) (i j : nat) : option float64 :=
  row ← m !! i; row !! j.
Definition lookup3 (t : list (list (list float64))) (n i j : nat) : option float64 :=
  m ← t !! n; lookup2 m i j.

(** [a[i, j]] on a two-dimensional array. *)
Definition getitem2 (a : mat) (i j : Z) : res float64 :=
  i' ← norm_index (length a) i;
  j' ← norm_index (ncols a) j;
  row ← from_lookup (a !! i');
  from_lookup (row !! j').

(** [a[i, j] = v] on a two-dimensional array. *)
Definition setitem2 (a : mat) (i j : Z) (v : float64) : res mat :=
  i' ← norm_index (length a) i;
  j' ← norm_index (ncols a) j;
  row ← from_lookup (a !! i');
  Ok (<[i' := <[j' := v]> row]> a).

(** ** [project_information] *)

Definition project_information (fisher_information : mat)
    (remaining_components : list Z) : res mat :=
  let n_new := length remaining_components in
  let fisher_information_new := zeros2 n_new n_new in
  for_each (λ new '(xnew, xold),
      for_each (λ new '(ynew, yold),
          v ← getitem2 fisher_information xold yold;
          setitem2 new xnew ynew v)
        (enumerate remaining_components) new)
    (enumerate remaining_components) fisher_information_new.

(** ** NumPy primitives used by [profile_information] *)

(** The row-major flattening [a.reshape((-1,))]. *)
Definition flatten2 (m : mat) : vec := concat m.
Definition flatten4 (t : t4) : vec := concat (concat (concat t)).

(** Cut a flat array into rows of width [w]; [fuel] bounds the number of
    rows. *)
Fixpoint chunks (fuel w : nat) (v : vec) : mat :=
  match fuel with
  | 0 => []
  | S fuel' =>
      match v with
      | [] => []
      | _ => take w v :: chunks fuel' w (drop w v)
      end
  end.

(** [v.reshape((-1, w))]: the size must be a multiple of [w]. *)
Definition reshape_rows (w : nat) (v : vec) : res mat :=
  match w with
  | 0 => match v with [] => Ok [] | _ => Raise ValueError end
  | _ => if length v mod w =? 0 then Ok (chunks (length v) w v)
         else Raise ValueError
  end.

(** [v.reshape((r, c))] *)
Definition reshape2 (r c : nat) (v : vec) : res mat :=
  if length v =? r * c then Ok (take r (chunks (length v) c v ++ replicate r []))
  else Raise ValueError.

(** [v.reshape((a, b, c, d))] *)
Definition reshape4 (a b c d : nat) (v : vec) : res t4 :=
  if length v =? a * b * c * d then
    let rows := chunks (length v) d v in
    let group {A : Type} (k n : nat) (l : list A) : list (list A) :=
      (λ i, take k (drop (i * k) l)) <$> seq 0 n in
    Ok (group b a (group c (a * b) (take (a * b * c) (rows ++ replicate (a * b * c) []))))
  else Raise ValueError.

(** The transpose of a matrix with [c] columns. *)
Definition transpose (c : nat) (m : mat) : mat :=
  (λ j, (λ row, default fzero (row !! j)) <$> m) <$> seq 0 c.

(** Index arrays of an advanced index [a[rows, cols]] are broadcast
    against each other: equal lengths pair up, a single index is repeated,
    anything else is NumPy's "shape mismatch" [IndexError]. *)
Definition broadcast_indices (rows cols : list Z) : res (list (Z * Z)) :=
  if length rows =? length cols then Ok (zip rows cols)
  else match rows, cols with
       | [r], _ => Ok ((λ c, (r, c)) <$> cols)
       | _, [c] => Ok ((λ r, (r, c)) <$> rows)
       | _, _ => Raise IndexError
       end.

(** [a[rows, cols]] with two integer lists: the elements
    [a[rows[k], cols[k]]], as a one-dimensional array.  An array of rank
    below two has too few axes for two indices. *)
Definition getitem_lists (a : ndarray) (rows cols : list Z) : res vec :=
  match a with
  | A2 m =>
      idx ← broadcast_indices rows cols;
      list_comp (λ '(i, j), getitem2 m i j) idx
  | _ => Raise IndexError
  end.

Definition sum_vec (v : vec) : float64 := foldr fadd fzero v.

Definition inner (v w : vec) : res float64 :=
  if length v =? length w then Ok (sum_vec (zip_with fmul v w))
  else Raise ValueError.

(** Elementwise application of a function. *)
Definition map_mat (f : float64 → float64) (m : mat) : mat := fmap (M := list) f <$> m.
Definition map_t3 (f : float64 → float64) (t : t3) : t3 := map_mat f <$> t.
Definition map_t4 (f : float64 → float64) (t : t4) : t4 := map_t3 f <$> t.

Definition scale_vec (x : float64) (v : vec) : vec := fmul x <$> v.
Definition scale_mat (x : float64) (m : mat) : mat := map_mat (fmul x) m.

(** [a.T] *)
Definition np_T (a : ndarray) : ndarray :=
  match a with
  | A2 m => A2 (transpose (ncols m) m)
  | _ => a
  end.

(** [a.dot(b)] for operands of rank at most two. *)
Definition np_dot (a b : ndarray) : res ndarray :=
  match a, b with
  | A0 x, A0 y => Ok (A0 (fmul x y))
  | A0 x, A1 v | A1 v, A0 x => Ok (A1 (scale_vec x v))
  | A0 x, A2 m | A2 m, A0 x => Ok (A2 (scale_mat x m))
  | A1 v, A1 w => A0 <$> inner v w
  | A2 m, A1 v => A1 <$> list_comp (λ row, inner row v) m
  | A1 v, A2 m => A1 <$> list_comp (inner v) (transpose (ncols m) m)
  | A2 m, A2 k =>
      A2 <$> list_comp (λ row, list_comp (inner row) (transpose (ncols k) k)) m
  end.

(** Elementwise binary operation with NumPy broadcasting, rank one. *)
Definition broadcast_vec (f : float64 → float64 → float64) (v w : vec) : res vec :=
  if length v =? length w then Ok (zip_with f v w)
  else match v, w with
       | [x], _ => Ok (f x <$> w)
       | _, [y] => Ok ((λ x, f x y) <$> v)
       | _, _ => Raise ValueError
       end.

(** Elementwise binary operation with NumPy broadcasting, rank two. *)
Definition broadcast_mat (f : float64 → float64 → float64) (m k : mat) : res mat :=
  if length m =? length k then
    list_comp (λ '(r, s), broadcast_vec f r s) (zip m k)
  else match m, k with
       | [r], _ => list_comp (broadcast_vec f r) k
       | _, [s] => list_comp (λ r, broadcast_vec f r s) m
       | _, _ => Raise ValueError
       end.

(** [a - b] *)
Definition np_sub (a b : ndarray) : res ndarray :=
  match a, b with
  | A0 x, A0 y => Ok (A0 (fsub x y))
  | A0 x, A1 v => Ok (A1 (fsub x <$> v))
  | A1 v, A0 y => Ok (A1 ((λ x, fsub x y) <$> v))
  | A0 x, A2 m => Ok (A2 (map_mat (fsub x) m))
  | A2 m, A0 y => Ok (A2 (map_mat (λ x, fsub x y) m))
  | A1 v, A1 w => A1 <$> broadcast_vec fsub v w
  | A1 v, A2 m => A2 <$> broadcast_mat fsub [v] m
  | A2 m, A1 w => A2 <$> broadcast_mat fsub m [w]
  | A2 m, A2 k => A2 <$> broadcast_mat fsub m k
  end.

Definition of_nat_f (n : nat) : float64 := Fin (inject_Z (Z.of_nat n)).

Definition mean_vec (v : vec) : float64 := fdiv (sum_vec v) (of_nat_f (length v)).

(** [np.cov(x)] for a two-dimensional [x] whose rows are the variables and
    whose columns are the observations, normalised by [N - 1]. *)
Definition np_cov (x : mat) : mat :=
  let centred := (λ row, (λ e, fsub e (mean_vec row)) <$> row) <$> x in
  (λ r, (λ s, fdiv (sum_vec (zip_with fmul r s)) (of_nat_f (ncols x - 1))) <$> centred)
    <$> centred.

(** Flat data of an array. *)
Definition ravel (a : ndarray) : vec :=
  match a with
  | A0 x => [x]
  | A1 v => v
  | A2 m => flatten2 m
  end.

(** ** [profile_information] *)

Section Profile.

(** The LAPACK inverse of a square matrix behind [np.linalg.inv]; it
    raises [LinAlgError] on a singular matrix. *)
Variable lapack_inv : mat → res mat.

(** The sampler [np.random.multivariate_normal(mean, cov, size)]: one
    row per draw. *)
Variable multivariate_normal : vec → mat → nat → res mat.

(** [np.linalg.inv]: the argument must have at least two dimensions and
    its last two must be equal. *)
Definition np_linalg_inv (a : ndarray) : res ndarray :=
  match a with
  | A0 _ | A1 _ => Raise LinAlgError
  | A2 m => if length m =? ncols m then A2 <$> lapack_inv m
            else Raise LinAlgError
  end.

(** Grouping of the components by the loop over [range(n_components)]. *)
Definition group_components (n_components : nat) (remaining_components : list Z)
    : list Z * list Z :=
  foldl (λ '(remaining_components_checked, profiled_components) i,
      if py_in i remaining_components
      then (remaining_components_checked ++ [i], profiled_components)
      else (remaining_components_checked, profiled_components ++ [i]))
    ([], []) (range n_components).

(** The inner function [_profile]. *)
Definition _profile (remaining_components profiled_components : list Z)
    (information_in : ndarray) : res ndarray :=
  information_phys ← getitem_lists information_in remaining_components remaining_components;
  information_mix ← getitem_lists information_in profiled_components remaining_components;
  information_nuisance ← getitem_lists information_in profiled_components profiled_components;
  inverse_information_nuisance ← np_linalg_inv (A1 information_nuisance);
  inner_product ← np_dot inverse_information_nuisance (A1 information_mix);
  outer_product ← np_dot (np_T (A1 information_mix)) inner_product;
  np_sub (A1 information_phys) outer_product.

Definition profile_information (fisher_information : mat)
    (remaining_components : list Z) (covariance : option t4)
    (error_propagation_n_ensemble : nat) (error_propagation_factor : float64)
    : res (ndarray * option t4) :=
  let n_components := length fisher_information in
  let n_remaining_components := length remaining_components in
  let '(remaining_components_checked, profiled_components) :=
    group_components n_components remaining_components in
  _ ← py_assert (n_remaining_components =? length remaining_components_checked);
  profiled_information ←
    _profile remaining_components profiled_components (A2 fisher_information);
  match covariance with
  | Some covariance =>
      cov2 ← reshape2 (n_components ^ 2) (n_components ^ 2) (flatten4 covariance);
      information_toys ←
        multivariate_normal (flatten2 fisher_information)
          (scale_mat error_propagation_factor cov2) error_propagation_n_ensemble;
      (* the result of information_toys.reshape(...) is dropped: every
         toy stays a flat row *)
      profiled_information_toys ←
        list_comp (λ info, _profile remaining_components profiled_components (A1 info))
          information_toys;
      toys2 ← reshape_rows (n_remaining_components ^ 2)
                (concat (ravel <$> profiled_information_toys));
      let toy_covariance :=
        np_cov (transpose (n_remaining_components ^ 2) toys2) in
      toy_covariance ←
        reshape4 n_remaining_components n_remaining_components
          n_remaining_components n_remaining_components (flatten2 toy_covariance);
      let profiled_information_covariance :=
        map_t4 (λ x, fdiv x error_propagation_factor) toy_covariance in
      Ok (profiled_information, Some profiled_information_covariance)
  | None => Ok (profiled_information, None)
  end.

End Profile.

(** ** NumPy primitives used by the Fisher tensor engine *)

Definition nth_f (v : vec) (n : nat) : float64 := default fzero (v !! n).
Definition nth_row {A : Type} (m : list (list A)) (i : nat) : list A := default [] (m !! i).
Definition at2 (m : mat) (i j : nat) : float64 := nth_f (nth_row m i) j.
Definition at3 (t : t3) (n i j : nat) : float64 := at2 (nth_row t n) i j.
Definition at4 (t : t4) (i j k l : nat) : float64 := at3 (nth_row t i) j k l.

(** Every row of [m] has [n] entries. *)
Definition has_cols (n : nat) (m : mat) : bool := forallb (λ row, length row =? n) m.

(** Arrays given by their entries. *)
Definition tab1 (a : nat) (f : nat → float64) : vec := f <$> seq 0 a.
Definition tab2 (a b : nat) (f : nat → nat → float64) : mat :=
  (λ i, tab1 b (f i)) <$> seq 0 a.
Definition tab3 (a b c : nat) (f : nat → nat → nat → float64) : t3 :=
  (λ i, tab2 b c (f i)) <$> seq 0 a.
Definition tab4 (a b c d : nat) (f : nat → nat → nat → nat → float64) : t4 :=
  (λ i, tab3 b c d (f i)) <$> seq 0 a.

(** [np.einsum("n,in,jn->nij", a, b, c)] *)
Definition einsum_n_in_jn (a : vec) (b c : mat) : res t3 :=
  if has_cols (length a) b && has_cols (length a) c then
    Ok (tab3 (length a) (length b) (length c)
          (λ n i j, fmul (fmul (nth_f a n) (at2 b i n)) (at2 c j n)))
  else Raise ValueError.

(** [np.einsum("in,jn->nij", b, c)], both operands with [n] columns. *)
Definition einsum_in_jn (n : nat) (b c : mat) : res t3 :=
  if has_cols n b && has_cols n c then
    Ok (tab3 n (length b) (length c) (λ n i j, fmul (at2 b i n) (at2 c j n)))
  else Raise ValueError.

(** [np.einsum("ib,jn,n->ijnb", a, b, c)] *)
Definition einsum_ib_jn_n (a b : mat) (c : vec) : res t4 :=
  if has_cols (ncols a) a && has_cols (length c) b then
    Ok (tab4 (length a) (length b) (length c) (ncols a)
          (λ i j n b', fmul (fmul (at2 a i b') (at2 b j n)) (nth_f c n)))
  else Raise ValueError.

(** [np.einsum("jb,in,n->ijnb", a, b, c)] *)
Definition einsum_jb_in_n (a b : mat) (c : vec) : res t4 :=
  if has_cols (ncols a) a && has_cols (length c) b then
    Ok (tab4 (length b) (length a) (length c) (ncols a)
          (λ i j n b', fmul (fmul (at2 a j b') (at2 b i n)) (nth_f c n)))
  else Raise ValueError.

(** [np.einsum("b,in,jn,n,n->ijnb", a, b, c, d, e)] *)
Definition einsum_b_in_jn_n_n (a : vec) (b c : mat) (d e : vec) : res t4 :=
  if has_cols (length d) b && has_cols (length d) c && (length d =? length e) then
    Ok (tab4 (length b) (length c) (length d) (length a)
          (λ i j n b',
             fmul (fmul (fmul (fmul (nth_f a b') (at2 b i n)) (at2 c j n)) (nth_f d n))
               (nth_f e n)))
  else Raise ValueError.

(** Shape of a rank-4 and of a rank-3 array, read along first entries. *)
Definition shape3 (t : t3) : nat * nat * nat :=
  (length t, length (nth_row t 0), length (nth_row (nth_row t 0) 0)).
Definition shape4 (t : t4) : nat * nat * nat * nat :=
  (length t, length (nth_row t 0), length (nth_row (nth_row t 0) 0),
   length (nth_row (nth_row (nth_row t 0) 0) 0)).

(** [np.einsum("ijnb,nbc,klnc->ijkl", a, v, a')] *)
Definition einsum_ijnb_nbc_klnc (a : t4) (v : t3) (a' : t4) : res t4 :=
  let '(i_, j_, n_, b_) := shape4 a in
  let '(k_, l_, n', c_) := shape4 a' in
  let '(vn, vb, vc) := shape3 v in
  if (n_ =? n') && (n_ =? vn) && (b_ =? vb) && (c_ =? vc) then
    Ok (tab4 i_ j_ k_ l_ (λ i j k l,
          sum_vec (tab1 n_ (λ n,
            sum_vec (tab1 b_ (λ b',
              sum_vec (tab1 c_ (λ c',
                fmul (fmul (at4 a i j n b') (at3 v n b' c')) (at4 a' k l n c')))))))))
  else Raise ValueError.

(** Elementwise sum of two arrays of rank four and of equal shape. *)
Definition add_t4 (a b : t4) : res t4 :=
  if decide (shape4 a = shape4 b) then
    Ok (zip_with (zip_with (zip_with (zip_with fadd))) a b)
  else Raise ValueError.

(** [np.sum(a, axis=0)] for an array of shape [(n, r, c)] and for one of
    shape [(n, c)]. *)
Definition sum_axis0_t3 (r c : nat) (t : t3) : mat :=
  foldr (zip_with (zip_with fadd)) (zeros2 r c) t.
Definition sum_axis0_mat (c : nat) (m : mat) : vec :=
  foldr (zip_with fadd) (zeros1 c) m.

(** Reversal of the three axes of an array of shape [(d0, d1, d2)]:
    [t.T]. *)
Definition transpose3 (d1 d2 : nat) (t : t3) : t3 :=
  tab3 d2 d1 (length t) (λ j i n, at3 t n i j).

(** Selection of the rows of [m] by a boolean mask: [m[mask, :]]. *)
Definition mask_rows {A : Type} (mask : list bool) (m : list A) : res (list A) :=
  if length mask =? length m then Ok (fst <$> filter (λ p, snd p = true) (zip m mask))
  else Raise IndexError.

(** Selection of the columns of [m] by a boolean mask: [m[:, mask]]. *)
Definition mask_cols (mask : list bool) (m : mat) : res mat :=
  list_comp (mask_rows mask) m.

(** The column [m[:, j]]. *)
Definition column (m : mat) (j : nat) : res vec :=
  list_comp (λ row : vec, from_lookup (row !! j)) m.

(** Broadcasting of a matrix to the shape [(r, c)]. *)
Definition broadcast_to2 (r c : nat) (m : mat) : res mat :=
  rows ← (if length m =? r then Ok m
          else match m with [row] => Ok (replicate r row) | _ => Raise ValueError end);
  list_comp (λ row : vec,
      if length row =? c then Ok row
      else match row with [x] => Ok (replicate c x) | _ => Raise ValueError end)
    rows.

(** Overwrite the block of [a] whose upper left corner is [(r0, c0)] with
    the matrix [b]. *)
Definition write_block (a : mat) (r0 c0 : nat) (b : mat) : mat :=
  imap (λ i (row : vec),
      imap (λ j x,
          if bool_decide (r0 ≤ i < r0 + length b ∧ c0 ≤ j < c0 + ncols b)
          then at2 b (i - r0) (j - c0) else x) row) a.

(** [a[r0:r0+r, c0:c0+c] = value] for a three-dimensional [value].  NumPy
    broadcasts [value] to the shape of the block: its extra leading axis
    must have length one. *)
Definition assign_block (a : mat) (r0 c0 r c : nat) (value : t3) : res mat :=
  match value with
  | [m] => b ← broadcast_to2 r c m; Ok (write_block a r0 c0 b)
  | _ => Raise ValueError
  end.

(** A Python object passed where NumPy expects a dimension. *)
Inductive pyobj : Set :=
| PyInt (n : nat)
| PyFloatArray (a : mat).

(** [np.zeros((d0, d1, d2))]: every dimension must be an integer. *)
Definition np_zeros3 (d0 d1 d2 : pyobj) : res t3 :=
  match d0, d1, d2 with
  | PyInt n, PyInt r, PyInt c => Ok (zeros3 n r c)
  | _, _, _ => Raise TypeError
  end.

(** [a[n, i, j] = v] on a three-dimensional array. *)
Definition setitem3 (a : t3) (n i j : Z) (v : float64) : res t3 :=
  n' ← norm_index (length a) n;
  m ← from_lookup (a !! n');
  m' ← setitem2 m i j v;
  Ok (<[n' := m']> a).

(** [zip(a, b, c)] *)
Definition zip3 {A B C : Type} (a : list A) (b : list B) (c : list C) : list (A * B * C) :=
  zip (zip a b) c.

(** ** The [FisherInformation] class *)

(** The attributes of a [FisherInformation] instance that the engine
    reads. *)
Record FisherInformation : Set := {
  n_parameters : nat;
  n_benchmarks : nat;
  benchmark_is_nuisance : list bool;
  observables : list string;
}.

Definition n_benchmarks_phys (self : FisherInformation) : nat :=
  length (filter (λ b, b = false) (benchmark_is_nuisance self)).

Definition n_nuisance_parameters (self : FisherInformation) : nat :=
  n_benchmarks self - n_benchmarks_phys self.

(** The array of Fisher information that the engine returns: one matrix
    per event, or a reduction of it. *)
Inductive info_array : Set :=
| Info0 (x : float64)
| Info1 (v : vec)
| Info2 (m : mat)
| Info3 (t : t3).

(** [np.sum(a, axis=0)], where the matrices of a rank-3 array are
    [p × p]. *)
Definition np_sum_axis0 (p : nat) (a : info_array) : info_array :=
  match a with
  | Info0 x => Info0 x
  | Info1 v => Info0 (sum_vec v)
  | Info2 m => Info1 (sum_axis0_mat (ncols m) m)
  | Info3 t => Info2 (sum_axis0_t3 p p t)
  end.

(** Modelled from the spec: [madminer.utils.analysis.mdot] is not among
    the sources.  Section 4.2 of the specification gives the cross section
    of an event as the dot product of the combination vector with the
    benchmark weights of the event, and its gradient as the gradient
    matrix applied to them. *)
Definition dot (v w : vec) : float64 := sum_vec (zip_with fmul v w).
Definition mdot_vec (theta_matrix : vec) (weights_benchmarks : mat) : vec :=
  dot theta_matrix <$> weights_benchmarks.
Definition mdot_mat (dtheta_matrix : mat) (weights_benchmarks : mat) : mat :=
  (λ row : vec, dot row <$> weights_benchmarks) <$> dtheta_matrix.

(** Modelled from the spec: [madminer.utils.various.sanitize_array] is not
    among the sources.  Section 4.2 of the specification keeps a finite
    entry and replaces every other entry by zero. *)
Definition sanitize (x : float64) : float64 := if is_finite x then x else fzero.
Definition sanitize_array (v : vec) : vec := sanitize <$> v.
Definition sanitize_array4 (t : t4) : t4 := map_t4 sanitize t.

(** The loop that fills the covariance of the inputs. *)
Definition fill_covariance_inputs (weights_benchmark_uncertainties : mat)
    (n_events n_benchmarks : nat) (covariance_inputs : t3) : res t3 :=
  for_each (λ covariance_inputs '(i, b1, b2),
      if (b1 =? b2)%Z then
        u ← getitem2 weights_benchmark_uncertainties i b1;
        setitem3 covariance_inputs i b1 b2 (fsquare u)
      else
        u1 ← getitem2 weights_benchmark_uncertainties i b1;
        u2 ← getitem2 weights_benchmark_uncertainties i b2;
        setitem3 covariance_inputs i b1 b2 (fmul u1 u2))
    (zip3 (range n_events) (range n_benchmarks) (range n_benchmarks))
    covariance_inputs.

Section Engine.

(** The reweighter: [get_theta_benchmark_matrix("morphing", theta,
    self.benchmarks, self.morpher)], of shape [(n_benchmarks,)], and
    [get_dtheta_benchmark_matrix], of shape
    [(n_parameters, n_benchmarks)]. *)
Variable get_theta_benchmark_matrix : vec → vec.
Variable get_dtheta_benchmark_matrix : vec → mat.

(** [np.log] on one entry. *)
Variable np_log : float64 → float64.

(** The nuisance-parameter branch: the extended matrix. *)
Definition nuisance_information (self : FisherInformation)
    (weights_benchmarks : mat) (luminosity : float64)
    (weights_sampling_benchmark : option vec)
    (sigma : vec) (dsigma : mat) (fisher_info_phys : t3) : res mat :=
  weights_sampling_benchmark ←
    match weights_sampling_benchmark with
    | Some w => Ok w
    | None => column weights_benchmarks 0
    end;
  nuisance_weights ←
    mask_rows (benchmark_is_nuisance self)
      (transpose (ncols weights_benchmarks) weights_benchmarks);
  nuisance_weight_ratio ←
    broadcast_mat fdiv nuisance_weights [weights_sampling_benchmark];
  let log_ratio := map_mat np_log nuisance_weight_ratio in
  nuisance ← einsum_n_in_jn sigma log_ratio log_ratio;
  let fisher_info_nuisance := map_t3 (fmul luminosity) nuisance in
  mix ← einsum_in_jn (length weights_benchmarks) dsigma log_ratio;
  let fisher_info_mix := map_t3 (fmul luminosity) mix in
  let n_all_parameters := n_parameters self + n_nuisance_parameters self in
  let fisher_info := zeros2 n_all_parameters n_all_parameters in
  fisher_info ←
    assign_block fisher_info 0 0 (n_parameters self) (n_parameters self)
      fisher_info_phys;
  fisher_info ←
    assign_block fisher_info 0 (n_parameters self)
      (n_parameters self) (n_nuisance_parameters self) fisher_info_mix;
  fisher_info ←
    assign_block fisher_info (n_parameters self) 0
      (n_nuisance_parameters self) (n_parameters self)
      (transpose3 (length dsigma) (length log_ratio) fisher_info_mix);
  assign_block fisher_info (n_parameters self) (n_parameters self)
    (n_nuisance_parameters self) (n_nuisance_parameters self)
    fisher_info_nuisance.

(** The error-propagation branch: the covariance of the information. *)
Definition covariance_of_information (self : FisherInformation)
    (weights_benchmarks : mat) (luminosity : float64)
    (weights_benchmark_uncertainties : option mat)
    (theta_matrix : vec) (dtheta_matrix : mat)
    (inv_sigma : vec) (dsigma : mat) : res t4 :=
  weights_benchmarks_phys ←
    mask_cols (negb <$> benchmark_is_nuisance self) weights_benchmarks;
  let n_events := length weights_benchmarks_phys in
  let n_benchmarks := ncols weights_benchmarks_phys in
  let weights_benchmark_uncertainties :=
    default weights_benchmarks_phys weights_benchmark_uncertainties in
  covariance_inputs ←
    np_zeros3 (PyInt n_events) (PyFloatArray weights_benchmarks_phys)
      (PyFloatArray weights_benchmarks_phys);
  covariance_inputs ←
    fill_covariance_inputs weights_benchmark_uncertainties n_events n_benchmarks
      covariance_inputs;
  temp1 ← einsum_ib_jn_n dtheta_matrix dsigma inv_sigma;
  temp2 ← einsum_jb_in_n dtheta_matrix dsigma inv_sigma;
  temp3 ← einsum_b_in_jn_n_n theta_matrix dsigma dsigma inv_sigma inv_sigma;
  let temp1 := sanitize_array4 temp1 in
  let temp2 := sanitize_array4 temp2 in
  let temp3 := sanitize_array4 temp3 in
  temp12 ← add_t4 temp1 temp2;
  temp123 ← add_t4 temp12 temp3;
  let jacobian := map_t4 (fmul luminosity) temp123 in
  einsum_ijnb_nbc_klnc jacobian covariance_inputs jacobian.

Definition _calculate_fisher_information (self : FisherInformation)
    (theta : vec) (weights_benchmarks : mat) (luminosity : float64)
    (include_nuisance_parameters sum_events calculate_uncertainty : bool)
    (weights_benchmark_uncertainties : option mat)
    (weights_sampling_benchmark : option vec)
    : res (info_array * option t4) :=
  let theta_matrix := get_theta_benchmark_matrix theta in
  let dtheta_matrix := get_dtheta_benchmark_matrix theta in
  let sigma := mdot_vec theta_matrix weights_benchmarks in
  let inv_sigma := sanitize_array (fdiv fone <$> sigma) in
  let dsigma := mdot_mat dtheta_matrix weights_benchmarks in
  phys ← einsum_n_in_jn inv_sigma dsigma dsigma;
  let fisher_info_phys := map_t3 (fmul luminosity) phys in
  fisher_info ←
    (if include_nuisance_parameters then
       Info2 <$> nuisance_information self weights_benchmarks luminosity
                   weights_sampling_benchmark sigma dsigma fisher_info_phys
     else Ok (Info3 fisher_info_phys));
  if calculate_uncertainty then
    covariance_information ←
      covariance_of_information self weights_benchmarks luminosity
        weights_benchmark_uncertainties theta_matrix dtheta_matrix inv_sigma dsigma;
    if sum_events then
      Ok (np_sum_axis0 (length dsigma) fisher_info, Some covariance_information)
    else Ok (fisher_info, Some covariance_information)
  else if sum_events then Ok (np_sum_axis0 (length dsigma) fisher_info, None)
  else Ok (fisher_info, None).

End Engine.

(** ** Expressions: cuts, efficiencies, observables *)

(** The expressions handed to Python's [eval], after parsing. *)
Inductive binop : Set := Add | Sub | Mult | Div.
Inductive cmpop : Set := CLt | CLtE | CGt | CGtE | CEq | CNotEq.
Inductive boolop : Set := And | Or.

#[warnings="-register-all"]
Inductive expr : Set :=
| Num (x : Q)
| Constant (b : bool)
| Name (id : string)
| BinOp (left : expr) (op : binop) (right : expr)
| Compare (left : expr) (op : cmpop) (right : expr)
| BoolOp (op : boolop) (left right : expr)
| Not (operand : expr)
| Call (func : string) (args : list expr).

Inductive value : Set :=
| VFloat (x : float64)
| VBool (b : bool)
| VFunction (name : string).

(** [bool(v)] *)
Definition truthy (v : value) : bool :=
  match v with
  | VBool b => b
  | VFloat (Fin q) => negb (Qeq_bool q 0)
  | VFloat _ => true
  | VFunction _ => true
  end.

(** [float(v)] *)
Definition to_float (v : value) : res float64 :=
  match v with
  | VFloat x => Ok x
  | VBool b => Ok (if b then fone else fzero)
  | VFunction _ => Raise TypeError
  end.

Definition is_zero (x : float64) : bool :=
  match x with Fin q => Qeq_bool q 0 | _ => false end.

Definition arith (op : binop) (a b : value) : res value :=
  x ← to_float a;
  y ← to_float b;
  match op with
  | Add => Ok (VFloat (fadd x y))
  | Sub => Ok (VFloat (fsub x y))
  | Mult => Ok (VFloat (fmul x y))
  | Div => if is_zero y then Raise ZeroDivisionError else Ok (VFloat (fdiv x y))
  end.

(** IEEE comparison: every comparison with [NaN] is false. *)
Definition flt (x y : float64) : bool :=
  match x, y with
  | NaN, _ | _, NaN => false
  | Fin a, Fin b => match (a ?= b)%Q with Lt => true | _ => false end
  | Fin _, PInf | NInf, Fin _ | NInf, PInf => true
  | Fin _, NInf | NInf, NInf | PInf, _ => false
  end.

Definition feqb (x y : float64) : bool :=
  match x, y with
  | Fin a, Fin b => Qeq_bool a b
  | PInf, PInf | NInf, NInf => true
  | _, _ => false
  end.

Definition compare_values (op : cmpop) (a b : value) : res value :=
  x ← to_float a;
  y ← to_float b;
  Ok (VBool match op with
            | CLt => flt x y
            | CLtE => flt x y || feqb x y
            | CGt => flt y x
            | CGtE => flt y x || feqb x y
            | CEq => feqb x y
            | CNotEq => negb (feqb x y)
            end).

(** The observables that an instance declares in [readers.py]. *)
Inductive val_expression_t : Set :=
| ExprStr (e : expr)
| ExprCallable.

Record Observable : Set := {
  name : string;
  val_expression : val_expression_t;
  val_default : option float64;
  is_required : bool;
}.

Section Expressions.

(** The names that Python resolves when the dictionary handed to [eval]
    does not bind them. *)
Variable builtins : gmap string value.

(** Modelled from the spec: [madminer.utils.various.math_commands] is not
    among the sources.  Section 4.1 of the specification describes it as
    a fixed table of math functions. *)
Variable math_commands : gmap string value.

(** The call of a function value on evaluated arguments; a wrong number
    of arguments is a [TypeError]. *)
Variable call_function : string → list value → res value.

Definition lookup_name (globals : gmap string value) (id : string) : res value :=
  match globals !! id with
  | Some v => Ok v
  | None =>
      match builtins !! id with
      | Some v => Ok v
      | None => Raise NameError
      end
  end.

(** [eval(e, globals)] *)
Fixpoint eval (globals : gmap string value) (e : expr) : res value :=
  match e with
  | Num x => Ok (VFloat (Fin x))
  | Constant b => Ok (VBool b)
  | Name id => lookup_name globals id
  | BinOp l op r =>
      a ← eval globals l; b ← eval globals r; arith op a b
  | Compare l op r =>
      a ← eval globals l; b ← eval globals r; compare_values op a b
  | BoolOp And l r =>
      a ← eval globals l; if truthy a then eval globals r else Ok a
  | BoolOp Or l r =>
      a ← eval globals l; if truthy a then Ok a else eval globals r
  | Not e' => a ← eval globals e'; Ok (VBool (negb (truthy a)))
  | Call func args =>
      f ← lookup_name globals func;
      vs ← (fix eval_args (l : list expr) : res (list value) :=
              match l with
              | [] => Ok []
              | a :: l' => v ← eval globals a; vs ← eval_args l'; Ok (v :: vs)
              end) args;
      match f with
      | VFunction name => call_function name vs
      | _ => Raise TypeError
      end
  end.

(** The variables that cuts, efficiencies and observables may use. *)
Definition bind_observables (self : FisherInformation) (observations : vec)
    : gmap string value :=
  foldl (λ variables '(observable_name, observable_value),
      <[observable_name := VFloat observable_value]> variables)
    math_commands (zip (observables self) observations).

Fixpoint check_cuts (variables : gmap string value) (cuts : list expr) : res bool :=
  match cuts with
  | [] => Ok true
  | cut :: cuts' =>
      v ← eval variables cut;
      if negb (truthy v) then Ok false else check_cuts variables cuts'
  end.

Definition _pass_cuts (self : FisherInformation) (observations : vec)
    (cuts : option (list expr)) : res bool :=
  let cuts := default [] cuts in
  _ ← py_assert (length observations =? length (observables self));
  check_cuts (bind_observables self observations) cuts.

Definition _eval_efficiency (self : FisherInformation) (observations : vec)
    (efficiency_functions : option (list expr)) : res float64 :=
  let efficiency_functions := default [] efficiency_functions in
  _ ← py_assert (length observations =? length (observables self));
  let variables := bind_observables self observations in
  for_each (λ efficiency efficency_function,
      v ← eval variables efficency_function;
      x ← to_float v;
      Ok (fmul efficiency x))
    efficiency_functions fone.

Definition _eval_observable (self : FisherInformation) (observations : vec)
    (observable_definition : expr) : res float64 :=
  _ ← py_assert (length observations =? length (observables self));
  let variables := bind_observables self observations in
  v ← eval variables observable_definition;
  to_float v.

(** The global names of the module [readers.py], against which
    [Observable.__post_init__] evaluates. *)
Variable readers_globals : gmap string value.

(** [Observable.__post_init__]: [with suppress(NameError): eval(...)]. *)
Definition __post_init__ (self : Observable) : res unit :=
  match val_expression self with
  | ExprCallable => Ok tt
  | ExprStr e =>
      match eval readers_globals e with
      | Ok _ => Ok tt
      | Raise NameError => Ok tt
      | Raise e => Raise e
      end
  end.

(** Construction of an [Observable]: the dataclass stores the fields and
    runs [__post_init__]. *)
Definition new_Observable (name : string) (val_expression : val_expression_t)
    (val_default : option float64) (is_required : bool) : res Observable :=
  let self := {| name := name; val_expression := val_expression;
                 val_default := val_default; is_required := is_required |} in
  _ ← __post_init__ self;
  Ok self.

End Expressions.

(** ** Aggregation over the batches of the event source *)

(** The [batch_size] argument of the event loader. *)
Inductive batch_size_t : Set :=
| DefaultBatchSize
| BatchSize (n : nat).

(** What [_calculate_xsec] returns: the benchmark cross sections or the
    cross section at [theta], each with or without its uncertainty. *)
Inductive xsec_result : Set :=
| BenchmarkXsecs (xsecs : vec) (uncertainty : option vec)
| ThetaXsec (xsec : float64) (uncertainty : option float64).

(** [target += s] on a one-dimensional array: [s] is broadcast to the
    shape of [target]. *)
Definition iadd_vec (target s : vec) : res vec :=
  if length s =? length target then Ok (zip_with fadd target s)
  else match s with
       | [x] => Ok ((λ t, fadd t x) <$> target)
       | _ => Raise ValueError
       end.

(** [a[i] += s] on a two-dimensional array. *)
Definition iadd_row (a : mat) (i : Z) (s : vec) : res mat :=
  i' ← norm_index (length a) i;
  row ← from_lookup (a !! i');
  row' ← iadd_vec row s;
  Ok (<[i' := row']> a).

(** [weights *= efficiencies[:, np.newaxis]] *)
Definition scale_rows (weights : mat) (efficiencies : vec) : res mat :=
  if length efficiencies =? length weights then
    Ok (zip_with (λ (row : vec) e, (λ w, fmul w e) <$> row) weights efficiencies)
  else match efficiencies with
       | [e] => Ok (map_mat (λ w, fmul w e) weights)
       | _ => Raise ValueError
       end.

(** [np.linspace(start, stop, num)] *)
Definition np_linspace (start stop : float64) (num : nat) : vec :=
  match num with
  | 0 => []
  | 1 => [start]
  | _ => tab1 num (λ k,
           fadd start (fmul (of_nat_f k) (fdiv (fsub stop start) (of_nat_f (num - 1)))))
  end.

(** The order in which NumPy sorts: IEEE order with [NaN] last. *)
Definition sorts_before (b x : float64) : bool :=
  flt b x || (match x, b with NaN, NaN => false | NaN, _ => true | _, _ => false end).

(** [np.searchsorted(boundaries, x)] for sorted [boundaries]: the number
    of boundaries that sort strictly before [x]. *)
Definition np_searchsorted (boundaries : vec) (x : float64) : Z :=
  Z.of_nat (length (filter (λ b, sorts_before b x = true) boundaries)).

Section Aggregator.

Variable get_theta_benchmark_matrix : vec → vec.
Variable get_dtheta_benchmark_matrix : vec → mat.
Variable np_log : float64 → float64.
Variable builtins : gmap string value.
Variable math_commands : gmap string value.
Variable call_function : string → list value → res value.

(** [x ** 0.5] on one entry. *)
Variable np_sqrt : float64 → float64.

(** The event source [madminer_event_loader(self.madminer_filename,
    start=..., batch_size=...)]: the batches of observations and
    benchmark weights that it yields, one weight column per benchmark. *)
Variable madminer_event_loader : nat → batch_size_t → list (mat * mat).

(** [madminer.utils.various.weighted_quantile(values, quantiles,
    sample_weight)], which is not among the sources. *)
Variable weighted_quantile : vec → vec → vec → vec.

(** Number of columns of a weight array; one without rows still has a
    column per benchmark. *)
Definition weight_columns (self : FisherInformation) (weights : mat) : nat :=
  match weights with
  | [] => n_benchmarks self
  | row :: _ => length row
  end.

(** The cuts and efficiencies applied to one batch. *)
Definition apply_cuts_and_efficiencies (self : FisherInformation)
    (cuts efficiency_functions : list expr) (observations weights : mat)
    : res (mat * mat) :=
  cut_filter ←
    list_comp (λ obs_event,
        _pass_cuts builtins math_commands call_function self obs_event (Some cuts))
      observations;
  observations ← mask_rows cut_filter observations;
  weights ← mask_rows cut_filter weights;
  efficiencies ←
    list_comp (λ obs_event,
        _eval_efficiency builtins math_commands call_function self obs_event
          (Some efficiency_functions))
      observations;
  weights ← scale_rows weights efficiencies;
  Ok (observations, weights).

Definition _calculate_xsec (self : FisherInformation) (theta : option vec)
    (cuts efficiency_functions : option (list expr))
    (return_benchmark_xsecs return_error : bool) (start_event : nat)
    : res xsec_result :=
  let cuts := default [] cuts in
  let efficiency_functions := default [] efficiency_functions in
  _ ← py_assert (bool_decide (is_Some theta) || return_benchmark_xsecs);
  totals ←
    for_each (λ (totals : option (vec * vec)) '(observations, weights),
        '(observations, weights) ←
          apply_cuts_and_efficiencies self cuts efficiency_functions
            observations weights;
        let b := weight_columns self weights in
        match totals with
        | None =>
            Ok (Some (sum_axis0_mat b weights,
                      sum_axis0_mat b (map_mat fsquare weights)))
        | Some (xsecs_benchmarks, xsecs_uncertainty_benchmarks) =>
            xsecs_benchmarks ← iadd_vec xsecs_benchmarks (sum_axis0_mat b weights);
            xsecs_uncertainty_benchmarks ←
              iadd_vec xsecs_uncertainty_benchmarks
                (sum_axis0_mat b (map_mat fsquare weights));
            Ok (Some (xsecs_benchmarks, xsecs_uncertainty_benchmarks))
        end)
      (madminer_event_loader start_event DefaultBatchSize) None;
  match totals with
  | None => Raise AssertionError
  | Some (xsecs_benchmarks, xsecs_uncertainty_benchmarks) =>
      let xsecs_uncertainty_benchmarks := np_sqrt <$> xsecs_uncertainty_benchmarks in
      if return_benchmark_xsecs then
        Ok (BenchmarkXsecs xsecs_benchmarks
              (if return_error then Some xsecs_uncertainty_benchmarks else None))
      else
        let theta_matrix := get_theta_benchmark_matrix (default [] theta) in
        xsec ← inner theta_matrix xsecs_benchmarks;
        xsec_error ← inner theta_matrix xsecs_uncertainty_benchmarks;
        Ok (ThetaXsec xsec (if return_error then Some xsec_error else None))
  end.

Definition calculate_fisher_information_rate (self : FisherInformation)
    (theta : vec) (luminosity : float64)
    (cuts efficiency_functions : option (list expr))
    : res (info_array * option t4) :=
  xsecs ← _calculate_xsec self None cuts efficiency_functions true true 0;
  match xsecs with
  | BenchmarkXsecs weights_benchmarks (Some weights_benchmark_uncertainties) =>
      _calculate_fisher_information get_theta_benchmark_matrix
        get_dtheta_benchmark_matrix np_log self theta
        [weights_benchmarks] luminosity false true true
        (Some [weights_benchmark_uncertainties]) None
  | _ => Raise TypeError
  end.

(** The bins of [calculate_fisher_information_hist1d]: their number and
    their boundaries. *)
Definition hist1d_binning (self : FisherInformation) (theta : vec)
    (observable : expr) (nbins : nat) (histrange : option (float64 * float64))
    (cuts efficiency_functions : list expr) (n_events_dynamic_binning : nat)
    : res (nat * vec) :=
  match histrange with
  | None =>
      let n_bins_total := nbins in
      let quantile_values := np_linspace fzero fone (nbins + 1) in
      '(x_pilot, weights_pilot) ←
        py_next (madminer_event_loader 0 (BatchSize n_events_dynamic_binning));
      '(x_pilot, weights_pilot) ←
        apply_cuts_and_efficiencies self cuts efficiency_functions x_pilot weights_pilot;
      histo_observables_pilot ←
        list_comp (λ x,
            _eval_observable builtins math_commands call_function self x observable)
          x_pilot;
      let theta_matrix := get_theta_benchmark_matrix theta in
      weight_theta_pilot ← list_comp (inner theta_matrix) weights_pilot;
      let bin_boundaries :=
        weighted_quantile histo_observables_pilot quantile_values weight_theta_pilot in
      let bin_boundaries := drop 1 (take (length bin_boundaries - 1) bin_boundaries) in
      Ok (n_bins_total, bin_boundaries)
  | Some (histmin, histmax) =>
      Ok (nbins + 2, np_linspace histmin histmax (nbins + 1))
  end.

(** One pass of the batch loop of [calculate_fisher_information_hist1d]. *)
Definition hist1d_batch (self : FisherInformation) (observable : expr)
    (n_bins_total : nat) (bin_boundaries : vec)
    (cuts efficiency_functions : list expr)
    (acc : mat * mat) (batch : mat * mat) : res (mat * mat) :=
  '(observations, weights) ←
    apply_cuts_and_efficiencies self cuts efficiency_functions batch.1 batch.2;
  histo_observables ←
    list_comp (λ obs_event,
        _eval_observable builtins math_commands call_function self obs_event observable)
      observations;
  let bins := np_searchsorted bin_boundaries <$> histo_observables in
  _ ← py_assert
        (forallb (λ b, (0 <=? b)%Z && (b <? Z.of_nat n_bins_total)%Z) bins);
  for_each (λ '(weights_benchmarks, weights_squared_benchmarks) i,
      selected ← mask_rows ((λ b, (b =? i)%Z) <$> bins) weights;
      if 0 <? length selected then
        weights_benchmarks ←
          iadd_row weights_benchmarks i
            (sum_axis0_mat (ncols selected) selected);
        weights_squared_benchmarks ←
          iadd_row weights_squared_benchmarks i
            (sum_axis0_mat (ncols selected) (map_mat fsquare selected));
        Ok (weights_benchmarks, weights_squared_benchmarks)
      else Ok (weights_benchmarks, weights_squared_benchmarks))
    (range n_bins_total) acc.

(** The per-bin sums of the benchmark weights and of their squares. *)
Definition hist1d_weights (self : FisherInformation) (observable : expr)
    (n_bins_total : nat) (bin_boundaries : vec)
    (cuts efficiency_functions : list expr) : res (mat * mat) :=
  for_each
    (hist1d_batch self observable n_bins_total bin_boundaries cuts efficiency_functions)
    (madminer_event_loader 0 DefaultBatchSize)
    (zeros2 n_bins_total (n_benchmarks self),
     zeros2 n_bins_total (n_benchmarks self)).

Definition calculate_fisher_information_hist1d (self : FisherInformation)
    (theta : vec) (luminosity : float64) (observable : expr) (nbins : nat)
    (histrange : option (float64 * float64))
    (cuts efficiency_functions : option (list expr))
    (n_events_dynamic_binning : nat) : res (info_array * option t4) :=
  let cuts := default [] cuts in
  let efficiency_functions := default [] efficiency_functions in
  '(n_bins_total, bin_boundaries) ←
    hist1d_binning self theta observable nbins histrange cuts efficiency_functions
      n_events_dynamic_binning;
  '(weights_benchmarks, weights_squared_benchmarks) ←
    hist1d_weights self observable n_bins_total bin_boundaries cuts
      efficiency_functions;
  let weights_benchmark_uncertainties := map_mat np_sqrt weights_squared_benchmarks in
  _calculate_fisher_information get_theta_benchmark_matrix
    get_dtheta_benchmark_matrix np_log self theta
    weights_benchmarks luminosity false true true
    (Some weights_benchmark_uncertainties) None.

End Aggregator.
(** ** Notions and examples used in the statements *)

(** The matrix that the projection is to return. *)
Definition projected (m : mat) (remaining_components : list Z) : mat :=
  (λ xold, (λ yold, at2 m (Z.to_nat xold) (Z.to_nat yold)) <$> remaining_components)
    <$> remaining_components.

Definition example_matrix : mat :=
  [[Fin 1; Fin 2; Fin 3]; [Fin 4; Fin 5; Fin 6]; [Fin 7; Fin 8; Fin 9]]%Q.

Definition example_fisher : mat := [[Fin 2; Fin 1]; [Fin 1; Fin 2]]%Q.

Definition sign_mul (a b : comparison) : comparison :=
  match a, b with
  | Eq, _ | _, Eq => Eq
  | Lt, Lt | Gt, Gt => Gt
  | Lt, Gt | Gt, Lt => Lt
  end.

(** The reciprocal of the specification: [1/sigma] where [sigma] is
    nonzero and finite, zero otherwise. *)
Definition inv_sigma_spec (sigma : float64) : float64 :=
  match sigma with
  | Fin q => if Qeq_bool q 0 then fzero else Fin (Qred (1 / q)%Q)
  | _ => fzero
  end.

(** The tensor of the physical block, entry by entry. *)
Definition physical_block (theta_matrix : vec) (dtheta_matrix weights_benchmarks : mat)
    (luminosity : float64) : t3 :=
  let sigma := mdot_vec theta_matrix weights_benchmarks in
  let inv_sigma := sanitize_array (fdiv fone <$> sigma) in
  let dsigma := mdot_mat dtheta_matrix weights_benchmarks in
  map_t3 (fmul luminosity)
    (tab3 (length weights_benchmarks) (length dtheta_matrix) (length dtheta_matrix)
       (λ n i j, fmul (fmul (nth_f inv_sigma n) (at2 dsigma i n)) (at2 dsigma j n))).

Definition example_self : FisherInformation :=
  {| n_parameters := 1; n_benchmarks := 1; benchmark_is_nuisance := [false];
     observables := [] |}.

(** [x >= 0] for a floating-point value: false for [NaN]. *)
Definition f_ge0 (x : float64) : Prop :=
  match x with
  | Fin q => (0 <= q)%Q
  | PInf => True
  | NInf | NaN => False
  end.

Definition all_finite (v : vec) : Prop := Forall (λ x, is_finite x = true) v.

Definition example_self_nuisance : FisherInformation :=
  {| n_parameters := 1; n_benchmarks := 2; benchmark_is_nuisance := [false; true];
     observables := [] |}.

(** The names that an expression refers to. *)
Fixpoint names (e : expr) : list string :=
  match e with
  | Num _ | Constant _ => []
  | Name id => [id]
  | BinOp l _ r | Compare l _ r | BoolOp _ l r => names l ++ names r
  | Not e' => names e'
  | Call func args => func :: flat_map names args
  end.

(** Expressions without the short-circuit operators [and] and [or]: all
    of their subexpressions are evaluated. *)
Fixpoint strict (e : expr) : bool :=
  match e with
  | Num _ | Constant _ | Name _ => true
  | BinOp l _ r | Compare l _ r => strict l && strict r
  | BoolOp _ _ _ => false
  | Not e' => strict e'
  | Call _ args => forallb strict args
  end.

Definition no_functions : string → list value → res value := λ _ _, Raise TypeError.

Definition example_self_pt : FisherInformation :=
  {| n_parameters := 1; n_benchmarks := 2; benchmark_is_nuisance := [false; false];
     observables := ["pt"] |}.

(** Values that adding zero leaves unchanged: the special values and the
    rationals in lowest terms. *)
Definition normal_f (x : float64) : Prop := fadd x fzero = x.

(** The rows of [weights] whose bin is [i]: [weights[bins == i]]. *)
Definition bin_rows (bins : list Z) (weights : mat) (i : Z) : mat :=
  fst <$> filter (λ p, snd p = true) (zip weights ((λ b, (b =? i)%Z) <$> bins)).

(** The rows whose bin is below [k]. *)
Definition rows_below (bins : list Z) (weights : mat) (k : nat) : mat :=
  fst <$> filter (λ p, (0 ≤ snd p < Z.of_nat k)%Z) (zip weights bins).

(** Two events in two different bins, one observable, two benchmarks. *)
Definition example_loader : nat → batch_size_t → list (mat * mat) :=
  λ _ _, [([[Fin 0]; [Fin 10]], [[Fin 1; Fin 0]; [Fin 0; Fin 1]])].

Definition example_theta_matrix : vec → vec := λ _, [Fin 1; Fin 1].

Definition example_dtheta_matrix : vec → mat := λ _, [[Fin 1; Fin (-1)]].

(** ** [calculate_fisher_information_full_truth] *)

(** [target += s] on nested arrays: [s] is broadcast to the shape of
    [target], axis by axis. *)
Definition iadd_list {A : Type} (iadd : A → A → res A) (target s : list A)
    : res (list A) :=
  if length s =? length target then
    list_comp (λ '(t, x), iadd t x) (zip target s)
  else match s with
       | [x] => list_comp (λ t, iadd t x) target
       | _ => Raise ValueError
       end.

Definition iadd_mat (target s : mat) : res mat := iadd_list iadd_vec target s.
Definition iadd_t3 (target s : t3) : res t3 := iadd_list iadd_mat target s.
Definition iadd_t4 (target s : t4) : res t4 := iadd_list iadd_t3 target s.

(** [target += s] for a matrix and whatever array the engine returned;
    an extra leading axis of [s] must have length one. *)
Definition iadd_info (target : mat) (s : info_array) : res mat :=
  match s with
  | Info0 x => Ok (map_mat (λ t, fadd t x) target)
  | Info1 v => iadd_mat target [v]
  | Info2 m => iadd_mat target m
  | Info3 [m] => iadd_mat target m
  | Info3 _ => Raise ValueError
  end.

Section FullTruth.

Variable get_theta_benchmark_matrix : vec → vec.
Variable get_dtheta_benchmark_matrix : vec → mat.
Variable np_log : float64 → float64.
Variable builtins : gmap string value.
Variable math_commands : gmap string value.
Variable call_function : string → list value → res value.
Variable madminer_event_loader : nat → batch_size_t → list (mat * mat).

Definition calculate_fisher_information_full_truth (self : FisherInformation)
    (theta : vec) (luminosity : float64)
    (cuts efficiency_functions : option (list expr)) : res (mat * t4) :=
  let cuts := default [] cuts in
  let efficiency_functions := default [] efficiency_functions in
  let fisher_info := zeros2 (n_parameters self) (n_parameters self) in
  let covariance :=
    zeros4 (n_parameters self) (n_parameters self) (n_parameters self)
      (n_parameters self) in
  for_each (λ '(fisher_info, covariance) '(observations, weights),
      '(observations, weights) ←
        apply_cuts_and_efficiencies builtins math_commands call_function self
          cuts efficiency_functions observations weights;
      '(this_fisher_info, this_covariance) ←
        _calculate_fisher_information get_theta_benchmark_matrix
          get_dtheta_benchmark_matrix np_log self theta weights luminosity
          false true true None None;
      fisher_info ← iadd_info fisher_info this_fisher_info;
      covariance ←
        match this_covariance with
        | Some this_covariance => iadd_t4 covariance this_covariance
        | None => Raise TypeError
        end;
      Ok (fisher_info, covariance))
    (madminer_event_loader 0 DefaultBatchSize) (fisher_info, covariance).

End FullTruth.

(** An index counted from the end, written from the front. *)
Definition wrap_index (n : nat) (k : Z) : Z :=
  if (k <? 0)%Z then (Z.of_nat n + k)%Z else k.

(** The components of the input that remain after keeping [outer] and
    then, of those, [inner]. *)
Definition compose_components (outer inner : list Z) : list Z :=
  (λ k, default 0%Z (outer !! Z.to_nat k)) <$> inner.

(** ** [extract_raw_data] and [extract_observables_and_weights] *)

Section Extract.

Variable get_theta_benchmark_matrix : vec → vec.

(** The batches that
    [madminer_event_loader(self.madminer_filename, batch_size=None)]
    yields. *)
Variable madminer_event_loader_all : list (mat * mat).

(** [theta_matrix.dot(weights_benchmarks.T)]: the contraction over the
    benchmarks, one entry per event. *)
Definition dot_weights_T (self : FisherInformation) (theta_matrix : vec)
    (weights_benchmarks : mat) : res vec :=
  if length theta_matrix =? weight_columns self weights_benchmarks then
    list_comp (inner theta_matrix) weights_benchmarks
  else Raise ValueError.

Definition extract_raw_data (self : FisherInformation) (theta : option vec)
    : res (mat * ndarray) :=
  '(x, weights_benchmarks) ← py_next madminer_event_loader_all;
  match theta with
  | Some theta =>
      let theta_matrix := get_theta_benchmark_matrix theta in
      weights_theta ← dot_weights_T self theta_matrix weights_benchmarks;
      Ok (x, A1 weights_theta)
  | None => Ok (x, A2 weights_benchmarks)
  end.

Definition extract_observables_and_weights (self : FisherInformation)
    (thetas : mat) : res (mat * mat) :=
  '(x, weights_benchmarks) ← py_next madminer_event_loader_all;
  weights_thetas ←
    list_comp (λ theta,
        let theta_matrix := get_theta_benchmark_matrix theta in
        dot_weights_T self theta_matrix weights_benchmarks)
      thetas;
  Ok (x, weights_thetas).

End Extract.

(** ** [histogram_of_fisher_information] *)

(** [a[mask]] with a boolean mask along the first axis. *)
Definition mask_info (mask : list bool) (a : info_array) : res info_array :=
  match a with
  | Info0 _ => Raise IndexError
  | Info1 v => Info1 <$> mask_rows mask v
  | Info2 m => Info2 <$> mask_rows mask m
  | Info3 t => Info3 <$> mask_rows mask t
  end.

(** Size of the matrices of a stack of square matrices, read off the
    first one. *)
Definition info_dim (a : info_array) : nat :=
  match a with
  | Info3 (m :: _) => length m
  | _ => 0
  end.

(** [a[i] += s] on a three-dimensional array. *)
Definition iadd_slice (a : t3) (i : Z) (s : info_array) : res t3 :=
  i' ← norm_index (length a) i;
  m ← from_lookup (a !! i');
  m' ← iadd_info m s;
  Ok (<[i' := m']> a).

Section Histogram.

Variable get_theta_benchmark_matrix : vec → vec.
Variable get_dtheta_benchmark_matrix : vec → mat.
Variable np_log : float64 → float64.
Variable builtins : gmap string value.
Variable math_commands : gmap string value.
Variable call_function : string → list value → res value.
Variable madminer_event_loader : nat → batch_size_t → list (mat * mat).

(** One pass of the batch loop of [histogram_of_fisher_information]. *)
Definition histogram_batch (self : FisherInformation) (theta : vec)
    (luminosity : float64) (observable : expr)
    (n_bins_total : nat) (bin_boundaries : vec)
    (cuts efficiency_functions : list expr)
    (acc : mat * t3) (batch : mat * mat) : res (mat * t3) :=
  '(observations, weights) ←
    apply_cuts_and_efficiencies builtins math_commands call_function self cuts
      efficiency_functions batch.1 batch.2;
  '(fisher_info_events, _) ←
    _calculate_fisher_information get_theta_benchmark_matrix
      get_dtheta_benchmark_matrix np_log self theta weights luminosity
      false false false None None;
  histo_observables ←
    list_comp (λ obs_event,
        _eval_observable builtins math_commands call_function self obs_event observable)
      observations;
  let bins := np_searchsorted bin_boundaries <$> histo_observables in
  _ ← py_assert
        (forallb (λ b, (0 <=? b)%Z && (b <? Z.of_nat n_bins_total)%Z) bins);
  for_each (λ '(weights_benchmarks_bins, fisher_info_full_bins) i,
      let mask := (λ b, (b =? i)%Z) <$> bins in
      selected ← mask_rows mask weights;
      if 0 <? length selected then
        weights_benchmarks_bins ←
          iadd_row weights_benchmarks_bins i
            (sum_axis0_mat (ncols selected) selected);
        selected_events ← mask_info mask fisher_info_events;
        fisher_info_full_bins ←
          iadd_slice fisher_info_full_bins i
            (np_sum_axis0 (info_dim selected_events) selected_events);
        Ok (weights_benchmarks_bins, fisher_info_full_bins)
      else Ok (weights_benchmarks_bins, fisher_info_full_bins))
    (range n_bins_total) acc.

Definition histogram_of_fisher_information (self : FisherInformation)
    (theta : vec) (luminosity : float64) (observable : expr) (nbins : nat)
    (histrange : float64 * float64)
    (cuts efficiency_functions : option (list expr))
    : res (vec * vec * info_array * t3) :=
  let cuts := default [] cuts in
  let efficiency_functions := default [] efficiency_functions in
  let n_bins_total := nbins + 2 in
  let bin_boundaries := np_linspace histrange.1 histrange.2 (nbins + 1) in
  '(weights_benchmarks_bins, fisher_info_full_bins) ←
    for_each
      (histogram_batch self theta luminosity observable n_bins_total
         bin_boundaries cuts efficiency_functions)
      (madminer_event_loader 0 DefaultBatchSize)
      (zeros2 n_bins_total (n_benchmarks self),
       zeros3 n_bins_total (n_parameters self) (n_parameters self));
  let theta_matrix := get_theta_benchmark_matrix theta in
  sigma_bins ← dot_weights_T self theta_matrix weights_benchmarks_bins;
  '(fisher_info_rate_bins, _) ←
    _calculate_fisher_information get_theta_benchmark_matrix
      get_dtheta_benchmark_matrix np_log self theta weights_benchmarks_bins
      luminosity false false false None None;
  Ok (bin_boundaries, sigma_bins, fisher_info_rate_bins, fisher_info_full_bins).

End Histogram.

(** The items whose bin is [i]: [items[bins == i]]. *)
Definition bin_sel {A : Type} (bins : list Z) (items : list A) (i : Z) : list A :=
  fst <$> filter (λ p, snd p = true) (zip items ((λ b, (b =? i)%Z) <$> bins)).

(** The items whose bin is below [k]. *)
Definition sel_below {A : Type} (bins : list Z) (items : list A) (k : nat) : list A :=
  fst <$> filter (λ p, (0 ≤ snd p < Z.of_nat k)%Z) (zip items bins).

(** ** [calculate_fisher_information_hist2d] *)

(** [a & b] on two boolean arrays of rank one. *)
Definition np_and (a b : list bool) : res (list bool) :=
  if length a =? length b then Ok (zip_with andb a b)
  else match a, b with
       | [x], _ => Ok (andb x <$> b)
       | _, [y] => Ok ((λ x, andb x y) <$> a)
       | _, _ => Raise ValueError
       end.

(** [a[i, j] += s] on a three-dimensional array. *)
Definition iadd_cell (a : t3) (i j : Z) (s : vec) : res t3 :=
  i' ← norm_index (length a) i;
  j' ← norm_index (length (nth_row a 0)) j;
  m ← from_lookup (a !! i');
  row ← from_lookup (m !! j');
  row' ← iadd_vec row s;
  Ok (<[i' := <[j' := row']> m]> a).

Section Histogram2d.

Variable get_theta_benchmark_matrix : vec → vec.
Variable get_dtheta_benchmark_matrix : vec → mat.
Variable np_log : float64 → float64.
Variable builtins : gmap string value.
Variable math_commands : gmap string value.
Variable call_function : string → list value → res value.
Variable madminer_event_loader : nat → batch_size_t → list (mat * mat).

(** One pass of the batch loop of [calculate_fisher_information_hist2d]. *)
Definition hist2d_batch (self : FisherInformation) (observable1 observable2 : expr)
    (n_bins1_total : nat) (bin1_boundaries : vec)
    (n_bins2_total : nat) (bin2_boundaries : vec)
    (cuts efficiency_functions : list expr)
    (weights_benchmarks : t3) (batch : mat * mat) : res t3 :=
  '(observations, weights) ←
    apply_cuts_and_efficiencies builtins math_commands call_function self cuts
      efficiency_functions batch.1 batch.2;
  histo1_observables ←
    list_comp (λ obs_event,
        _eval_observable builtins math_commands call_function self obs_event observable1)
      observations;
  histo2_observables ←
    list_comp (λ obs_event,
        _eval_observable builtins math_commands call_function self obs_event observable2)
      observations;
  let bins1 := np_searchsorted bin1_boundaries <$> histo1_observables in
  let bins2 := np_searchsorted bin2_boundaries <$> histo2_observables in
  _ ← py_assert
        (forallb (λ b, (0 <=? b)%Z && (b <? Z.of_nat n_bins1_total)%Z) bins1);
  _ ← py_assert
        (forallb (λ b, (0 <=? b)%Z && (b <? Z.of_nat n_bins1_total)%Z) bins1);
  for_each (λ weights_benchmarks i,
      for_each (λ weights_benchmarks j,
          mask ← np_and ((λ b, (b =? i)%Z) <$> bins1) ((λ b, (b =? j)%Z) <$> bins2);
          selected ← mask_rows mask weights;
          if 0 <? length selected then
            iadd_cell weights_benchmarks i j
              (sum_axis0_mat (ncols selected) selected)
          else Ok weights_benchmarks)
        (range n_bins2_total) weights_benchmarks)
    (range n_bins1_total) weights_benchmarks.

Definition calculate_fisher_information_hist2d (self : FisherInformation)
    (theta : vec) (luminosity : float64)
    (observable1 : expr) (nbins1 : nat) (histrange1 : float64 * float64)
    (observable2 : expr) (nbins2 : nat) (histrange2 : float64 * float64)
    (cuts efficiency_functions : option (list expr))
    : res (info_array * option t4) :=
  let cuts := default [] cuts in
  let efficiency_functions := default [] efficiency_functions in
  let n_bins1_total := nbins1 + 2 in
  let bin1_boundaries := np_linspace histrange1.1 histrange1.2 (nbins1 + 1) in
  let n_bins2_total := nbins1 + 2 in
  let bin2_boundaries := np_linspace histrange2.1 histrange2.2 (nbins2 + 1) in
  weights_benchmarks ←
    for_each
      (hist2d_batch self observable1 observable2 n_bins1_total bin1_boundaries
         n_bins2_total bin2_boundaries cuts efficiency_functions)
      (madminer_event_loader 0 DefaultBatchSize)
      (zeros3 n_bins1_total n_bins2_total (n_benchmarks self));
  weights_benchmarks ←
    reshape_rows (n_benchmarks self) (concat (concat weights_benchmarks));
  _calculate_fisher_information get_theta_benchmark_matrix
    get_dtheta_benchmark_matrix np_log self theta weights_benchmarks luminosity
    false true false None None.

End Histogram2d.

(** * Properties *)

(** ** Indexing *)

Lemma norm_index_ok (n : nat) (i : Z) :
  (0 ≤ i < Z.of_nat n)%Z → norm_index n i = Ok (Z.to_nat i).
Proof.
  intros [H0 H1]. unfold norm_index.
  destruct (Z.leb_spec 0 i); [|lia].
  destruct (Z.ltb_spec i (Z.of_nat n)); [|lia]. reflexivity.
Qed.

Lemma norm_index_nat (n i : nat) :
  i < n → norm_index n (Z.of_nat i) = Ok i.
Proof.
  intros H. rewrite norm_index_ok by lia. by rewrite Nat2Z.id.
Qed.

Lemma is_matrix_ncols (r c : nat) (m : mat) :
  is_matrix r c m → 0 < r → ncols m = c.
Proof.
  intros [Hr Hc] Hpos. destruct m as [|row m]; simpl in *; [lia|].
  by inversion Hc.
Qed.

Lemma is_matrix_row (r c : nat) (m : mat) (i : nat) (row : vec) :
  is_matrix r c m → m !! i = Some row → length row = c.
Proof.
  intros [_ Hc] Hi. eapply (Forall_lookup_1 _ _ _ _ Hc Hi).
Qed.

Lemma getitem2_ok (r c : nat) (m : mat) (i j : Z) :
  is_matrix r c m → (0 ≤ i < Z.of_nat r)%Z → (0 ≤ j < Z.of_nat c)%Z →
  getitem2 m i j = Ok (at2 m (Z.to_nat i) (Z.to_nat j)) ∧
  lookup2 m (Z.to_nat i) (Z.to_nat j) = Some (at2 m (Z.to_nat i) (Z.to_nat j)).
Proof.
  intros Hm Hi Hj. unfold getitem2, lookup2, at2, nth_row, nth_f.
  pose proof (is_matrix_ncols _ _ _ Hm ltac:(lia)) as Hc.
  destruct Hm as [Hr Hrows].
  rewrite Hr, Hc, !norm_index_ok by lia. simpl.
  destruct (lookup_lt_is_Some_2 m (Z.to_nat i) ltac:(lia)) as [row Hrow].
  rewrite Hrow. simpl.
  pose proof (Forall_lookup_1 _ _ _ _ Hrows Hrow) as Hlen. simpl in Hlen.
  destruct (lookup_lt_is_Some_2 row (Z.to_nat j) ltac:(lia)) as [x Hx].
  by rewrite Hx.
Qed.

Lemma setitem2_ok (r c : nat) (a : mat) (i j : nat) (v : float64) :
  is_matrix r c a → i < r → j < c →
  setitem2 a (Z.of_nat i) (Z.of_nat j) v = Ok (<[i := <[j := v]> (nth_row a i)]> a).
Proof.
  intros Hm Hi Hj. unfold setitem2, nth_row.
  pose proof (is_matrix_ncols _ _ _ Hm ltac:(lia)) as Hc.
  destruct Hm as [Hr Hrows].
  rewrite Hr, Hc, !norm_index_nat by lia. simpl.
  destruct (lookup_lt_is_Some_2 a i ltac:(lia)) as [row Hrow].
  by rewrite Hrow.
Qed.

Lemma is_matrix_insert (r c : nat) (a : mat) (i : nat) (row : vec) :
  is_matrix r c a → length row = c → is_matrix r c (<[i := row]> a).
Proof.
  intros [Hr Hrows] Hlen. split.
  - by rewrite length_insert.
  - apply Forall_insert; auto.
Qed.

(** ** [project_information] *)

Section ProjectLoops.

Variables (n : nat) (M : mat).
Hypothesis HM : is_matrix n n M.

Let in_range (l : list Z) : Prop := Forall (λ k, (0 ≤ k < Z.of_nat n)%Z) l.

Lemma project_inner_loop (m xnew : nat) (xold : Z) (l : list Z) :
  (0 ≤ xold < Z.of_nat n)%Z → in_range l → xnew < m →
  ∀ (off : nat) (new : mat), is_matrix m m new → off + length l ≤ m →
    for_each (λ new '(ynew, yold),
        v ← getitem2 M xold yold; setitem2 new (Z.of_nat xnew) ynew v)
      (enumerate_from off l) new
    = Ok (<[xnew := take off (nth_row new xnew)
                    ++ ((λ yold, at2 M (Z.to_nat xold) (Z.to_nat yold)) <$> l)
                    ++ drop (off + length l) (nth_row new xnew)]> new).
Proof.
  intros Hx Hl Hxn. induction Hl as [|yold l Hy Hl IH]; intros off new Hnew Hoff.
  - simpl. rewrite Nat.add_0_r, take_drop. f_equal. symmetry.
    apply list_insert_id. unfold nth_row.
    destruct Hnew as [Hr _].
    destruct (lookup_lt_is_Some_2 new xnew ltac:(lia)) as [row Hrow].
    by rewrite Hrow.
  - simpl in *.
    destruct (getitem2_ok _ _ _ _ _ HM Hx Hy) as [-> _]. simpl.
    rewrite (setitem2_ok m m) by (auto; lia). simpl.
    assert (Hrow : length (nth_row new xnew) = m).
    { unfold nth_row. destruct Hnew as [Hr Hrows].
      destruct (lookup_lt_is_Some_2 new xnew ltac:(lia)) as [row Hrow].
      rewrite Hrow. simpl. apply (Forall_lookup_1 _ _ _ _ Hrows Hrow). }
    set (row := nth_row new xnew) in *.
    rewrite IH; [|apply is_matrix_insert; [done|by rewrite length_insert]|lia].
    f_equal. rewrite list_insert_insert_eq. f_equal.
    unfold nth_row. rewrite list_lookup_insert_eq by (destruct Hnew; lia).
    simpl.
    rewrite (take_S_r _ _ (at2 M (Z.to_nat xold) (Z.to_nat yold))).
    2:{ apply list_lookup_insert_eq. lia. }
    rewrite take_insert_ge by lia. rewrite <- app_assoc. simpl.
    rewrite drop_insert_lt by lia.
    do 3 f_equal. f_equal. lia.
Qed.

Lemma project_outer_loop (rc : list Z) (l : list Z) :
  in_range rc → in_range l →
  ∀ (off : nat) (new : mat),
    is_matrix (length rc) (length rc) new → off + length l ≤ length rc →
    for_each (λ new '(xnew, xold),
        for_each (λ new '(ynew, yold),
            v ← getitem2 M xold yold; setitem2 new xnew ynew v)
          (enumerate rc) new)
      (enumerate_from off l) new
    = Ok (take off new
          ++ ((λ xold, (λ yold, at2 M (Z.to_nat xold) (Z.to_nat yold)) <$> rc) <$> l)
          ++ drop (off + length l) new).
Proof.
  intros Hrc Hl. induction Hl as [|xold l Hx Hl IH]; intros off new Hnew Hoff.
  - simpl. by rewrite Nat.add_0_r, take_drop.
  - simpl in *. unfold enumerate.
    rewrite (project_inner_loop (length rc) off xold rc) by (auto; lia).
    simpl.
    assert (Hrow : length (nth_row new off) = length rc).
    { unfold nth_row. destruct Hnew as [Hr Hrows].
      destruct (lookup_lt_is_Some_2 new off ltac:(lia)) as [row Hrow].
      rewrite Hrow. simpl. apply (Forall_lookup_1 _ _ _ _ Hrows Hrow). }
    rewrite drop_ge by lia. rewrite app_nil_r.
    rewrite IH; [| apply is_matrix_insert; [done|by rewrite length_fmap] | lia].
    destruct Hnew as [Hr _].
    rewrite (take_S_r _ _ ((λ yold, at2 M (Z.to_nat xold) (Z.to_nat yold)) <$> rc)).
    2:{ apply list_lookup_insert_eq. lia. }
    rewrite take_insert_ge by lia. rewrite <- app_assoc. simpl.
    rewrite drop_insert_lt by lia.
    replace (off + S (length l)) with (S (off + length l)) by lia. done.
Qed.

Lemma project_information_projected (rc : list Z) :
  in_range rc → project_information M rc = Ok (projected M rc).
Proof.
  intros Hrc. unfold project_information, enumerate.
  rewrite (project_outer_loop rc rc Hrc Hrc 0).
  - simpl. rewrite drop_ge; [by rewrite app_nil_r|].
    unfold zeros2. rewrite length_replicate. lia.
  - split; unfold zeros2, zeros1.
    + by rewrite length_replicate.
    + apply Forall_replicate. by rewrite length_replicate.
  - lia.
Qed.

End ProjectLoops.

Lemma projected_range (n : nat) (M : mat) :
  is_matrix n n M → projected M (range n) = M.
Proof.
  intros [Hr Hrows]. unfold projected, range.
  apply list_eq. intros i.
  rewrite list_lookup_fmap, list_lookup_fmap.
  destruct (decide (i < n)) as [Hi|Hi].
  - rewrite lookup_seq_lt by done. simpl.
    destruct (lookup_lt_is_Some_2 M i ltac:(lia)) as [row Hrow]. rewrite Hrow.
    f_equal. apply list_eq. intros j.
    pose proof (Forall_lookup_1 _ _ _ _ Hrows Hrow) as Hlen. simpl in Hlen.
    rewrite list_lookup_fmap, list_lookup_fmap.
    destruct (decide (j < n)) as [Hj|Hj].
    + rewrite lookup_seq_lt by done. simpl.
      unfold at2, nth_row, nth_f. rewrite !Nat2Z.id, Hrow. simpl.
      destruct (lookup_lt_is_Some_2 row j ltac:(lia)) as [x Hx]. by rewrite Hx.
    + rewrite lookup_seq_ge by lia. simpl. symmetry.
      apply lookup_ge_None. lia.
  - rewrite lookup_seq_ge by lia. simpl. symmetry.
    apply lookup_ge_None. lia.
Qed.

Lemma projected_is_matrix (M : mat) (rc : list Z) :
  is_matrix (length rc) (length rc) (projected M rc).
Proof.
  unfold projected. split.
  - by rewrite length_fmap.
  - apply Forall_fmap, Forall_forall. intros x _. simpl. by rewrite length_fmap.
Qed.

Lemma projected_lookup2 (n : nat) (M : mat) (rc : list Z) (i j : nat) (ki kj : Z) :
  is_matrix n n M →
  (0 ≤ ki < Z.of_nat n)%Z → (0 ≤ kj < Z.of_nat n)%Z →
  rc !! i = Some ki → rc !! j = Some kj →
  lookup2 (projected M rc) i j = lookup2 M (Z.to_nat ki) (Z.to_nat kj) ∧
  is_Some (lookup2 (projected M rc) i j).
Proof.
  intros HM Hki Hkj Hi Hj.
  destruct (getitem2_ok _ _ _ _ _ HM Hki Hkj) as [_ ->].
  unfold lookup2, projected. rewrite list_lookup_fmap, Hi. simpl.
  rewrite list_lookup_fmap, Hj. simpl. split; [done|eauto].
Qed.

(** C3. For an [n × n] matrix and [m] distinct in-range indices,
    [project_information] returns the [m × m] matrix whose entry [(i, j)]
    is the entry [(keep[i], keep[j])] of the input, in the given order; on
    the indices [0 .. n-1] it returns the input unchanged. *)
Theorem project_information_selects (n : nat) (M : mat) (remaining_components : list Z) :
  is_matrix n n M →
  Forall (λ k, (0 ≤ k < Z.of_nat n)%Z) remaining_components →
  NoDup remaining_components →
  (∃ R : mat,
      project_information M remaining_components = Ok R ∧
      is_matrix (length remaining_components) (length remaining_components) R ∧
      ∀ (i j : nat) (ki kj : Z),
        remaining_components !! i = Some ki →
        remaining_components !! j = Some kj →
        lookup2 R i j = lookup2 M (Z.to_nat ki) (Z.to_nat kj) ∧
        is_Some (lookup2 R i j)) ∧
  project_information M (range n) = Ok M.
Proof.
  intros HM Hrc _. split.
  - exists (projected M remaining_components). split; [|split].
    + by apply (project_information_projected n).
    + apply projected_is_matrix.
    + intros i j ki kj Hi Hj.
      apply (projected_lookup2 n); auto.
      * apply (Forall_lookup_1 _ _ _ _ Hrc Hi).
      * apply (Forall_lookup_1 _ _ _ _ Hrc Hj).
  - rewrite (project_information_projected n); auto.
    + by rewrite projected_range.
    + unfold range. apply Forall_fmap, Forall_forall. intros i Hi.
      apply elem_of_seq in Hi. simpl. lia.
Qed.

Lemma project_information_selects_witness :
  (∃ R : mat,
      project_information example_matrix [2; 0]%Z = Ok R ∧
      is_matrix 2 2 R ∧
      ∀ (i j : nat) (ki kj : Z),
        [2; 0]%Z !! i = Some ki → [2; 0]%Z !! j = Some kj →
        lookup2 R i j = lookup2 example_matrix (Z.to_nat ki) (Z.to_nat kj) ∧
        is_Some (lookup2 R i j)) ∧
  project_information example_matrix (range 3) = Ok example_matrix.
Proof.
  apply (project_information_selects 3 example_matrix [2; 0]%Z).
  - split; [reflexivity|]. repeat constructor.
  - repeat constructor; lia.
  - apply (bool_decide_unpack _). vm_compute. exact I.
Defined.

Example project_information_example :
  project_information example_matrix [2; 0]%Z = Ok [[Fin 9; Fin 7]; [Fin 3; Fin 1]]%Q.
Proof. reflexivity. Qed.

Example project_information_out_of_range :
  project_information example_matrix [2; 3]%Z = Raise IndexError.
Proof. reflexivity. Qed.

(** ** [profile_information]: the consistency check *)

Lemma py_in_elem_of (i : Z) (l : list Z) : py_in i l = true ↔ i ∈ l.
Proof.
  unfold py_in. rewrite existsb_exists. split.
  - intros (x & Hx & Heq). apply Z.eqb_eq in Heq. subst. by apply list_elem_of_In.
  - intros Hi. exists i. split; [by apply list_elem_of_In|apply Z.eqb_refl].
Qed.

Lemma group_components_filter (n : nat) (rc : list Z) :
  group_components n rc =
    (filter (λ i, py_in i rc = true) (range n),
     filter (λ i, py_in i rc ≠ true) (range n)).
Proof.
  unfold group_components.
  assert (Hgen : ∀ (l checked profiled : list Z),
    foldl (λ '(remaining_components_checked, profiled_components) i,
        if py_in i rc
        then (remaining_components_checked ++ [i], profiled_components)
        else (remaining_components_checked, profiled_components ++ [i]))
      (checked, profiled) l
    = (checked ++ filter (λ i, py_in i rc = true) l,
       profiled ++ filter (λ i, py_in i rc ≠ true) l)).
  { induction l as [|i l IH]; intros checked profiled; simpl.
    - by rewrite !app_nil_r.
    - rewrite !filter_cons. destruct (py_in i rc) eqn:Hin.
      + rewrite IH. rewrite decide_True by done. rewrite decide_False by auto.
        by rewrite <- app_assoc.
      + rewrite IH. rewrite decide_False by congruence. rewrite decide_True by congruence.
        by rewrite <- app_assoc. }
  apply Hgen.
Qed.

Lemma range_elem_of (n : nat) (i : Z) : i ∈ range n ↔ (0 ≤ i < Z.of_nat n)%Z.
Proof.
  unfold range. rewrite list_elem_of_fmap. split.
  - intros (k & -> & Hk). apply elem_of_seq in Hk. lia.
  - intros Hi. exists (Z.to_nat i). split; [lia|]. apply elem_of_seq. lia.
Qed.

Lemma range_NoDup (n : nat) : NoDup (range n).
Proof.
  unfold range. apply NoDup_fmap; [|apply NoDup_seq].
  intros x y. apply Nat2Z.inj.
Qed.

(** The components that pass the membership test are as many as the
    requested ones exactly when the request has no duplicate and no index
    out of range. *)
Lemma checked_components_length (n : nat) (rc : list Z) :
  length rc = length (filter (λ i, py_in i rc = true) (range n)) ↔
  NoDup rc ∧ Forall (λ k, (0 ≤ k < Z.of_nat n)%Z) rc.
Proof.
  set (checked := filter (λ i, py_in i rc = true) (range n)).
  assert (Hnd : NoDup checked) by apply NoDup_filter, range_NoDup.
  assert (Hsub : checked ⊆+ rc).
  { apply NoDup_submseteq; [done|]. intros x Hx.
    apply list_elem_of_filter in Hx as [Hx _]. by apply py_in_elem_of. }
  split.
  - intros Hlen.
    assert (Hperm : checked ≡ₚ rc) by (apply submseteq_length_Permutation; [done|lia]).
    split.
    + by rewrite <- Hperm.
    + apply Forall_forall. intros x Hx. rewrite <- Hperm in Hx.
      apply list_elem_of_filter in Hx as [_ Hx]. by apply range_elem_of.
  - intros [Hrc Hrange].
    apply Nat.le_antisymm; [|by apply submseteq_length].
    apply submseteq_length, NoDup_submseteq; [done|]. intros x Hx.
    apply list_elem_of_filter. split; [by apply py_in_elem_of|].
    apply range_elem_of. by apply (proj1 (Forall_forall _ _) Hrange).
Qed.

(** C10. When the requested components contain a duplicate or an index
    outside [[0, n)], [profile_information] fails its consistency
    assertion: it raises [AssertionError] and returns nothing. *)
Theorem profile_information_inconsistent_input
    (lapack_inv : mat → res mat) (multivariate_normal : vec → mat → nat → res mat)
    (fisher_information : mat) (remaining_components : list Z)
    (covariance : option t4) (error_propagation_n_ensemble : nat)
    (error_propagation_factor : float64) :
  ¬ NoDup remaining_components ∨
  Exists (λ k, ¬ (0 ≤ k < Z.of_nat (length fisher_information))%Z) remaining_components →
  profile_information lapack_inv multivariate_normal fisher_information
    remaining_components covariance error_propagation_n_ensemble
    error_propagation_factor = Raise AssertionError.
Proof.
  intros Hbad. unfold profile_information.
  rewrite group_components_filter.
  destruct (length remaining_components =? _) eqn:Hlen; [|reflexivity].
  exfalso. apply Nat.eqb_eq, checked_components_length in Hlen as [Hnd Hrange].
  destruct Hbad as [Hdup|Hout]; [by apply Hdup|].
  apply Exists_exists in Hout as (k & Hk & Hnot).
  apply Hnot. by apply (proj1 (Forall_forall _ _) Hrange).
Qed.

Lemma profile_information_inconsistent_input_witness :
  profile_information (λ m, Ok m) (λ _ _ _, Ok []) example_matrix [0; 3]%Z
    None 1000 (Fin 1) = Raise AssertionError.
Proof.
  apply profile_information_inconsistent_input.
  right. apply Exists_cons_tl, Exists_cons_hd. simpl. lia.
Defined.

Example profile_information_duplicate_index :
  profile_information (λ m, Ok m) (λ _ _ _, Ok []) example_matrix [1; 1]%Z
    None 1000 (Fin 1) = Raise AssertionError.
Proof. reflexivity. Qed.

(** ** [profile_information]: the profiling step *)

Lemma list_comp_ok {A B : Type} (f : A → res B) (g : A → B) (l : list A) :
  Forall (λ x, f x = Ok (g x)) l → list_comp f l = Ok (g <$> l).
Proof.
  induction 1 as [|x l Hx _ IH]; simpl; [done|]. by rewrite Hx, IH.
Qed.

Lemma broadcast_indices_in_range (n : nat) (rows cols : list Z) (idx : list (Z * Z)) :
  Forall (λ k, (0 ≤ k < Z.of_nat n)%Z) rows →
  Forall (λ k, (0 ≤ k < Z.of_nat n)%Z) cols →
  broadcast_indices rows cols = Ok idx →
  Forall (λ p, (0 ≤ p.1 < Z.of_nat n)%Z ∧ (0 ≤ p.2 < Z.of_nat n)%Z) idx.
Proof.
  intros Hrows Hcols. unfold broadcast_indices.
  destruct (length rows =? length cols).
  - intros [= <-]. apply Forall_forall. intros [i j] Hij.
    apply elem_of_zip_l in Hij as Hi. apply elem_of_zip_r in Hij as Hj.
    split; simpl.
    + by apply (proj1 (Forall_forall _ _) Hrows).
    + by apply (proj1 (Forall_forall _ _) Hcols).
  - assert (Hl : ∀ r, (0 ≤ r < Z.of_nat n)%Z →
        Forall (λ p : Z * Z, (0 ≤ p.1 < Z.of_nat n)%Z ∧ (0 ≤ p.2 < Z.of_nat n)%Z)
          ((λ c, (r, c)) <$> cols)).
    { intros r Hr. apply Forall_fmap. eapply Forall_impl; [exact Hcols|].
      intros c Hc. simpl. done. }
    assert (Hr : ∀ c, (0 ≤ c < Z.of_nat n)%Z →
        Forall (λ p : Z * Z, (0 ≤ p.1 < Z.of_nat n)%Z ∧ (0 ≤ p.2 < Z.of_nat n)%Z)
          ((λ r, (r, c)) <$> rows)).
    { intros c Hc. apply Forall_fmap. eapply Forall_impl; [exact Hrows|].
      intros r Hr. simpl. done. }
    destruct rows as [|r [|r' rows]], cols as [|c [|c' cols]];
      intros [= <-]; try done.
    all: try (apply Hl; by inversion Hrows).
    all: try (apply Hr; by inversion Hcols).
Qed.

(** Advanced indexing of a matrix with in-range index lists does not fail
    once the index lists broadcast, and gives a one-dimensional array. *)
Lemma getitem_lists_in_range (n : nat) (M : mat) (rows cols : list Z) :
  is_matrix n n M →
  Forall (λ k, (0 ≤ k < Z.of_nat n)%Z) rows →
  Forall (λ k, (0 ≤ k < Z.of_nat n)%Z) cols →
  getitem_lists (A2 M) rows cols = Raise IndexError ∨
  ∃ v : vec, getitem_lists (A2 M) rows cols = Ok v.
Proof.
  intros HM Hrows Hcols. unfold getitem_lists.
  destruct (broadcast_indices rows cols) as [idx|e] eqn:Hidx.
  - right. simpl.
    pose proof (broadcast_indices_in_range n _ _ _ Hrows Hcols Hidx) as Hin.
    exists ((λ p, at2 M (Z.to_nat p.1) (Z.to_nat p.2)) <$> idx).
    apply list_comp_ok. eapply Forall_impl; [exact Hin|].
    intros [i j] [Hi Hj]. simpl in *.
    by destruct (getitem2_ok _ _ _ _ _ HM Hi Hj) as [-> _].
  - left. unfold broadcast_indices in Hidx.
    destruct (length rows =? length cols); [done|].
    destruct rows as [|r [|r' rows]], cols as [|c [|c' cols]]; simpl in *; congruence.
Qed.

(** [np.linalg.inv] never sees a matrix: [_profile] fails on every
    input. *)
Lemma _profile_raises (lapack_inv : mat → res mat)
    (remaining_components profiled_components : list Z) (information_in : ndarray) :
  ∃ e, _profile lapack_inv remaining_components profiled_components information_in
       = Raise e.
Proof.
  unfold _profile.
  destruct (getitem_lists information_in remaining_components remaining_components);
    simpl; [|eauto].
  destruct (getitem_lists information_in profiled_components remaining_components);
    simpl; [|eauto].
  destruct (getitem_lists information_in profiled_components profiled_components);
    simpl; eauto.
Qed.

Lemma _profile_in_range (lapack_inv : mat → res mat) (n : nat) (M : mat)
    (remaining_components profiled_components : list Z) :
  is_matrix n n M →
  Forall (λ k, (0 ≤ k < Z.of_nat n)%Z) remaining_components →
  Forall (λ k, (0 ≤ k < Z.of_nat n)%Z) profiled_components →
  _profile lapack_inv remaining_components profiled_components (A2 M)
    = Raise LinAlgError ∨
  _profile lapack_inv remaining_components profiled_components (A2 M)
    = Raise IndexError.
Proof.
  intros HM Hrange Hprof. unfold _profile.
  destruct (getitem_lists_in_range n _ _ _ HM Hrange Hrange) as [->|[phys ->]];
    [by right|].
  destruct (getitem_lists_in_range n _ _ _ HM Hprof Hrange) as [->|[mix ->]];
    [by right|].
  destruct (getitem_lists_in_range n _ _ _ HM Hprof Hprof) as [->|[nuisance ->]];
    [by right|].
  by left.
Qed.

Lemma _profile_flat_toy (lapack_inv : mat → res mat)
    (remaining_components profiled_components : list Z) (info : vec) :
  _profile lapack_inv remaining_components profiled_components (A1 info)
  = Raise IndexError.
Proof. reflexivity. Qed.

Lemma profile_information_raises
    (lapack_inv : mat → res mat) (multivariate_normal : vec → mat → nat → res mat)
    (fisher_information : mat) (remaining_components : list Z)
    (covariance : option t4) (error_propagation_n_ensemble : nat)
    (error_propagation_factor : float64) :
  ∃ e, profile_information lapack_inv multivariate_normal fisher_information
         remaining_components covariance error_propagation_n_ensemble
         error_propagation_factor = Raise e.
Proof.
  unfold profile_information.
  destruct (group_components _ _) as [checked profiled].
  destruct (py_assert _); simpl; [|eauto].
  destruct (_profile_raises lapack_inv remaining_components profiled
              (A2 fisher_information)) as [e ->].
  simpl. eauto.
Qed.

(** C2. For an [n × n] matrix and distinct in-range components to keep,
    [profile_information] does not return the Schur complement: the three
    blocks are taken by pairwise indexing, come out one-dimensional, and
    the call fails with [LinAlgError] at the inversion, or with
    [IndexError] when the index lists cannot be paired. *)
Theorem profile_information_central_value_fails
    (lapack_inv : mat → res mat) (multivariate_normal : vec → mat → nat → res mat)
    (n : nat) (fisher_information : mat) (remaining_components : list Z)
    (error_propagation_n_ensemble : nat) (error_propagation_factor : float64) :
  is_matrix n n fisher_information →
  Forall (λ k, (0 ≤ k < Z.of_nat n)%Z) remaining_components →
  NoDup remaining_components →
  let result :=
    profile_information lapack_inv multivariate_normal fisher_information
      remaining_components None error_propagation_n_ensemble
      error_propagation_factor in
  result = Raise LinAlgError ∨ result = Raise IndexError.
Proof.
  intros HM Hrange Hnd result. subst result. unfold profile_information.
  rewrite group_components_filter.
  destruct HM as [Hlen Hrows]. rewrite Hlen.
  assert (Hchk : length remaining_components =
                 length (filter (λ i, py_in i remaining_components = true) (range n)))
    by by apply checked_components_length.
  apply Nat.eqb_eq in Hchk. rewrite Hchk. simpl.
  set (profiled := filter (λ i, py_in i remaining_components ≠ true) (range n)).
  assert (Hprof : Forall (λ k, (0 ≤ k < Z.of_nat n)%Z) profiled).
  { apply Forall_forall. intros x Hx. apply list_elem_of_filter in Hx as [_ Hx].
    by apply range_elem_of. }
  assert (HM : is_matrix n n fisher_information) by done.
  destruct (_profile_in_range lapack_inv n fisher_information
              remaining_components profiled HM Hrange Hprof) as [-> | ->]; auto.
Qed.

Lemma profile_information_central_value_fails_witness :
  let result :=
    profile_information (λ m, Ok m) (λ _ _ _, Ok []) example_fisher [0]%Z
      None 1000 (Fin 1) in
  result = Raise LinAlgError ∨ result = Raise IndexError.
Proof.
  apply (profile_information_central_value_fails _ _ 2).
  - split; [reflexivity|]. repeat constructor.
  - repeat constructor; lia.
  - apply (bool_decide_unpack _). vm_compute. exact I.
Defined.

Example profile_information_two_parameters :
  profile_information (λ m, Ok m) (λ _ _ _, Ok []) example_fisher [0]%Z
    None 1000 (Fin 1) = Raise LinAlgError.
Proof. reflexivity. Qed.

Example profile_information_keep_all :
  profile_information (λ m, Ok m) (λ _ _ _, Ok []) example_matrix [0; 1; 2]%Z
    None 1000 (Fin 1) = Raise IndexError.
Proof. reflexivity. Qed.

(** C4. With a covariance tensor supplied, [profile_information] returns
    no covariance: the central value fails before any matrix is drawn,
    and each drawn matrix would reach [_profile] as a flat row, which
    fails with [IndexError]. *)
Theorem profile_information_covariance_fails
    (lapack_inv : mat → res mat) (multivariate_normal : vec → mat → nat → res mat) :
  (∀ (fisher_information : mat) (remaining_components : list Z) (covariance : t4)
     (error_propagation_n_ensemble : nat) (error_propagation_factor : float64),
     ∃ e, profile_information lapack_inv multivariate_normal fisher_information
            remaining_components (Some covariance) error_propagation_n_ensemble
            error_propagation_factor = Raise e) ∧
  (∀ (remaining_components profiled_components : list Z) (info : vec),
     _profile lapack_inv remaining_components profiled_components (A1 info)
     = Raise IndexError).
Proof.
  split.
  - intros. apply profile_information_raises.
  - intros. apply _profile_flat_toy.
Qed.

Example profile_information_with_covariance :
  profile_information (λ m, Ok m) (λ mean _ size, Ok (replicate size mean))
    example_fisher [0]%Z (Some (zeros4 2 2 2 2)) 1000 (Fin (1 # 1000))
  = Raise LinAlgError.
Proof. reflexivity. Qed.

(** ** Arithmetic of [float64] *)

Lemma Qsign_compare (q : Q) : Qsign q = (q ?= 0)%Q.
Proof.
  unfold Qsign, Qcompare. simpl. by rewrite Z.mul_1_r.
Qed.

Lemma Qsign_Qeq (p q : Q) : (p == q)%Q → Qsign p = Qsign q.
Proof.
  intros H. rewrite !Qsign_compare. by rewrite H.
Qed.

Lemma Qsign_Qred (q : Q) : Qsign (Qred q) = Qsign q.
Proof. apply Qsign_Qeq, Qred_correct. Qed.

Lemma Qsign_mul (a b : Q) : Qsign (a * b)%Q = sign_mul (Qsign a) (Qsign b).
Proof.
  destruct a as [[|p|p] d], b as [[|p'|p'] d']; reflexivity.
Qed.

Lemma Qsign_opp (a : Q) : Qsign (- a)%Q = CompOpp (Qsign a).
Proof. destruct a as [[|p|p] d]; reflexivity. Qed.

Lemma Qsign_Eq (q : Q) : Qsign q = Eq ↔ (q == 0)%Q.
Proof.
  rewrite Qsign_compare. symmetry. apply Qeq_alt.
Qed.

Lemma Qsign_Gt (q : Q) : Qsign q = Gt ↔ (0 < q)%Q.
Proof.
  rewrite Qsign_compare, Qgt_alt. done.
Qed.

Lemma Qsign_Lt (q : Q) : Qsign q = Lt ↔ (q < 0)%Q.
Proof.
  rewrite Qsign_compare, Qlt_alt. done.
Qed.

Lemma Fin_Qred_eq (p q : Q) : (p == q)%Q → Fin (Qred p) = Fin (Qred q).
Proof. intros H. f_equal. by apply Qred_complete. Qed.

Lemma fmul_comm (x y : float64) : fmul x y = fmul y x.
Proof.
  destruct x as [a| | |], y as [b| | |]; simpl; try reflexivity.
  apply Fin_Qred_eq. ring.
Qed.

Lemma fmul_inf_of_sign_l (s : comparison) (c : Q) :
  fmul (inf_of_sign s) (Fin c) = inf_of_sign (sign_mul s (Qsign c)).
Proof. destruct s; simpl; by destruct (Qsign c). Qed.

Lemma fmul_inf_of_sign_r (a : Q) (s : comparison) :
  fmul (Fin a) (inf_of_sign s) = inf_of_sign (sign_mul (Qsign a) s).
Proof. destruct s; simpl; by destruct (Qsign a). Qed.

Lemma fmul_assoc (x y z : float64) : fmul x (fmul y z) = fmul (fmul x y) z.
Proof.
  destruct x as [a| | |], y as [b| | |], z as [c| | |];
    try reflexivity;
    cbn [fmul];
    rewrite ?fmul_inf_of_sign_l, ?fmul_inf_of_sign_r, ?Qsign_Qred, ?Qsign_mul;
    try reflexivity;
    try (destruct (Qsign a); reflexivity);
    try (destruct (Qsign b); reflexivity);
    try (destruct (Qsign c); reflexivity);
    try (destruct (Qsign a), (Qsign b); reflexivity);
    try (destruct (Qsign a), (Qsign c); reflexivity);
    try (destruct (Qsign b), (Qsign c); reflexivity).
  apply Fin_Qred_eq. rewrite !Qred_correct. ring.
Qed.

Lemma fadd_comm (x y : float64) : fadd x y = fadd y x.
Proof.
  destruct x as [a| | |], y as [b| | |]; simpl; try reflexivity.
  apply Fin_Qred_eq. ring.
Qed.

Lemma fadd_assoc (x y z : float64) : fadd x (fadd y z) = fadd (fadd x y) z.
Proof.
  destruct x as [a| | |], y as [b| | |], z as [c| | |]; simpl; try reflexivity.
  apply Fin_Qred_eq. rewrite !Qred_correct. ring.
Qed.

Lemma Qeq_bool_Qsign (q : Q) : Qeq_bool q 0 = true ↔ Qsign q = Eq.
Proof.
  rewrite Qsign_Eq. apply Qeq_bool_iff.
Qed.

Lemma sanitize_reciprocal (sigma : float64) :
  sanitize (fdiv fone sigma) = inv_sigma_spec sigma.
Proof.
  destruct sigma as [q| | |]; try reflexivity. simpl.
  destruct (Qeq_bool q 0) eqn:Hq.
  - apply Qeq_bool_Qsign in Hq. by rewrite Hq.
  - destruct (Qsign q) eqn:Hs; try reflexivity.
    apply Qeq_bool_Qsign in Hs. congruence.
Qed.

(** ** The physical block of the Fisher tensor *)

Lemma tab1_lookup (a : nat) (f : nat → float64) (i : nat) :
  i < a → tab1 a f !! i = Some (f i).
Proof.
  intros Hi. unfold tab1. rewrite list_lookup_fmap, lookup_seq_lt by done. done.
Qed.

Lemma tab2_lookup2 (a b : nat) (f : nat → nat → float64) (i j : nat) :
  i < a → j < b → lookup2 (tab2 a b f) i j = Some (f i j).
Proof.
  intros Hi Hj. unfold lookup2, tab2.
  rewrite list_lookup_fmap, lookup_seq_lt by done. simpl.
  by apply tab1_lookup.
Qed.

Lemma tab3_lookup3 (a b c : nat) (f : nat → nat → nat → float64) (n i j : nat) :
  n < a → i < b → j < c → lookup3 (tab3 a b c f) n i j = Some (f n i j).
Proof.
  intros Hn Hi Hj. unfold lookup3, tab3.
  rewrite list_lookup_fmap, lookup_seq_lt by done. simpl.
  by apply tab2_lookup2.
Qed.

Lemma map_t3_lookup3 (g : float64 → float64) (t : t3) (n i j : nat) :
  lookup3 (map_t3 g t) n i j = g <$> lookup3 t n i j.
Proof.
  unfold lookup3, lookup2, map_t3, map_mat.
  rewrite list_lookup_fmap. destruct (t !! n) as [m|]; [|done]. simpl.
  rewrite list_lookup_fmap. destruct (m !! i) as [row|]; [|done]. simpl.
  by rewrite list_lookup_fmap.
Qed.

Lemma mdot_mat_has_cols (dtheta_matrix weights_benchmarks : mat) :
  has_cols (length weights_benchmarks) (mdot_mat dtheta_matrix weights_benchmarks) = true.
Proof.
  unfold has_cols, mdot_mat. apply forallb_forall. intros row Hrow.
  apply in_map_iff in Hrow as (r & <- & _).
  rewrite length_fmap. apply Nat.eqb_refl.
Qed.

Lemma mdot_mat_at2 (dtheta_matrix weights_benchmarks : mat) (i n : nat) (row w : vec) :
  dtheta_matrix !! i = Some row → weights_benchmarks !! n = Some w →
  at2 (mdot_mat dtheta_matrix weights_benchmarks) i n = dot row w.
Proof.
  intros Hi Hn. unfold at2, nth_row, nth_f, mdot_mat.
  rewrite list_lookup_fmap, Hi. simpl. by rewrite list_lookup_fmap, Hn.
Qed.

Lemma inv_sigma_nth (theta_matrix : vec) (weights_benchmarks : mat) (n : nat) (w : vec) :
  weights_benchmarks !! n = Some w →
  nth_f (sanitize_array (fdiv fone <$> mdot_vec theta_matrix weights_benchmarks)) n
  = inv_sigma_spec (dot theta_matrix w).
Proof.
  intros Hn. unfold nth_f, sanitize_array, mdot_vec.
  rewrite !list_lookup_fmap, Hn. simpl. apply sanitize_reciprocal.
Qed.

(** The per-event tensor that the engine computes before any reduction. *)
Lemma physical_tensor (theta_matrix : vec) (dtheta_matrix weights_benchmarks : mat) :
  let sigma := mdot_vec theta_matrix weights_benchmarks in
  let inv_sigma := sanitize_array (fdiv fone <$> sigma) in
  let dsigma := mdot_mat dtheta_matrix weights_benchmarks in
  einsum_n_in_jn inv_sigma dsigma dsigma
  = Ok (tab3 (length weights_benchmarks) (length dtheta_matrix) (length dtheta_matrix)
          (λ n i j, fmul (fmul (nth_f inv_sigma n) (at2 dsigma i n)) (at2 dsigma j n))).
Proof.
  intros sigma inv_sigma dsigma. unfold einsum_n_in_jn.
  assert (Hlen : length inv_sigma = length weights_benchmarks).
  { unfold inv_sigma, sanitize_array, sigma, mdot_vec. by rewrite !length_fmap. }
  rewrite Hlen. unfold dsigma at 1 2. rewrite mdot_mat_has_cols. simpl.
  unfold dsigma at 1 2. unfold mdot_mat at 1 2. by rewrite !length_fmap.
Qed.

Section PhysicalBlock.

Variable get_theta_benchmark_matrix : vec → vec.
Variable get_dtheta_benchmark_matrix : vec → mat.
Variable np_log : float64 → float64.
Variables (self : FisherInformation) (theta : vec) (weights_benchmarks : mat).
Variable luminosity : float64.
Variable weights_benchmark_uncertainties : option mat.
Variable weights_sampling_benchmark : option vec.

Let theta_matrix := get_theta_benchmark_matrix theta.
Let dtheta_matrix := get_dtheta_benchmark_matrix theta.

Lemma physical_block_per_event :
  _calculate_fisher_information get_theta_benchmark_matrix
    get_dtheta_benchmark_matrix np_log self theta weights_benchmarks luminosity
    false false false weights_benchmark_uncertainties weights_sampling_benchmark
  = Ok (Info3 (physical_block theta_matrix dtheta_matrix weights_benchmarks luminosity),
        None).
Proof.
  unfold _calculate_fisher_information. fold theta_matrix dtheta_matrix.
  by rewrite physical_tensor.
Qed.

Lemma physical_block_summed :
  _calculate_fisher_information get_theta_benchmark_matrix
    get_dtheta_benchmark_matrix np_log self theta weights_benchmarks luminosity
    false true false weights_benchmark_uncertainties weights_sampling_benchmark
  = Ok (Info2 (sum_axis0_t3 (length dtheta_matrix) (length dtheta_matrix)
                 (physical_block theta_matrix dtheta_matrix weights_benchmarks
                    luminosity)),
        None).
Proof.
  unfold _calculate_fisher_information. fold theta_matrix dtheta_matrix.
  rewrite physical_tensor. simpl. unfold mdot_mat at 1 2.
  by rewrite !length_fmap.
Qed.

Lemma physical_block_length :
  length (physical_block theta_matrix dtheta_matrix weights_benchmarks luminosity)
  = length weights_benchmarks.
Proof.
  unfold physical_block, map_t3, tab3. by rewrite !length_fmap, length_seq.
Qed.

Lemma physical_block_entry (n i j : nat) (w row_i row_j : vec) :
  weights_benchmarks !! n = Some w →
  dtheta_matrix !! i = Some row_i →
  dtheta_matrix !! j = Some row_j →
  lookup3 (physical_block theta_matrix dtheta_matrix weights_benchmarks luminosity)
    n i j
  = Some (fmul (fmul (fmul luminosity (inv_sigma_spec (dot theta_matrix w)))
                  (dot row_i w))
            (dot row_j w)).
Proof.
  intros Hn Hi Hj. unfold physical_block.
  rewrite map_t3_lookup3, tab3_lookup3 by (eapply lookup_lt_Some; eauto).
  simpl. f_equal.
  rewrite (inv_sigma_nth _ _ _ w Hn).
  rewrite (mdot_mat_at2 _ _ _ _ row_i w Hi Hn), (mdot_mat_at2 _ _ _ _ row_j w Hj Hn).
  by rewrite !fmul_assoc.
Qed.

End PhysicalBlock.


Example fisher_information_three_events :
  _calculate_fisher_information (λ _, [Fin 1]) (λ _, [[Fin 1]]) (λ x, x) example_self []
    [[Fin (-1)]; [Fin 0]; [Fin 3]] (Fin 2) false false false None None
  = Ok (Info3 [[[Fin (-2)]]; [[Fin 0]]; [[Fin 6]]], None).
Proof. reflexivity. Qed.

(** ** Sign of the diagonal of the physical block *)

Lemma is_finite_Fin (x : float64) : is_finite x = true → ∃ q, x = Fin q.
Proof. destruct x; simpl; eauto; discriminate. Qed.

Lemma sum_vec_cons (x : float64) (v : vec) : sum_vec (x :: v) = fadd x (sum_vec v).
Proof. reflexivity. Qed.

Lemma sum_vec_finite (v : vec) : all_finite v → ∃ q, sum_vec v = Fin q.
Proof.
  induction 1 as [|x v Hx _ [q IH]].
  - by exists 0%Q.
  - apply is_finite_Fin in Hx as [a ->]. rewrite sum_vec_cons, IH.
    simpl. eauto.
Qed.

Lemma dot_finite (v w : vec) : all_finite v → all_finite w → ∃ q, dot v w = Fin q.
Proof.
  intros Hv Hw. apply sum_vec_finite. revert w Hw.
  induction Hv as [|x v Hx _ IH]; intros w Hw; [constructor|].
  destruct Hw as [|y w Hy Hw]; [constructor|]. simpl. constructor; [|by apply IH].
  apply is_finite_Fin in Hx as [a ->]. by apply is_finite_Fin in Hy as [b ->].
Qed.

Lemma inv_sigma_spec_nonneg (sigma : float64) :
  flt sigma fzero = false → ∃ r, inv_sigma_spec sigma = Fin r ∧ (0 <= r)%Q.
Proof.
  destruct sigma as [q| | |]; simpl; intros Hs; try (exists 0%Q; split; [done|lra]).
  destruct (Qeq_bool q 0) eqn:Hq; [exists 0%Q; split; [done|lra]|].
  eexists. split; [reflexivity|]. rewrite Qred_correct.
  assert (Hq0 : ¬ (q == 0)%Q) by (intros H; apply Qeq_bool_iff in H; congruence).
  assert (Hpos : (0 < q)%Q).
  { destruct (q ?= 0)%Q eqn:Hc; [|done|].
    - by apply Qeq_alt in Hc.
    - by apply Qgt_alt in Hc. }
  apply Qlt_le_weak. unfold Qdiv. rewrite Qmult_1_l. by apply Qinv_lt_0_compat.
Qed.

Lemma diagonal_term_nonneg (l r d : Q) :
  (0 <= l)%Q → (0 <= r)%Q →
  f_ge0 (fmul (fmul (fmul (Fin l) (Fin r)) (Fin d)) (Fin d)).
Proof.
  intros Hl Hr. simpl. rewrite !Qred_correct.
  assert (H1 : (l * r * d * d == (l * r) * (d * d))%Q) by ring. rewrite H1.
  apply Qmult_le_0_compat; [by apply Qmult_le_0_compat|].
  destruct (Qlt_le_dec d 0) as [Hd|Hd].
  - assert (H2 : (d * d == (- d) * (- d))%Q) by ring. rewrite H2.
    apply Qmult_le_0_compat; lra.
  - by apply Qmult_le_0_compat.
Qed.

Lemma sum_vec_nonneg (v : vec) :
  Forall (λ x, ∃ q, x = Fin q ∧ (0 <= q)%Q) v → ∃ q, sum_vec v = Fin q ∧ (0 <= q)%Q.
Proof.
  induction 1 as [|x v (a & -> & Ha) _ (q & IH & Hq)].
  - exists 0%Q. split; [done|lra].
  - rewrite sum_vec_cons, IH. simpl. eexists. split; [reflexivity|].
    rewrite Qred_correct. lra.
Qed.

Lemma zeros2_lookup2 (r c i j : nat) :
  i < r → j < c → lookup2 (zeros2 r c) i j = Some fzero.
Proof.
  intros Hi Hj. unfold lookup2, zeros2, zeros1.
  rewrite lookup_replicate_2 by done. simpl. by apply lookup_replicate_2.
Qed.

Lemma lookup2_at2 (m : mat) (i j : nat) (x : float64) :
  lookup2 m i j = Some x → at2 m i j = x.
Proof.
  unfold lookup2, at2, nth_row, nth_f. destruct (m !! i) as [row|]; simpl; [|done].
  by intros ->.
Qed.

Lemma lookup2_zip_with (f : float64 → float64 → float64) (m k : mat) (i j : nat) :
  lookup2 (zip_with (zip_with f) m k) i j
  = (x ← lookup2 m i j; y ← lookup2 k i j; Some (f x y)).
Proof.
  unfold lookup2. rewrite lookup_zip_with.
  destruct (m !! i) as [r|]; simpl; [|done].
  destruct (k !! i) as [s|]; simpl.
  - by rewrite lookup_zip_with.
  - by destruct (r !! j).
Qed.

Lemma is_matrix_lookup2 (r c : nat) (m : mat) (i j : nat) :
  is_matrix r c m → i < r → j < c → lookup2 m i j = Some (at2 m i j).
Proof.
  intros Hm Hi Hj.
  destruct (getitem2_ok r c m (Z.of_nat i) (Z.of_nat j) Hm ltac:(lia) ltac:(lia))
    as [_ H].
  by rewrite !Nat2Z.id in H.
Qed.

Lemma sum_axis0_t3_lookup2 (p : nat) (t : t3) (i j : nat) :
  Forall (is_matrix p p) t → i < p → j < p →
  lookup2 (sum_axis0_t3 p p t) i j = Some (sum_vec ((λ m : mat, at2 m i j) <$> t)).
Proof.
  intros Ht Hi Hj. induction Ht as [|m t Hm _ IH].
  - by apply zeros2_lookup2.
  - unfold sum_axis0_t3 in *. simpl.
    rewrite lookup2_zip_with, IH, (is_matrix_lookup2 p p) by done.
    reflexivity.
Qed.

Lemma tab3_is_matrix (a b c : nat) (f : nat → nat → nat → float64) (g : float64 → float64) :
  Forall (is_matrix b c) (map_t3 g (tab3 a b c f)).
Proof.
  unfold map_t3, tab3. apply Forall_fmap, Forall_fmap, Forall_forall.
  intros n _. simpl. unfold map_mat, tab2, tab1. split.
  - by rewrite !length_fmap, length_seq.
  - apply Forall_fmap, Forall_fmap, Forall_forall. intros i _. simpl.
    by rewrite !length_fmap, length_seq.
Qed.

Lemma physical_block_is_matrix (theta_matrix : vec) (dtheta_matrix weights : mat)
    (luminosity : float64) :
  Forall (is_matrix (length dtheta_matrix) (length dtheta_matrix))
    (physical_block theta_matrix dtheta_matrix weights luminosity).
Proof. apply tab3_is_matrix. Qed.

Section DiagonalSign.

Variable get_theta_benchmark_matrix : vec → vec.
Variable get_dtheta_benchmark_matrix : vec → mat.
Variables (theta : vec) (weights_benchmarks : mat) (l : Q).

Let theta_matrix := get_theta_benchmark_matrix theta.
Let dtheta_matrix := get_dtheta_benchmark_matrix theta.

Hypothesis Hl : (0 <= l)%Q.
Hypothesis Hweights : Forall all_finite weights_benchmarks.
Hypothesis Hdtheta : Forall all_finite dtheta_matrix.
Hypothesis Hsigma :
  Forall (λ w, flt (dot theta_matrix w) fzero = false) weights_benchmarks.

Lemma physical_diagonal_entry (n i : nat) :
  n < length weights_benchmarks → i < length dtheta_matrix →
  ∃ q, lookup3 (physical_block theta_matrix dtheta_matrix weights_benchmarks (Fin l))
         n i i = Some (Fin q) ∧ (0 <= q)%Q.
Proof.
  intros Hn Hi. unfold theta_matrix, dtheta_matrix in *.
  destruct (lookup_lt_is_Some_2 _ _ Hn) as [w Hw].
  destruct (lookup_lt_is_Some_2 _ _ Hi) as [row Hrow].
  rewrite (physical_block_entry get_theta_benchmark_matrix
             get_dtheta_benchmark_matrix theta weights_benchmarks (Fin l)
             n i i w row row Hw Hrow Hrow).
  destruct (inv_sigma_spec_nonneg (dot (get_theta_benchmark_matrix theta) w))
    as (r & -> & Hr).
  { apply (Forall_lookup_1 _ _ _ _ Hsigma Hw). }
  destruct (dot_finite row w) as [d ->].
  { apply (Forall_lookup_1 _ _ _ _ Hdtheta Hrow). }
  { apply (Forall_lookup_1 _ _ _ _ Hweights Hw). }
  pose proof (diagonal_term_nonneg l r d Hl Hr) as Hnonneg.
  simpl in *. eauto.
Qed.

Lemma physical_diagonal_sum (i : nat) :
  i < length dtheta_matrix →
  ∃ q, lookup2 (sum_axis0_t3 (length dtheta_matrix) (length dtheta_matrix)
                  (physical_block theta_matrix dtheta_matrix weights_benchmarks (Fin l)))
         i i = Some (Fin q) ∧ (0 <= q)%Q.
Proof.
  intros Hi. pose proof physical_diagonal_entry as Hentry.
  unfold theta_matrix, dtheta_matrix in *.
  rewrite sum_axis0_t3_lookup2 by (auto using physical_block_is_matrix).
  destruct (sum_vec_nonneg
    ((λ m : mat, at2 m i i) <$>
       physical_block (get_theta_benchmark_matrix theta)
         (get_dtheta_benchmark_matrix theta) weights_benchmarks (Fin l)))
    as (q & -> & Hq); [|eauto].
  apply Forall_fmap, Forall_lookup. intros n m Hm. simpl.
  assert (Hn : n < length weights_benchmarks).
  { apply lookup_lt_Some in Hm.
    by rewrite (physical_block_length get_theta_benchmark_matrix
                  get_dtheta_benchmark_matrix) in Hm. }
  destruct (Hentry n i Hn Hi) as (q & Hq & Hq0).
  exists q. split; [|done].
  apply lookup2_at2. unfold lookup3 in Hq. by rewrite Hm in Hq.
Qed.

End DiagonalSign.




(** ** The nuisance-parameter block *)

Lemma assign_block_several (a : mat) (r0 c0 r c : nat) (value : t3) :
  2 ≤ length value → assign_block a r0 c0 r c value = Raise ValueError.
Proof.
  destruct value as [|m [|m' value]]; simpl; [lia|lia|done].
Qed.

Lemma nuisance_information_several_events (np_log : float64 → float64)
    (self : FisherInformation) (weights_benchmarks : mat) (luminosity : float64)
    (weights_sampling_benchmark : option vec) (sigma : vec) (dsigma : mat)
    (fisher_info_phys : t3) :
  2 ≤ length fisher_info_phys →
  ∃ e, nuisance_information np_log self weights_benchmarks luminosity
         weights_sampling_benchmark sigma dsigma fisher_info_phys = Raise e.
Proof.
  intros Hlen. unfold nuisance_information.
  destruct (match weights_sampling_benchmark with
            | Some w => Ok w
            | None => column weights_benchmarks 0
            end); simpl; [|eauto].
  destruct (mask_rows _ _); simpl; [|eauto].
  destruct (broadcast_mat _ _ _); simpl; [|eauto].
  destruct (einsum_n_in_jn _ _ _); simpl; [|eauto].
  destruct (einsum_in_jn _ _ _); simpl; [|eauto].
  rewrite assign_block_several by done. simpl. eauto.
Qed.

(** C6.  With nuisance parameters and two or more events the engine
    returns nothing: the extended matrix is allocated without an event
    axis, and NumPy refuses to assign the per-event tensor of the physical
    block to its upper left block. *)
Theorem nuisance_block_several_events_fails
    (get_theta_benchmark_matrix : vec → vec)
    (get_dtheta_benchmark_matrix : vec → mat) (np_log : float64 → float64)
    (self : FisherInformation) (theta : vec) (weights_benchmarks : mat)
    (luminosity : float64) (sum_events calculate_uncertainty : bool)
    (weights_benchmark_uncertainties : option mat)
    (weights_sampling_benchmark : option vec) :
  2 ≤ length weights_benchmarks →
  ∃ e, _calculate_fisher_information get_theta_benchmark_matrix
         get_dtheta_benchmark_matrix np_log self theta weights_benchmarks luminosity
         true sum_events calculate_uncertainty weights_benchmark_uncertainties
         weights_sampling_benchmark = Raise e.
Proof.
  intros Hlen. unfold _calculate_fisher_information.
  rewrite physical_tensor. simpl.
  edestruct nuisance_information_several_events as [e ->]; [|simpl; eauto].
  unfold map_t3, tab3. by rewrite !length_fmap, length_seq.
Qed.

Lemma nuisance_block_several_events_fails_witness :
  ∃ e, _calculate_fisher_information (λ _, [Fin 1]) (λ _, [[Fin 1]]) (λ x, x)
         example_self_nuisance [] [[Fin 1; Fin 2]; [Fin 3; Fin 4]] (Fin 1)
         true false false None None = Raise e.
Proof.
  apply nuisance_block_several_events_fails. simpl. lia.
Defined.

Example nuisance_block_two_events (np_log : float64 → float64) :
  _calculate_fisher_information (λ _, [Fin 1]) (λ _, [[Fin 1]]) np_log
    example_self_nuisance [] [[Fin 1; Fin 2]; [Fin 3; Fin 4]] (Fin 1)
    true false false None None = Raise ValueError.
Proof. reflexivity. Qed.

Example nuisance_block_single_event :
  _calculate_fisher_information (λ _, [Fin 1]) (λ _, [[Fin 1]]) (λ x, x)
    example_self_nuisance [] [[Fin 1; Fin 2]] (Fin 1)
    true false false None None
  = Ok (Info2 [[Fin 1; Fin 2]; [Fin 2; Fin 4]], None).
Proof. reflexivity. Qed.

Example nuisance_block_single_event_summed :
  _calculate_fisher_information (λ _, [Fin 1]) (λ _, [[Fin 1]]) (λ x, x)
    example_self_nuisance [] [[Fin 1; Fin 2]] (Fin 1)
    true true false None None
  = Ok (Info1 [Fin 3; Fin 6], None).
Proof. reflexivity. Qed.

(** ** The covariance of the inputs *)

Lemma zip3_range_diagonal (n_events n_benchmarks : nat) :
  Forall (λ '(i, b1, b2), i = b1 ∧ b1 = b2)
    (zip3 (range n_events) (range n_benchmarks) (range n_benchmarks)).
Proof.
  unfold zip3, range.
  generalize 0 at 1 2 3. revert n_benchmarks.
  induction n_events as [|n IH]; intros [|b] start; simpl; try constructor; auto.
Qed.

Lemma covariance_of_information_raises (self : FisherInformation)
    (weights_benchmarks : mat) (luminosity : float64)
    (weights_benchmark_uncertainties : option mat)
    (theta_matrix : vec) (dtheta_matrix : mat) (inv_sigma : vec) (dsigma : mat) :
  ∃ e, covariance_of_information self weights_benchmarks luminosity
         weights_benchmark_uncertainties theta_matrix dtheta_matrix inv_sigma dsigma
       = Raise e.
Proof.
  unfold covariance_of_information.
  destruct (mask_cols _ _); simpl; eauto.
Qed.

(** C5.  With [calculate_uncertainty] the engine builds no covariance at
    all: the array of input covariances is allocated with the weight
    array where its dimensions belong, which is a [TypeError].  The loop
    that would fill it runs over [zip(range, range, range)], that is over
    the triples [(k, k, k)] only, so that it would set one diagonal entry
    per event and no off-diagonal entry. *)
Theorem covariance_inputs_not_built
    (get_theta_benchmark_matrix : vec → vec)
    (get_dtheta_benchmark_matrix : vec → mat) (np_log : float64 → float64) :
  (∀ (self : FisherInformation) (theta : vec) (weights_benchmarks : mat)
     (luminosity : float64) (include_nuisance_parameters sum_events : bool)
     (weights_benchmark_uncertainties : option mat)
     (weights_sampling_benchmark : option vec),
     ∃ e, _calculate_fisher_information get_theta_benchmark_matrix
            get_dtheta_benchmark_matrix np_log self theta weights_benchmarks
            luminosity include_nuisance_parameters sum_events true
            weights_benchmark_uncertainties weights_sampling_benchmark = Raise e) ∧
  (∀ n_events n_benchmarks : nat,
     Forall (λ '(i, b1, b2), i = b1 ∧ b1 = b2)
       (zip3 (range n_events) (range n_benchmarks) (range n_benchmarks))) ∧
  fill_covariance_inputs [[Fin 2; Fin 3]] 1 2 (zeros3 1 2 2)
  = Ok [[[Fin 4; Fin 0]; [Fin 0; Fin 0]]].
Proof.
  split; [|split; [apply zip3_range_diagonal|reflexivity]].
  intros. unfold _calculate_fisher_information.
  destruct (einsum_n_in_jn _ _ _); simpl; [|eauto].
  destruct (if include_nuisance_parameters then _ else _); simpl; [|eauto].
  edestruct covariance_of_information_raises as [e ->]. simpl. eauto.
Qed.

Example covariance_type_error :
  _calculate_fisher_information (λ _, [Fin 1]) (λ _, [[Fin 1]]) (λ x, x)
    example_self [] [[Fin 1]] (Fin 1) false true true (Some [[Fin 1]]) None
  = Raise TypeError.
Proof. reflexivity. Qed.

(** ** Names in expressions *)

Lemma expr_nested_ind (P : expr → Prop) :
  (∀ x, P (Num x)) →
  (∀ b, P (Constant b)) →
  (∀ id, P (Name id)) →
  (∀ l op r, P l → P r → P (BinOp l op r)) →
  (∀ l op r, P l → P r → P (Compare l op r)) →
  (∀ op l r, P l → P r → P (BoolOp op l r)) →
  (∀ e, P e → P (Not e)) →
  (∀ func args, Forall P args → P (Call func args)) →
  ∀ e, P e.
Proof.
  intros HNum HConst HName HBin HCmp HBool HNot HCall.
  fix IH 1. intros [x|b|id|l op r|l op r|op l r|e|func args].
  - apply HNum.
  - apply HConst.
  - apply HName.
  - apply HBin; apply IH.
  - apply HCmp; apply IH.
  - apply HBool; apply IH.
  - apply HNot, IH.
  - apply HCall. induction args as [|a args IHargs]; constructor; [apply IH|apply IHargs].
Qed.

Section Names.

Variable builtins : gmap string value.
Variable math_commands : gmap string value.
Variable call_function : string → list value → res value.
Variable readers_globals : gmap string value.

Local Abbreviation eval := (eval builtins call_function).

Lemma lookup_name_unbound (globals : gmap string value) (s : string) :
  globals !! s = None → builtins !! s = None →
  lookup_name builtins globals s = Raise NameError.
Proof. intros Hg Hb. unfold lookup_name. by rewrite Hg, Hb. Qed.

(** Evaluation of a strict expression that refers to an unbound name
    raises. *)
Lemma eval_unbound_name (globals : gmap string value) (s : string) :
  globals !! s = None → builtins !! s = None →
  ∀ e, strict e = true → s ∈ names e → ∃ ex, eval globals e = Raise ex.
Proof.
  intros Hg Hb e. induction e as
    [x|b|id|l op r IHl IHr|l op r IHl IHr|op l r IHl IHr|e IH|func args IHargs]
    using expr_nested_ind; simpl; intros Hstrict Hin.
  - by apply elem_of_nil in Hin.
  - by apply elem_of_nil in Hin.
  - apply list_elem_of_singleton in Hin as ->.
    rewrite lookup_name_unbound by done. eauto.
  - apply andb_prop in Hstrict as [Hl Hr]. apply elem_of_app in Hin as [Hin|Hin].
    + destruct (IHl Hl Hin) as [ex ->]. simpl. eauto.
    + destruct (eval globals l); simpl; [|eauto].
      destruct (IHr Hr Hin) as [ex ->]. simpl. eauto.
  - apply andb_prop in Hstrict as [Hl Hr]. apply elem_of_app in Hin as [Hin|Hin].
    + destruct (IHl Hl Hin) as [ex ->]. simpl. eauto.
    + destruct (eval globals l); simpl; [|eauto].
      destruct (IHr Hr Hin) as [ex ->]. simpl. eauto.
  - discriminate.
  - destruct (IH Hstrict Hin) as [ex ->]. simpl. eauto.
  - apply elem_of_cons in Hin as [->|Hin].
    + rewrite lookup_name_unbound by done. simpl. eauto.
    + destruct (lookup_name builtins globals func); simpl; [|eauto].
      assert (Hargs : ∃ ex,
        (fix eval_args (l : list expr) : res (list value) :=
           match l with
           | [] => Ok []
           | a :: l' => v ← eval globals a; vs ← eval_args l'; Ok (v :: vs)
           end) args = Raise ex).
      { clear -IHargs Hstrict Hin.
        induction IHargs as [|a args Ha _ IH]; simpl in *.
        - by apply elem_of_nil in Hin.
        - apply andb_prop in Hstrict as [Hsa Hsargs].
          apply elem_of_app in Hin as [Hin|Hin].
          + destruct (Ha Hsa Hin) as [ex ->]. simpl. eauto.
          + destruct (eval globals a); simpl; [|eauto].
            destruct (IH Hsargs Hin) as [ex ->]. simpl. eauto. }
      destruct Hargs as [ex ->]. simpl. eauto.
Qed.

(** A cut that raises is not skipped when the cuts before it pass. *)
Lemma check_cuts_raises (variables : gmap string value)
    (before after : list expr) (cut : expr) (ex : exn) :
  Forall (λ c, ∃ v, eval variables c = Ok v ∧ truthy v = true) before →
  eval variables cut = Raise ex →
  check_cuts builtins call_function variables (before ++ cut :: after) = Raise ex.
Proof.
  intros Hbefore Hcut. induction Hbefore as [|c before (v & Hv & Ht) _ IH]; simpl.
  - by rewrite Hcut.
  - rewrite Hv. simpl. by rewrite Ht.
Qed.

Lemma efficiencies_raise (variables : gmap string value)
    (before after : list expr) (f : expr) (ex : exn) :
  Forall (λ c, ∃ v x, eval variables c = Ok v ∧ to_float v = Ok x) before →
  eval variables f = Raise ex →
  ∀ efficiency,
    for_each (λ efficiency efficency_function,
        v ← eval variables efficency_function;
        x ← to_float v;
        Ok (fmul efficiency x))
      (before ++ f :: after) efficiency = Raise ex.
Proof.
  intros Hbefore Hf. induction Hbefore as [|c before (v & x & Hv & Hx) _ IH];
    intros efficiency; simpl.
  - by rewrite Hf.
  - rewrite Hv. simpl. rewrite Hx. simpl. apply IH.
Qed.

End Names.




(** ** Sums of weight vectors *)

Lemma normal_fadd (x y : float64) : normal_f (fadd x y).
Proof.
  unfold normal_f. destruct x as [a| | |], y as [b| | |]; simpl; try reflexivity.
  f_equal. apply Qred_complete. rewrite Qred_correct. ring.
Qed.

Lemma normal_fzero : normal_f fzero.
Proof. reflexivity. Qed.

Lemma vadd_comm (a b : vec) : zip_with fadd a b = zip_with fadd b a.
Proof.
  revert b. induction a as [|x a IH]; intros [|y b]; simpl; try reflexivity.
  by rewrite fadd_comm, IH.
Qed.

Lemma vadd_assoc (a b c : vec) :
  zip_with fadd a (zip_with fadd b c) = zip_with fadd (zip_with fadd a b) c.
Proof.
  revert b c. induction a as [|x a IH]; intros [|y b] [|z c]; simpl; try reflexivity.
  by rewrite fadd_assoc, IH.
Qed.

Lemma vadd_zeros_l (b : nat) (a : vec) :
  Forall normal_f a → length a = b → zip_with fadd (zeros1 b) a = a.
Proof.
  intros Ha <-. unfold zeros1. induction Ha as [|x a Hx _ IH]; [done|].
  cbn [length replicate zip_with]. rewrite IH. f_equal. by rewrite fadd_comm.
Qed.

Lemma vadd_normal (a b : vec) : Forall normal_f (zip_with fadd a b).
Proof.
  revert b. induction a as [|x a IH]; intros [|y b]; simpl; constructor; auto.
  apply normal_fadd.
Qed.

Lemma vadd_left_comm (a b c : vec) :
  zip_with fadd a (zip_with fadd b c) = zip_with fadd b (zip_with fadd a c).
Proof.
  by rewrite !vadd_assoc, (vadd_comm a b).
Qed.

(** Sums of a list of vectors onto an accumulator. *)
Lemma foldr_vadd_shift (acc c : vec) (l : mat) :
  zip_with fadd (foldr (zip_with fadd) acc l) c
  = foldr (zip_with fadd) (zip_with fadd acc c) l.
Proof.
  induction l as [|x l IH]; simpl; [done|].
  by rewrite <- vadd_assoc, IH.
Qed.

Lemma foldr_vadd_insert (acc : vec) (wb : mat) (i : nat) (r s : vec) :
  wb !! i = Some r →
  foldr (zip_with fadd) acc (<[i := zip_with fadd r s]> wb)
  = zip_with fadd s (foldr (zip_with fadd) acc wb).
Proof.
  revert i. induction wb as [|x wb IH]; intros [|i] Hi; simpl in *; try done.
  - injection Hi as ->. by rewrite <- vadd_assoc, vadd_left_comm.
  - rewrite (IH i Hi). apply vadd_left_comm.
Qed.

Lemma foldr_vadd_permutation (acc : vec) (l1 l2 : mat) :
  l1 ≡ₚ l2 → foldr (zip_with fadd) acc l1 = foldr (zip_with fadd) acc l2.
Proof.
  induction 1 as [|x l1 l2 _ IH|x y l|l1 l2 l3 _ IH1 _ IH2]; simpl.
  - done.
  - by rewrite IH.
  - apply vadd_left_comm.
  - by rewrite IH1.
Qed.

Lemma foldr_vadd_length (b : nat) (acc : vec) (l : mat) :
  length acc = b → Forall (λ row, length row = b) l →
  length (foldr (zip_with fadd) acc l) = b.
Proof.
  intros Hacc Hl. induction Hl as [|x l Hx _ IH]; simpl; [done|].
  rewrite length_zip_with, IH, Hx. lia.
Qed.

Lemma foldr_vadd_normal (acc : vec) (l : mat) :
  Forall normal_f acc → Forall normal_f (foldr (zip_with fadd) acc l).
Proof.
  intros Hacc. destruct l as [|x l]; simpl; [done|]. apply vadd_normal.
Qed.

Lemma zeros1_normal (b : nat) : Forall normal_f (zeros1 b).
Proof. apply Forall_replicate, normal_fzero. Qed.

Lemma zeros1_length (b : nat) : length (zeros1 b) = b.
Proof. apply length_replicate. Qed.

Lemma sum_axis0_mat_zeros2 (n b : nat) : sum_axis0_mat b (zeros2 n b) = zeros1 b.
Proof.
  unfold sum_axis0_mat, zeros2. induction n as [|n IH]; simpl; [done|].
  rewrite IH. apply vadd_zeros_l; [apply zeros1_normal|apply zeros1_length].
Qed.

(** Adding the sum of a list of rows is folding the rows onto the
    accumulator. *)
Lemma vadd_sum_rows (b : nat) (acc : vec) (rows : mat) :
  Forall normal_f acc → length acc = b →
  zip_with fadd (sum_axis0_mat b rows) acc = foldr (zip_with fadd) acc rows.
Proof.
  intros Hacc Hlen. unfold sum_axis0_mat.
  by rewrite foldr_vadd_shift, vadd_zeros_l.
Qed.

(** ** The bins of a batch *)

Lemma mask_rows_bin_rows (bins : list Z) (weights selected : mat) (i : Z) :
  mask_rows ((λ b, (b =? i)%Z) <$> bins) weights = Ok selected →
  selected = bin_rows bins weights i ∧ length bins = length weights.
Proof.
  unfold mask_rows. rewrite length_fmap.
  destruct (length bins =? length weights) eqn:Hlen; [|done].
  intros [= <-]. split; [done|]. by apply Nat.eqb_eq.
Qed.

Lemma bin_rows_cons (b : Z) (bins : list Z) (w : vec) (weights : mat) (i : Z) :
  bin_rows (b :: bins) (w :: weights) i
  = if (b =? i)%Z then w :: bin_rows bins weights i else bin_rows bins weights i.
Proof.
  unfold bin_rows. simpl. rewrite filter_cons. simpl.
  destruct (b =? i)%Z; [by rewrite decide_True|by rewrite decide_False].
Qed.

Lemma bin_rows_nil_l (weights : mat) (i : Z) : bin_rows [] weights i = [].
Proof. unfold bin_rows. by destruct weights. Qed.

Lemma bin_rows_Forall (P : vec → Prop) (bins : list Z) (weights : mat) (i : Z) :
  Forall P weights → Forall P (bin_rows bins weights i).
Proof.
  intros Hw. revert bins. induction Hw as [|w weights Hw _ IH]; intros [|b bins].
  - done.
  - done.
  - by rewrite bin_rows_nil_l.
  - rewrite bin_rows_cons. destruct (b =? i)%Z; [constructor|]; auto.
Qed.

Lemma rows_below_cons (b : Z) (bins : list Z) (w : vec) (weights : mat) (k : nat) :
  rows_below (b :: bins) (w :: weights) k
  = if decide (0 ≤ b < Z.of_nat k)%Z then w :: rows_below bins weights k
    else rows_below bins weights k.
Proof.
  unfold rows_below. simpl. rewrite filter_cons. simpl. by destruct (decide _).
Qed.

Lemma rows_below_S (bins : list Z) (weights : mat) (k : nat) :
  rows_below bins weights (S k)
  ≡ₚ rows_below bins weights k ++ bin_rows bins weights (Z.of_nat k).
Proof.
  revert bins. induction weights as [|w weights IH]; intros [|b bins]; try done.
  rewrite !rows_below_cons, bin_rows_cons.
  destruct (Z.eqb_spec b (Z.of_nat k)) as [->|Hne].
  - rewrite decide_True by lia. rewrite decide_False by lia.
    rewrite IH. apply Permutation_middle.
  - destruct (decide (0 ≤ b < Z.of_nat k)%Z).
    + rewrite decide_True by lia. simpl. by rewrite IH.
    + rewrite decide_False by lia. apply IH.
Qed.

Lemma rows_below_0 (bins : list Z) (weights : mat) : rows_below bins weights 0 = [].
Proof.
  revert bins. induction weights as [|w weights IH]; intros [|b bins]; try done.
  rewrite rows_below_cons, decide_False by lia. apply IH.
Qed.

Lemma flat_map_bin_rows (bins : list Z) (weights : mat) (n : nat) :
  flat_map (bin_rows bins weights) (range n) ≡ₚ rows_below bins weights n.
Proof.
  induction n as [|n IH].
  - by rewrite rows_below_0.
  - unfold range in *. rewrite seq_S, fmap_app, flat_map_app. simpl.
    rewrite app_nil_r, IH. symmetry. apply rows_below_S.
Qed.

Lemma rows_below_all (bins : list Z) (weights : mat) (n : nat) :
  length bins = length weights →
  Forall (λ b, (0 ≤ b < Z.of_nat n)%Z) bins →
  rows_below bins weights n = weights.
Proof.
  intros Hlen Hbins. revert weights Hlen.
  induction Hbins as [|b bins Hb _ IH]; intros [|w weights] Hlen; try done.
  rewrite rows_below_cons, decide_True by done. f_equal. apply IH.
  simpl in Hlen. lia.
Qed.

(** ** Aggregation of the weights per bin and in total *)

Lemma list_comp_length {A B : Type} (f : A → res B) (l : list A) (r : list B) :
  list_comp f l = Ok r → length r = length l.
Proof.
  revert r. induction l as [|x l IH]; intros r; simpl.
  - by intros [= <-].
  - destruct (f x); simpl; [|done].
    destruct (list_comp f l) as [ys|]; simpl; [|done].
    intros [= <-]. simpl. f_equal. by apply IH.
Qed.

Lemma mask_rows_shape {A : Type} (P : A → Prop) (mask : list bool) (m r : list A) :
  mask_rows mask m = Ok r →
  (Forall P m → Forall P r) ∧
  length r = length (filter (λ b, b = true) mask).
Proof.
  unfold mask_rows. destruct (length mask =? length m) eqn:Hlen; [|done].
  apply Nat.eqb_eq in Hlen. intros [= <-]. split.
  - intros Hm. apply Forall_fmap, Forall_forall. intros [x b] Hx.
    apply list_elem_of_filter in Hx as [_ Hx]. apply elem_of_zip_l in Hx.
    simpl. by apply (proj1 (Forall_forall _ _) Hm).
  - rewrite length_fmap. clear P. revert mask Hlen.
    induction m as [|x m IH]; intros [|b mask] Hlen; simpl in *; try done.
    rewrite !filter_cons. simpl. destruct b.
    + rewrite !decide_True by done. simpl. f_equal. apply IH. lia.
    + rewrite !decide_False by done. apply IH. lia.
Qed.

Lemma scale_rows_shape (b : nat) (weights : mat) (efficiencies : vec) (r : mat) :
  scale_rows weights efficiencies = Ok r →
  Forall (λ row, length row = b) weights →
  Forall (λ row, length row = b) r ∧ length r = length weights.
Proof.
  unfold scale_rows. intros Hr Hw.
  destruct (length efficiencies =? length weights) eqn:Hlen.
  - apply Nat.eqb_eq in Hlen. injection Hr as <-. split.
    + clear Hlen. revert efficiencies.
      induction Hw as [|row weights Hrow _ IH]; intros [|e efficiencies]; simpl;
        constructor; auto. by rewrite length_fmap.
    + rewrite length_zip_with. lia.
  - destruct efficiencies as [|e [|e' efficiencies]]; try done.
    injection Hr as <-. unfold map_mat. split.
    + apply Forall_fmap. eapply Forall_impl; [exact Hw|].
      intros row Hrow. simpl. by rewrite length_fmap.
    + by rewrite length_fmap.
Qed.

Section Additivity.

Variable get_theta_benchmark_matrix : vec → vec.
Variable get_dtheta_benchmark_matrix : vec → mat.
Variable np_log : float64 → float64.
Variable builtins : gmap string value.
Variable math_commands : gmap string value.
Variable call_function : string → list value → res value.
Variable np_sqrt : float64 → float64.
Variable madminer_event_loader : nat → batch_size_t → list (mat * mat).
Variable weighted_quantile : vec → vec → vec → vec.

Variable self : FisherInformation.
Variables cuts efficiency_functions : list expr.

Let B := n_benchmarks self.
Let row_shape (m : mat) : Prop := Forall (λ row : vec, length row = B) m.

Lemma apply_cuts_and_efficiencies_shape (observations weights obs w : mat) :
  apply_cuts_and_efficiencies builtins math_commands call_function self cuts
    efficiency_functions observations weights = Ok (obs, w) →
  row_shape weights → row_shape w ∧ length obs = length w.
Proof.
  unfold apply_cuts_and_efficiencies. intros Hrun Hw.
  destruct (list_comp _ observations) as [cut_filter|]; simpl in Hrun; [|done].
  destruct (mask_rows cut_filter observations) as [obs'|] eqn:Hobs;
    simpl in Hrun; [|done].
  destruct (mask_rows cut_filter weights) as [w'|] eqn:Hw'; simpl in Hrun; [|done].
  destruct (list_comp _ obs') as [efficiencies|]; simpl in Hrun; [|done].
  destruct (scale_rows w' efficiencies) as [w''|] eqn:Hscale; simpl in Hrun; [|done].
  injection Hrun as <- <-.
  destruct (mask_rows_shape (λ _, True) _ _ _ Hobs) as [_ Hlen1].
  destruct (mask_rows_shape (λ row : vec, length row = B) _ _ _ Hw') as [Hshape Hlen2].
  destruct (scale_rows_shape B _ _ _ Hscale (Hshape Hw)) as [Hshape' Hlen3].
  split; [done|]. congruence.
Qed.

Lemma sum_axis0_mat_shape (n : nat) (wb : mat) :
  is_matrix n B wb →
  Forall normal_f (sum_axis0_mat B wb) ∧ length (sum_axis0_mat B wb) = B.
Proof.
  intros [_ Hrows]. unfold sum_axis0_mat. split.
  - apply foldr_vadd_normal, zeros1_normal.
  - apply foldr_vadd_length; [apply zeros1_length|done].
Qed.

Lemma iadd_row_sum (n : nat) (wb wb' : mat) (i : nat) (s : vec) :
  is_matrix n B wb → length s = B → i < n →
  iadd_row wb (Z.of_nat i) s = Ok wb' →
  is_matrix n B wb' ∧
  sum_axis0_mat B wb' = zip_with fadd s (sum_axis0_mat B wb).
Proof.
  intros Hwb Hs Hi. unfold iadd_row. destruct Hwb as [Hn Hrows].
  rewrite Hn, norm_index_nat by done. simpl.
  destruct (lookup_lt_is_Some_2 wb i ltac:(lia)) as [row Hrow]. rewrite Hrow. simpl.
  pose proof (Forall_lookup_1 _ _ _ _ Hrows Hrow) as Hlen. simpl in Hlen.
  unfold iadd_vec. rewrite Hs, Hlen, Nat.eqb_refl. simpl. intros [= <-]. split.
  - apply is_matrix_insert; [done|]. rewrite length_zip_with. lia.
  - unfold sum_axis0_mat. by apply foldr_vadd_insert.
Qed.

Lemma iadd_row_shape (n : nat) (wsq wsq' : mat) (i : Z) (s : vec) :
  length wsq = n → iadd_row wsq i s = Ok wsq' → length wsq' = n.
Proof.
  intros Hn. unfold iadd_row.
  destruct (norm_index _ _); simpl; [|done].
  destruct (from_lookup _); simpl; [|done].
  destruct (iadd_vec _ _); simpl; [|done].
  intros [= <-]. by rewrite length_insert.
Qed.

(** The loop over the bins adds every selected row to the sum of the
    per-bin weights. *)
Lemma bins_loop (n : nat) (bins : list Z) (weights : mat) (l : list Z) :
  row_shape weights →
  Forall (λ i, (0 ≤ i < Z.of_nat n)%Z) l →
  ∀ wb wsq wb' wsq',
    is_matrix n B wb →
    for_each (λ '(weights_benchmarks, weights_squared_benchmarks) i,
        selected ← mask_rows ((λ b, (b =? i)%Z) <$> bins) weights;
        if 0 <? length selected then
          weights_benchmarks ←
            iadd_row weights_benchmarks i
              (sum_axis0_mat (ncols selected) selected);
          weights_squared_benchmarks ←
            iadd_row weights_squared_benchmarks i
              (sum_axis0_mat (ncols selected) (map_mat fsquare selected));
          Ok (weights_benchmarks, weights_squared_benchmarks)
        else Ok (weights_benchmarks, weights_squared_benchmarks))
      l (wb, wsq) = Ok (wb', wsq') →
    is_matrix n B wb' ∧
    sum_axis0_mat B wb'
    = foldr (zip_with fadd) (sum_axis0_mat B wb) (flat_map (bin_rows bins weights) l).
Proof.
  intros Hw Hl. induction Hl as [|i l Hi _ IH]; intros wb wsq wb' wsq' Hwb; simpl.
  - by intros [= <- <-].
  - destruct (mask_rows _ weights) as [selected|] eqn:Hsel; simpl; [|done].
    apply mask_rows_bin_rows in Hsel as [-> _].
    set (selected := bin_rows bins weights i).
    assert (Hshape : row_shape selected) by by apply bin_rows_Forall.
    rewrite (foldr_vadd_permutation _ _ (flat_map (bin_rows bins weights) l ++ selected))
      by apply Permutation_app_comm.
    rewrite foldr_app.
    destruct (0 <? length selected) eqn:Hne.
    + assert (Hcols : ncols selected = B).
      { destruct selected as [|row selected']; [done|]. simpl.
        by inversion Hshape. }
      rewrite Hcols.
      destruct (iadd_row wb i _) as [wb1|] eqn:Hwb1; simpl; [|done].
      destruct (iadd_row wsq i _) as [wsq1|]; simpl; [|done].
      intros Hrest.
      replace i with (Z.of_nat (Z.to_nat i)) in Hwb1 by lia.
      apply (iadd_row_sum n) in Hwb1 as [Hwb1 Hsum]; [|done| |lia].
      2:{ unfold sum_axis0_mat. apply foldr_vadd_length; [apply zeros1_length|done]. }
      destruct (IH _ _ _ _ Hwb1 Hrest) as [Hwb' Hsum'].
      split; [done|]. rewrite Hsum', Hsum. f_equal.
      destruct (sum_axis0_mat_shape n wb Hwb) as [Hnormal Hlen].
      by apply vadd_sum_rows.
    + intros Hrest. destruct (IH _ _ _ _ Hwb Hrest) as [Hwb' Hsum'].
      split; [done|]. rewrite Hsum'. f_equal.
      destruct selected; [done|]. simpl in Hne. discriminate.
Qed.

Lemma iadd_vec_same_length (target s : vec) :
  length s = length target → iadd_vec target s = Ok (zip_with fadd target s).
Proof. intros Hlen. unfold iadd_vec. by rewrite Hlen, Nat.eqb_refl. Qed.

Lemma weight_columns_shape (w : mat) : row_shape w → weight_columns self w = B.
Proof. intros Hw. destruct w as [|row w]; [done|]. simpl. by inversion Hw. Qed.

(** One batch adds its filtered rows to the sum of the per-bin weights. *)
Lemma hist1d_batch_sum (observable : expr) (n : nat) (bin_boundaries : vec)
    (wb wsq wb' wsq' : mat) (batch : mat * mat) :
  row_shape batch.2 → is_matrix n B wb →
  hist1d_batch builtins math_commands call_function self observable n
    bin_boundaries cuts efficiency_functions (wb, wsq) batch = Ok (wb', wsq') →
  ∃ obs w,
    apply_cuts_and_efficiencies builtins math_commands call_function self cuts
      efficiency_functions batch.1 batch.2 = Ok (obs, w) ∧
    row_shape w ∧ is_matrix n B wb' ∧
    sum_axis0_mat B wb' = foldr (zip_with fadd) (sum_axis0_mat B wb) w.
Proof.
  intros Hbatch Hwb. unfold hist1d_batch.
  destruct (apply_cuts_and_efficiencies _ _ _ _ _ _ _ _) as [[obs w]|] eqn:Happly;
    simpl; [|done].
  destruct (apply_cuts_and_efficiencies_shape _ _ _ _ Happly Hbatch) as [Hw Hlen].
  destruct (list_comp _ obs) as [histo|] eqn:Hhisto; simpl; [|done].
  apply list_comp_length in Hhisto.
  set (bins := np_searchsorted bin_boundaries <$> histo).
  destruct (forallb _ bins) eqn:Hbins; simpl; [|done].
  intros Hloop. exists obs, w. split; [done|]. split; [done|].
  apply (bins_loop n bins w (range n) Hw) in Hloop as [Hwb' Hsum]; [|
    apply Forall_forall; intros i Hi; by apply range_elem_of | done].
  split; [done|]. rewrite Hsum. apply foldr_vadd_permutation.
  rewrite flat_map_bin_rows, rows_below_all; [done| |].
  - unfold bins. rewrite length_fmap. congruence.
  - apply Forall_forall. intros b Hb.
    apply list_elem_of_In in Hb.
    apply (proj1 (forallb_forall _ _) Hbins) in Hb.
    apply andb_prop in Hb as [H0 H1]. lia.
Qed.

(** The sum of the per-bin weights and the running total of
    [_calculate_xsec] agree batch after batch. *)
Lemma batches_lockstep (observable : expr) (n : nat) (bin_boundaries : vec)
    (batches : list (mat * mat)) :
  Forall (λ batch, row_shape batch.2) batches →
  ∀ (wb wsq : mat) (totals : option (vec * vec)) (wb' wsq' : mat)
    (totals' : option (vec * vec)),
    is_matrix n B wb →
    sum_axis0_mat B wb = match totals with Some (x, _) => x | None => zeros1 B end →
    for_each
      (hist1d_batch builtins math_commands call_function self observable n
         bin_boundaries cuts efficiency_functions)
      batches (wb, wsq) = Ok (wb', wsq') →
    for_each (λ (totals : option (vec * vec)) '(observations, weights),
        '(observations, weights) ←
          apply_cuts_and_efficiencies builtins math_commands call_function self
            cuts efficiency_functions observations weights;
        let b := weight_columns self weights in
        match totals with
        | None =>
            Ok (Some (sum_axis0_mat b weights,
                      sum_axis0_mat b (map_mat fsquare weights)))
        | Some (xsecs_benchmarks, xsecs_uncertainty_benchmarks) =>
            xsecs_benchmarks ← iadd_vec xsecs_benchmarks (sum_axis0_mat b weights);
            xsecs_uncertainty_benchmarks ←
              iadd_vec xsecs_uncertainty_benchmarks
                (sum_axis0_mat b (map_mat fsquare weights));
            Ok (Some (xsecs_benchmarks, xsecs_uncertainty_benchmarks))
        end)
      batches totals = Ok totals' →
    sum_axis0_mat B wb' = match totals' with Some (x, _) => x | None => zeros1 B end.
Proof.
  induction 1 as [|[observations weights] batches Hbatch _ IH];
    intros wb wsq totals wb' wsq' totals' Hwb Hinv; simpl.
  - by intros [= <- <-] [= <-].
  - destruct (hist1d_batch _ _ _ _ _ _ _ _ _ _ _) as [[wb1 wsq1]|] eqn:Hstep;
      simpl; [|done].
    apply hist1d_batch_sum in Hstep as (obs & w & Happly & Hw & Hwb1 & Hsum);
      [|done|done].
    simpl in Happly. rewrite Happly. simpl.
    rewrite (weight_columns_shape w Hw).
    destruct (sum_axis0_mat_shape n wb Hwb) as [Hnormal Hlen].
    intros Hhist. destruct totals as [[x u]|].
    + subst x.
      assert (Hs : length (sum_axis0_mat B w) = B).
      { unfold sum_axis0_mat. apply foldr_vadd_length; [apply zeros1_length|done]. }
      rewrite (iadd_vec_same_length (sum_axis0_mat B wb) (sum_axis0_mat B w))
        by congruence.
      simpl.
      destruct (iadd_vec u _) as [u'|]; simpl; [|done].
      intros Hx. eapply (IH wb1 wsq1 _ wb' wsq' totals' Hwb1); [|exact Hhist|exact Hx].
      simpl. rewrite Hsum, vadd_comm. symmetry. by apply vadd_sum_rows.
    + intros Hx. eapply (IH wb1 wsq1 _ wb' wsq' totals' Hwb1); [|exact Hhist|exact Hx].
      simpl. rewrite Hsum, Hinv. reflexivity.
Qed.

End Additivity.




Example hist1d_and_rate_type_error :
  calculate_fisher_information_hist1d example_theta_matrix example_dtheta_matrix
    (λ x, x) ∅ ∅ no_functions (λ x, x) example_loader (λ _ _ _, [])
    example_self_pt [] (Fin 1) (Name "pt") 1 (Some (Fin 0, Fin 10)) None None 0
  = Raise TypeError ∧
  calculate_fisher_information_rate example_theta_matrix example_dtheta_matrix
    (λ x, x) ∅ ∅ no_functions (λ x, x) example_loader example_self_pt [] (Fin 1)
    None None
  = Raise TypeError.
Proof. split; vm_compute; reflexivity. Qed.

(** ** Further properties of the physical block *)

Lemma tab1_lookup_ge (a : nat) (f : nat → float64) (i : nat) :
  a ≤ i → tab1 a f !! i = None.
Proof.
  intros Hi. unfold tab1. rewrite list_lookup_fmap, lookup_seq_ge by done. done.
Qed.

Lemma tab3_lookup3_ge (a b c : nat) (f : nat → nat → nat → float64) (n i j : nat) :
  a ≤ n ∨ b ≤ i ∨ c ≤ j → lookup3 (tab3 a b c f) n i j = None.
Proof.
  intros Hout. unfold lookup3, lookup2, tab3, tab2.
  destruct (decide (n < a)) as [Hn|Hn].
  - rewrite list_lookup_fmap, lookup_seq_lt by done. simpl.
    destruct (decide (i < b)) as [Hi|Hi].
    + rewrite list_lookup_fmap, lookup_seq_lt by done. simpl.
      apply tab1_lookup_ge. lia.
    + by rewrite list_lookup_fmap, lookup_seq_ge by lia.
  - by rewrite list_lookup_fmap, lookup_seq_ge by lia.
Qed.

Lemma fmul_one_absorb (x y : float64) : fmul x (fmul fone y) = fmul x y.
Proof.
  destruct x as [a| | |], y as [b| | |]; try reflexivity; simpl;
    rewrite ?Qsign_Qred.
  - apply Fin_Qred_eq. rewrite Qred_correct. ring.
  - f_equal. apply Qsign_Qeq. ring.
  - do 2 f_equal. apply Qsign_Qeq. ring.
Qed.




(** X4. A batch without events is no error: the engine returns no
    matrix per event, and the zero matrix as their sum. *)
Theorem information_of_no_events
    (get_theta_benchmark_matrix : vec → vec)
    (get_dtheta_benchmark_matrix : vec → mat) (np_log : float64 → float64)
    (self : FisherInformation) (theta : vec) (luminosity : float64)
    (weights_benchmark_uncertainties : option mat)
    (weights_sampling_benchmark : option vec) :
  let P := length (get_dtheta_benchmark_matrix theta) in
  _calculate_fisher_information get_theta_benchmark_matrix
    get_dtheta_benchmark_matrix np_log self theta [] luminosity
    false false false weights_benchmark_uncertainties weights_sampling_benchmark
  = Ok (Info3 [], None) ∧
  _calculate_fisher_information get_theta_benchmark_matrix
    get_dtheta_benchmark_matrix np_log self theta [] luminosity
    false true false weights_benchmark_uncertainties weights_sampling_benchmark
  = Ok (Info2 (zeros2 P P), None).
Proof.
  intros P. split.
  - by rewrite physical_block_per_event.
  - by rewrite physical_block_summed.
Qed.

(** ** Binding of the observables *)

Section Binding.

Variable builtins : gmap string value.
Variable math_commands : gmap string value.
Variable call_function : string → list value → res value.

Lemma bind_fold_other (l : list (string * float64)) (m : gmap string value)
    (nm : string) :
  nm ∉ l.*1 →
  foldl (λ variables '(observable_name, observable_value),
      <[observable_name := VFloat observable_value]> variables) m l !! nm
  = m !! nm.
Proof.
  revert m. induction l as [|[k v] l IH]; intros m Hnm; simpl in *; [done|].
  apply not_elem_of_cons in Hnm as [Hne Hnm].
  rewrite IH by done. by rewrite lookup_insert_ne.
Qed.

Lemma bind_fold_bound (l : list (string * float64)) (m : gmap string value)
    (nm : string) (x : float64) :
  NoDup l.*1 → (nm, x) ∈ l →
  foldl (λ variables '(observable_name, observable_value),
      <[observable_name := VFloat observable_value]> variables) m l !! nm
  = Some (VFloat x).
Proof.
  revert m. induction l as [|[k v] l IH]; intros m Hnd Hin; simpl in *.
  - by apply elem_of_nil in Hin.
  - apply NoDup_cons in Hnd as [Hk Hnd].
    apply elem_of_cons in Hin as [[= <- <-]|Hin].
    + rewrite bind_fold_other by done. by rewrite lookup_insert_eq.
    + by apply IH.
Qed.

Lemma bind_observables_bound (self : FisherInformation) (observations : vec)
    (k : nat) (nm : string) (x : float64) :
  NoDup (observables self) →
  length observations = length (observables self) →
  observables self !! k = Some nm → observations !! k = Some x →
  bind_observables math_commands self observations !! nm = Some (VFloat x).
Proof.
  intros Hnd Hlen Hnm Hx. unfold bind_observables.
  apply bind_fold_bound.
  - rewrite fst_zip by lia. done.
  - apply list_elem_of_lookup. exists k. apply lookup_zip_with_Some. eauto.
Qed.

Lemma bind_observables_other (self : FisherInformation) (observations : vec)
    (nm : string) :
  nm ∉ observables self →
  bind_observables math_commands self observations !! nm = math_commands !! nm.
Proof.
  intros Hnm. unfold bind_observables. apply bind_fold_other.
  intros Hin. apply Hnm. apply list_elem_of_fmap in Hin as ([k v] & -> & Hin).
  by apply elem_of_zip_l in Hin.
Qed.

End Binding.

(** X5. With distinct observable names and as many observations, the
    name of the [k]-th observable evaluates to the [k]-th observation,
    also when a math function or a builtin has the same name. *)
Theorem observable_name_evaluates_to_observation
    (builtins math_commands : gmap string value)
    (call_function : string → list value → res value)
    (self : FisherInformation) (observations : vec)
    (k : nat) (nm : string) (x : float64) :
  NoDup (observables self) →
  length observations = length (observables self) →
  observables self !! k = Some nm → observations !! k = Some x →
  _eval_observable builtins math_commands call_function self observations (Name nm)
  = Ok x.
Proof.
  intros Hnd Hlen Hnm Hx. unfold _eval_observable.
  apply Nat.eqb_eq in Hlen as Hlenb. rewrite Hlenb. simpl.
  unfold lookup_name. by rewrite (bind_observables_bound _ _ _ k nm x).
Qed.

Lemma observable_name_evaluates_to_observation_witness :
  _eval_observable ∅ {[ "pt" := VFunction "pt" ]} no_functions example_self_pt
    [Fin 60] (Name "pt") = Ok (Fin 60).
Proof.
  apply (observable_name_evaluates_to_observation _ _ _ _ _ 0).
  - apply (bool_decide_unpack _). vm_compute. exact I.
  - reflexivity.
  - reflexivity.
  - reflexivity.
Defined.

(** X6. A cut [name > c] on a declared observable keeps the event
    exactly when the observation is greater than [c] in the IEEE order,
    so that an observation that is not a number is cut. *)
Theorem greater_than_cut
    (builtins math_commands : gmap string value)
    (call_function : string → list value → res value)
    (self : FisherInformation) (observations : vec)
    (k : nat) (nm : string) (x : float64) (c : Q) :
  NoDup (observables self) →
  length observations = length (observables self) →
  observables self !! k = Some nm → observations !! k = Some x →
  _pass_cuts builtins math_commands call_function self observations
    (Some [Compare (Name nm) CGt (Num c)])
  = Ok (flt (Fin c) x).
Proof.
  intros Hnd Hlen Hnm Hx. unfold _pass_cuts.
  apply Nat.eqb_eq in Hlen as Hlenb. cbn -[flt]. rewrite Hlenb. cbn -[flt].
  unfold lookup_name. rewrite (bind_observables_bound _ _ _ k nm x) by done.
  cbn -[flt]. by destruct (flt (Fin c) x).
Qed.

Lemma greater_than_cut_witness :
  _pass_cuts ∅ ∅ no_functions example_self_pt [Fin 50]
    (Some [Compare (Name "pt") CGt (Num 50)])
  = Ok (flt (Fin 50) (Fin 50)).
Proof.
  apply (greater_than_cut _ _ _ _ _ 0).
  - apply (bool_decide_unpack _). vm_compute. exact I.
  - reflexivity.
  - reflexivity.
  - reflexivity.
Defined.

(** ** Evaluation of lists of cuts and efficiencies *)

Lemma check_cuts_all (builtins : gmap string value)
    (call_function : string → list value → res value)
    (variables : gmap string value) (cuts : list expr) (values : list value) :
  Forall2 (λ cut v, eval builtins call_function variables cut = Ok v) cuts values →
  check_cuts builtins call_function variables cuts = Ok (forallb truthy values).
Proof.
  induction 1 as [|cut v cuts values Hv _ IH]; simpl; [done|].
  rewrite Hv. simpl. destruct (truthy v); [exact IH|done].
Qed.

Lemma check_cuts_stops (builtins : gmap string value)
    (call_function : string → list value → res value)
    (variables : gmap string value) (before after : list expr) (cut : expr)
    (v : value) :
  Forall (λ c, ∃ v, eval builtins call_function variables c = Ok v ∧ truthy v = true)
    before →
  eval builtins call_function variables cut = Ok v → truthy v = false →
  check_cuts builtins call_function variables (before ++ cut :: after) = Ok false.
Proof.
  intros Hbefore Hcut Hv. induction Hbefore as [|c before (w & Hw & Ht) _ IH]; simpl.
  - by rewrite Hcut; simpl; rewrite Hv.
  - rewrite Hw. simpl. by rewrite Ht.
Qed.

(** X7. When every cut evaluates, the event passes exactly when every
    value is true as a Python [bool]; without cuts it passes. *)
Theorem pass_cuts_is_conjunction
    (builtins math_commands : gmap string value)
    (call_function : string → list value → res value)
    (self : FisherInformation) (observations : vec)
    (cuts : list expr) (values : list value) :
  length observations = length (observables self) →
  Forall2 (λ cut v,
      eval builtins call_function (bind_observables math_commands self observations) cut
      = Ok v) cuts values →
  _pass_cuts builtins math_commands call_function self observations (Some cuts)
  = Ok (forallb truthy values) ∧
  _pass_cuts builtins math_commands call_function self observations None = Ok true.
Proof.
  intros Hlen Hvalues. unfold _pass_cuts. apply Nat.eqb_eq in Hlen. rewrite Hlen.
  simpl. split; [by apply check_cuts_all|done].
Qed.

Lemma pass_cuts_is_conjunction_witness :
  _pass_cuts ∅ ∅ no_functions example_self_pt [Fin 60]
    (Some [Compare (Name "pt") CGt (Num 50); Compare (Name "pt") CLt (Num 55)])
  = Ok (forallb truthy [VBool true; VBool false]) ∧
  _pass_cuts ∅ ∅ no_functions example_self_pt [Fin 60] None = Ok true.
Proof.
  apply pass_cuts_is_conjunction; [reflexivity|].
  repeat constructor.
Defined.

(** X8. The cuts are evaluated in order and only up to the first one
    that fails: whatever follows it, even a cut that would raise, is not
    evaluated and the event is rejected without an error. *)
Theorem pass_cuts_stops_at_first_failure
    (builtins math_commands : gmap string value)
    (call_function : string → list value → res value)
    (self : FisherInformation) (observations : vec)
    (before after : list expr) (cut : expr) (v : value) :
  length observations = length (observables self) →
  Forall (λ c, ∃ v,
      eval builtins call_function (bind_observables math_commands self observations) c
      = Ok v ∧ truthy v = true) before →
  eval builtins call_function (bind_observables math_commands self observations) cut
  = Ok v →
  truthy v = false →
  _pass_cuts builtins math_commands call_function self observations
    (Some (before ++ cut :: after)) = Ok false.
Proof.
  intros Hlen Hbefore Hcut Hv. unfold _pass_cuts.
  apply Nat.eqb_eq in Hlen. rewrite Hlen. simpl.
  by apply (check_cuts_stops _ _ _ _ _ _ v).
Qed.

Lemma pass_cuts_stops_at_first_failure_witness :
  _pass_cuts ∅ ∅ no_functions example_self_pt [Fin 60]
    (Some ([Compare (Name "pt") CGt (Num 50)]
           ++ Compare (Name "pt") CGt (Num 70)
           :: [BinOp (Num 1) Div (Num 0); Name "undeclared"]))
  = Ok false.
Proof.
  apply (pass_cuts_stops_at_first_failure _ _ _ _ _ _ _ _ (VBool false));
    [reflexivity| |reflexivity|reflexivity].
  constructor; [|constructor]. exists (VBool true). split; reflexivity.
Defined.

(** X9. An event with a number of observations other than the number of
    declared observables fails the assertion of all three evaluators,
    before any expression is evaluated. *)
Theorem evaluators_assert_observation_count
    (builtins math_commands : gmap string value)
    (call_function : string → list value → res value)
    (self : FisherInformation) (observations : vec)
    (cuts efficiency_functions : option (list expr)) (observable_definition : expr) :
  length observations ≠ length (observables self) →
  _pass_cuts builtins math_commands call_function self observations cuts
  = Raise AssertionError ∧
  _eval_efficiency builtins math_commands call_function self observations
    efficiency_functions = Raise AssertionError ∧
  _eval_observable builtins math_commands call_function self observations
    observable_definition = Raise AssertionError.
Proof.
  intros Hlen. apply Nat.eqb_neq in Hlen.
  unfold _pass_cuts, _eval_efficiency, _eval_observable. by rewrite Hlen.
Qed.

Lemma evaluators_assert_observation_count_witness :
  _pass_cuts ∅ ∅ no_functions example_self_pt [] None = Raise AssertionError ∧
  _eval_efficiency ∅ ∅ no_functions example_self_pt [] None = Raise AssertionError ∧
  _eval_observable ∅ ∅ no_functions example_self_pt [] (Num 1) = Raise AssertionError.
Proof.
  apply evaluators_assert_observation_count. simpl. lia.
Defined.

Lemma efficiencies_product (builtins : gmap string value)
    (call_function : string → list value → res value)
    (variables : gmap string value) (fs : list expr) (xs : vec) :
  Forall2 (λ f x, ∃ v, eval builtins call_function variables f = Ok v ∧
                       to_float v = Ok x) fs xs →
  ∀ efficiency,
    for_each (λ efficiency efficency_function,
        v ← eval builtins call_function variables efficency_function;
        x ← to_float v;
        Ok (fmul efficiency x))
      fs efficiency = Ok (foldl fmul efficiency xs).
Proof.
  induction 1 as [|f x fs xs (v & Hv & Hx) _ IH]; intros efficiency; simpl; [done|].
  rewrite Hv. simpl. rewrite Hx. simpl. apply IH.
Qed.

(** X10. The efficiency of an event is the product of the values of the
    efficiency expressions, taken in order from [1.0]; without efficiency
    expressions it is [1.0]. *)
Theorem efficiency_is_product
    (builtins math_commands : gmap string value)
    (call_function : string → list value → res value)
    (self : FisherInformation) (observations : vec)
    (efficiency_functions : list expr) (xs : vec) :
  length observations = length (observables self) →
  Forall2 (λ f x, ∃ v,
      eval builtins call_function (bind_observables math_commands self observations) f
      = Ok v ∧ to_float v = Ok x) efficiency_functions xs →
  _eval_efficiency builtins math_commands call_function self observations
    (Some efficiency_functions) = Ok (foldl fmul fone xs) ∧
  _eval_efficiency builtins math_commands call_function self observations None
  = Ok fone.
Proof.
  intros Hlen Hxs. unfold _eval_efficiency. apply Nat.eqb_eq in Hlen. rewrite Hlen.
  simpl. split; [by apply efficiencies_product|done].
Qed.

Lemma efficiency_is_product_witness :
  _eval_efficiency ∅ ∅ no_functions example_self_pt [Fin 60]
    (Some [Num (1 # 2); Num (1 # 2)]) = Ok (foldl fmul fone [Fin (1 # 2); Fin (1 # 2)]) ∧
  _eval_efficiency ∅ ∅ no_functions example_self_pt [Fin 60] None = Ok fone.
Proof.
  apply efficiency_is_product; [reflexivity|].
  repeat constructor; eexists; split; reflexivity.
Defined.

(** X11. Constructing an [Observable] evaluates a string expression and
    suppresses [NameError] only: any other exception of the evaluation
    is raised by the constructor, a value is discarded, and a callable is
    not evaluated at all. *)
Theorem observable_constructor_suppresses_name_error_only
    (builtins : gmap string value)
    (call_function : string → list value → res value)
    (readers_globals : gmap string value)
    (name : string) (val_default : option float64) (is_required : bool) :
  (∀ (e : expr) (ex : exn),
     eval builtins call_function readers_globals e = Raise ex → ex ≠ NameError →
     new_Observable builtins call_function readers_globals name (ExprStr e)
       val_default is_required = Raise ex) ∧
  (∀ (e : expr) (v : value),
     eval builtins call_function readers_globals e = Ok v →
     new_Observable builtins call_function readers_globals name (ExprStr e)
       val_default is_required
     = Ok {| name := name; val_expression := ExprStr e;
             val_default := val_default; is_required := is_required |}) ∧
  new_Observable builtins call_function readers_globals name ExprCallable
    val_default is_required
  = Ok {| name := name; val_expression := ExprCallable;
          val_default := val_default; is_required := is_required |}.
Proof.
  split; [|split].
  - intros e ex He Hne. unfold new_Observable, __post_init__. simpl. rewrite He.
    by destruct ex.
  - intros e v He. unfold new_Observable, __post_init__. simpl. by rewrite He.
  - reflexivity.
Qed.

Example observable_with_division_by_zero :
  new_Observable ∅ no_functions ∅ "x" (ExprStr (BinOp (Num 1) Div (Num 0))) None false
  = Raise ZeroDivisionError.
Proof. reflexivity. Qed.

(** ** Cross sections and bins *)

(** X12. Without a single batch from the event source, [_calculate_xsec]
    fails an assertion, whatever its arguments. *)
Theorem xsec_of_empty_source
    (get_theta_benchmark_matrix : vec → vec)
    (builtins math_commands : gmap string value)
    (call_function : string → list value → res value)
    (np_sqrt : float64 → float64)
    (madminer_event_loader : nat → batch_size_t → list (mat * mat))
    (self : FisherInformation) (theta : option vec)
    (cuts efficiency_functions : option (list expr))
    (return_benchmark_xsecs return_error : bool) (start_event : nat) :
  madminer_event_loader start_event DefaultBatchSize = [] →
  _calculate_xsec get_theta_benchmark_matrix builtins math_commands call_function
    np_sqrt madminer_event_loader self theta cuts efficiency_functions
    return_benchmark_xsecs return_error start_event = Raise AssertionError.
Proof.
  intros Hempty. unfold _calculate_xsec, py_assert. rewrite Hempty.
  by destruct (_ || _).
Qed.

Lemma xsec_of_empty_source_witness :
  _calculate_xsec example_theta_matrix ∅ ∅ no_functions (λ x, x) (λ _ _, [])
    example_self_pt None None None true true 0 = Raise AssertionError.
Proof. by apply xsec_of_empty_source. Defined.

(** X13. A batch all of whose events fail the cuts is not "no events":
    the assertion passes and every benchmark cross section is zero. *)
Theorem xsec_of_rejected_batch
    (get_theta_benchmark_matrix : vec → vec)
    (builtins math_commands : gmap string value)
    (call_function : string → list value → res value)
    (np_sqrt : float64 → float64)
    (madminer_event_loader : nat → batch_size_t → list (mat * mat))
    (self : FisherInformation) (cuts efficiency_functions : list expr)
    (start_event : nat) (observations weights : mat) :
  madminer_event_loader start_event DefaultBatchSize = [(observations, weights)] →
  length weights = length observations →
  Forall (λ obs_event,
      _pass_cuts builtins math_commands call_function self obs_event (Some cuts)
      = Ok false) observations →
  _calculate_xsec get_theta_benchmark_matrix builtins math_commands call_function
    np_sqrt madminer_event_loader self None (Some cuts) (Some efficiency_functions)
    true true start_event
  = Ok (BenchmarkXsecs (zeros1 (n_benchmarks self))
          (Some (np_sqrt <$> zeros1 (n_benchmarks self)))).
Proof.
  intros Hloader Hlen Hcuts. unfold _calculate_xsec. rewrite Hloader. simpl.
  unfold apply_cuts_and_efficiencies.
  rewrite (list_comp_ok _ (λ _, false)) by done. simpl.
  assert (Hmask : ∀ (A : Type) (m : list A),
            length m = length observations →
            mask_rows ((λ _ : vec, false) <$> observations) m = Ok []).
  { intros A m Hm. unfold mask_rows. rewrite length_fmap, <- Hm, Nat.eqb_refl.
    f_equal. clear Hcuts Hlen Hloader. revert m Hm.
    induction observations as [|o obs IH]; intros [|x m] Hm; simpl in *; try done.
    rewrite filter_cons. destruct (decide _) as [Hd|Hd]; [done|]. apply IH. lia. }
  rewrite !Hmask by done. reflexivity.
Qed.

Lemma xsec_of_rejected_batch_witness :
  _calculate_xsec example_theta_matrix ∅ ∅ no_functions (λ x, x) example_loader
    example_self_pt None (Some [Compare (Name "pt") CGt (Num 50)]) (Some [])
    true true 0
  = Ok (BenchmarkXsecs (zeros1 2) (Some ((λ x, x) <$> zeros1 2))).
Proof.
  apply (xsec_of_rejected_batch _ _ _ _ _ _ example_self_pt _ _ _
           [[Fin 0]; [Fin 10]] [[Fin 1; Fin 0]; [Fin 0; Fin 1]]).
  - reflexivity.
  - reflexivity.
  - repeat constructor.
Defined.

(** X14. The cross section at [theta] is the product of the combination
    vector with the benchmark cross sections, its uncertainty the product
    with the benchmark uncertainties, and a combination vector of another
    length is a [ValueError]. *)
Theorem xsec_at_theta_from_benchmarks
    (get_theta_benchmark_matrix : vec → vec)
    (builtins math_commands : gmap string value)
    (call_function : string → list value → res value)
    (np_sqrt : float64 → float64)
    (madminer_event_loader : nat → batch_size_t → list (mat * mat))
    (self : FisherInformation) (theta : vec)
    (cuts efficiency_functions : option (list expr)) (start_event : nat)
    (xsecs uncertainties : vec) :
  _calculate_xsec get_theta_benchmark_matrix builtins math_commands call_function
    np_sqrt madminer_event_loader self None cuts efficiency_functions
    true true start_event
  = Ok (BenchmarkXsecs xsecs (Some uncertainties)) →
  _calculate_xsec get_theta_benchmark_matrix builtins math_commands call_function
    np_sqrt madminer_event_loader self (Some theta) cuts efficiency_functions
    false true start_event
  = (if (length (get_theta_benchmark_matrix theta) =? length xsecs)
        && (length (get_theta_benchmark_matrix theta) =? length uncertainties)
     then Ok (ThetaXsec (dot (get_theta_benchmark_matrix theta) xsecs)
                (Some (dot (get_theta_benchmark_matrix theta) uncertainties)))
     else Raise ValueError).
Proof.
  unfold _calculate_xsec. simpl.
  destruct (for_each _ _ None) as [[[x u]|]|]; simpl; try done.
  intros [= <- <-]. unfold inner, dot.
  destruct (length _ =? length x); simpl; [|done].
  by destruct (length _ =? length (np_sqrt <$> u)).
Qed.

Lemma xsec_at_theta_from_benchmarks_witness :
  _calculate_xsec example_theta_matrix ∅ ∅ no_functions (λ x, x) example_loader
    example_self_pt (Some []) None None false true 0
  = (if (length (example_theta_matrix []) =? length [Fin 1; Fin 1])
        && (length (example_theta_matrix []) =? length [Fin 1; Fin 1])
     then Ok (ThetaXsec (dot (example_theta_matrix []) [Fin 1; Fin 1])
                (Some (dot (example_theta_matrix []) [Fin 1; Fin 1])))
     else Raise ValueError).
Proof.
  apply (xsec_at_theta_from_benchmarks example_theta_matrix ∅ ∅ no_functions
           (λ x, x) example_loader example_self_pt [] None None 0).
  vm_compute. reflexivity.
Defined.

Lemma np_linspace_length (start stop : float64) (num : nat) :
  length (np_linspace start stop num) = num.
Proof.
  destruct num as [|[|num]]; try reflexivity.
  unfold np_linspace, tab1. by rewrite length_fmap, length_seq.
Qed.

Lemma np_searchsorted_bounds (boundaries : vec) (x : float64) :
  (0 ≤ np_searchsorted boundaries x ≤ Z.of_nat (length boundaries))%Z.
Proof.
  unfold np_searchsorted. pose proof (length_filter (λ b, sorts_before b x = true) boundaries).
  lia.
Qed.

(** X15. With a histogram range, the histogram has [nbins + 2] bins and
    every value of the observable, finite or not, falls into one of
    them: the assertion on the bins cannot fail. *)
Theorem fixed_width_bins_cover
    (get_theta_benchmark_matrix : vec → vec)
    (builtins math_commands : gmap string value)
    (call_function : string → list value → res value)
    (madminer_event_loader : nat → batch_size_t → list (mat * mat))
    (weighted_quantile : vec → vec → vec → vec)
    (self : FisherInformation) (theta : vec) (observable : expr) (nbins : nat)
    (histmin histmax : float64) (cuts efficiency_functions : list expr)
    (n_events_dynamic_binning : nat) :
  ∃ bin_boundaries : vec,
    hist1d_binning get_theta_benchmark_matrix builtins math_commands call_function
      madminer_event_loader weighted_quantile self theta observable nbins
      (Some (histmin, histmax)) cuts efficiency_functions n_events_dynamic_binning
    = Ok (nbins + 2, bin_boundaries) ∧
    length bin_boundaries = nbins + 1 ∧
    ∀ x : float64,
      (0 ≤ np_searchsorted bin_boundaries x < Z.of_nat (nbins + 2))%Z.
Proof.
  eexists. split; [reflexivity|]. split; [apply np_linspace_length|].
  intros x. pose proof (np_searchsorted_bounds (np_linspace histmin histmax (nbins + 1)) x).
  rewrite np_linspace_length in *. lia.
Qed.

(** X16. Without a histogram range, when [weighted_quantile] returns one
    value per quantile and there is at least one bin, the histogram has
    [nbins] bins, [nbins - 1] boundaries and no overflow bins, and every
    value of the observable falls into one of the bins. *)
Theorem dynamic_bins_cover
    (get_theta_benchmark_matrix : vec → vec)
    (builtins math_commands : gmap string value)
    (call_function : string → list value → res value)
    (madminer_event_loader : nat → batch_size_t → list (mat * mat))
    (weighted_quantile : vec → vec → vec → vec)
    (self : FisherInformation) (theta : vec) (observable : expr) (nbins : nat)
    (cuts efficiency_functions : list expr) (n_events_dynamic_binning : nat)
    (n_bins_total : nat) (bin_boundaries : vec) :
  (∀ values quantiles sample_weight : vec,
     length (weighted_quantile values quantiles sample_weight) = length quantiles) →
  1 ≤ nbins →
  hist1d_binning get_theta_benchmark_matrix builtins math_commands call_function
    madminer_event_loader weighted_quantile self theta observable nbins
    None cuts efficiency_functions n_events_dynamic_binning
  = Ok (n_bins_total, bin_boundaries) →
  n_bins_total = nbins ∧ length bin_boundaries = nbins - 1 ∧
  ∀ x : float64, (0 ≤ np_searchsorted bin_boundaries x < Z.of_nat n_bins_total)%Z.
Proof.
  intros Hquantile Hnbins. unfold hist1d_binning.
  destruct (py_next _) as [[x_pilot weights_pilot]|]; simpl; [|done].
  destruct (apply_cuts_and_efficiencies _ _ _ _ _ _ _ _) as [[x w]|]; simpl; [|done].
  destruct (list_comp _ x) as [histo|]; simpl; [|done].
  destruct (list_comp _ w) as [wtheta|]; simpl; [|done].
  intros [= <- <-]. split; [done|].
  assert (Hlen : ∀ v s,
            length (drop 1 (take (length (weighted_quantile v
                       (np_linspace fzero fone (nbins + 1)) s) - 1)
                     (weighted_quantile v (np_linspace fzero fone (nbins + 1)) s)))
            = nbins - 1).
  { intros v s. rewrite length_drop, length_take, Hquantile, np_linspace_length. lia. }
  split; [apply Hlen|].
  intros y.
  pose proof (np_searchsorted_bounds
    (drop 1 (take (length (weighted_quantile histo
                             (np_linspace fzero fone (nbins + 1)) wtheta) - 1)
       (weighted_quantile histo (np_linspace fzero fone (nbins + 1)) wtheta))) y) as Hb.
  rewrite Hlen in Hb. lia.
Qed.

Lemma dynamic_bins_cover_witness :
  2 = 2 ∧ length [Fin (1 # 2)] = 2 - 1 ∧
  ∀ x : float64, (0 ≤ np_searchsorted [Fin (1 # 2)] x < Z.of_nat 2)%Z.
Proof.
  apply (dynamic_bins_cover example_theta_matrix ∅ ∅ no_functions example_loader
           (λ _ quantiles _, quantiles) example_self_pt [] (Name "pt") 2 [] [] 10).
  - reflexivity.
  - lia.
  - vm_compute. reflexivity.
Defined.


(** ** The callers of the engine that ask for an uncertainty *)

Lemma engine_with_uncertainty_raises
    (get_theta_benchmark_matrix : vec → vec)
    (get_dtheta_benchmark_matrix : vec → mat) (np_log : float64 → float64)
    (self : FisherInformation) (theta : vec) (weights_benchmarks : mat)
    (luminosity : float64) (include_nuisance_parameters sum_events : bool)
    (weights_benchmark_uncertainties : option mat)
    (weights_sampling_benchmark : option vec) :
  ∃ e, _calculate_fisher_information get_theta_benchmark_matrix
         get_dtheta_benchmark_matrix np_log self theta weights_benchmarks
         luminosity include_nuisance_parameters sum_events true
         weights_benchmark_uncertainties weights_sampling_benchmark = Raise e.
Proof.
  unfold _calculate_fisher_information.
  destruct (einsum_n_in_jn _ _ _); simpl; [|eauto].
  destruct (if include_nuisance_parameters then _ else _); simpl; [|eauto].
  edestruct covariance_of_information_raises as [e ->]. simpl. eauto.
Qed.

(** X17. [calculate_fisher_information_rate] and
    [calculate_fisher_information_hist1d] return no result on any input:
    both ask the engine for the covariance, which it cannot build, and
    every call ends in an exception. *)
Theorem rate_and_hist1d_raise
    (get_theta_benchmark_matrix : vec → vec)
    (get_dtheta_benchmark_matrix : vec → mat) (np_log : float64 → float64)
    (builtins math_commands : gmap string value)
    (call_function : string → list value → res value)
    (np_sqrt : float64 → float64)
    (madminer_event_loader : nat → batch_size_t → list (mat * mat))
    (weighted_quantile : vec → vec → vec → vec)
    (self : FisherInformation) (theta : vec) (luminosity : float64)
    (observable : expr) (nbins : nat) (histrange : option (float64 * float64))
    (cuts efficiency_functions : option (list expr))
    (n_events_dynamic_binning : nat) :
  (∃ e, calculate_fisher_information_rate get_theta_benchmark_matrix
          get_dtheta_benchmark_matrix np_log builtins math_commands call_function
          np_sqrt madminer_event_loader self theta luminosity cuts
          efficiency_functions = Raise e) ∧
  (∃ e, calculate_fisher_information_hist1d get_theta_benchmark_matrix
          get_dtheta_benchmark_matrix np_log builtins math_commands call_function
          np_sqrt madminer_event_loader weighted_quantile self theta luminosity
          observable nbins histrange cuts efficiency_functions
          n_events_dynamic_binning = Raise e).
Proof.
  split.
  - unfold calculate_fisher_information_rate.
    destruct (_calculate_xsec _ _ _ _ _ _ _ _ _ _ _ _ _) as [[w [u|]|x u]|];
      simpl; eauto.
    apply engine_with_uncertainty_raises.
  - unfold calculate_fisher_information_hist1d.
    destruct (hist1d_binning _ _ _ _ _ _ _ _ _ _ _ _ _ _) as [[n b]|]; simpl; [|eauto].
    destruct (hist1d_weights _ _ _ _ _ _ _ _ _ _) as [[wb wsq]|]; simpl; [|eauto].
    apply engine_with_uncertainty_raises.
Qed.

(** X18. [calculate_fisher_information_full_truth] returns a result
    only when the event source yields no batch, and then the zero matrix
    and the zero covariance; with at least one batch it raises. *)
Theorem full_truth_returns_only_without_batches
    (get_theta_benchmark_matrix : vec → vec)
    (get_dtheta_benchmark_matrix : vec → mat) (np_log : float64 → float64)
    (builtins math_commands : gmap string value)
    (call_function : string → list value → res value)
    (madminer_event_loader : nat → batch_size_t → list (mat * mat))
    (self : FisherInformation) (theta : vec) (luminosity : float64)
    (cuts efficiency_functions : option (list expr)) :
  let result :=
    calculate_fisher_information_full_truth get_theta_benchmark_matrix
      get_dtheta_benchmark_matrix np_log builtins math_commands call_function
      madminer_event_loader self theta luminosity cuts efficiency_functions in
  match madminer_event_loader 0 DefaultBatchSize with
  | [] =>
      result = Ok (zeros2 (n_parameters self) (n_parameters self),
                   zeros4 (n_parameters self) (n_parameters self)
                     (n_parameters self) (n_parameters self))
  | _ :: _ => ∃ e, result = Raise e
  end.
Proof.
  intros result. subst result. unfold calculate_fisher_information_full_truth.
  destruct (madminer_event_loader 0 DefaultBatchSize) as [|[observations weights] rest];
    [reflexivity|].
  simpl.
  destruct (apply_cuts_and_efficiencies _ _ _ _ _ _ _ _) as [[obs w]|]; simpl; [|eauto].
  edestruct engine_with_uncertainty_raises as [e ->]. simpl. eauto.
Qed.


(** ** [project_information], further *)

Lemma for_each_ext {S A : Type} (f g : S → A → res S) (l : list A) (s : S) :
  (∀ s x, f s x = g s x) → for_each f l s = for_each g l s.
Proof.
  intros H. revert s. induction l as [|x l IH]; intros s; [done|].
  simpl. rewrite H. destruct (g s x); simpl; auto.
Qed.

Lemma for_each_enumerate_fmap {S : Type} (body : S → Z * Z → res S) (w : Z → Z)
    (P : Z → Prop) (l : list Z) :
  Forall P l → (∀ s i x, P x → body s (i, x) = body s (i, w x)) →
  ∀ (off : nat) (s : S),
    for_each body (enumerate_from off l) s
    = for_each body (enumerate_from off (w <$> l)) s.
Proof.
  intros Hl H. induction Hl as [|x l Hx Hl IH]; intros off s; [done|].
  simpl. rewrite <- H by done. destruct (body s _); simpl; auto.
Qed.

Lemma norm_index_wrap (n : nat) (k : Z) :
  (- Z.of_nat n ≤ k < Z.of_nat n)%Z →
  norm_index n k = norm_index n (wrap_index n k) ∧
  (0 ≤ wrap_index n k < Z.of_nat n)%Z.
Proof.
  intros Hk. unfold wrap_index. destruct (Z.ltb_spec k 0); [|split; [done|lia]].
  split; [|lia]. rewrite (norm_index_ok n (Z.of_nat n + k)) by lia.
  unfold norm_index.
  destruct (Z.leb_spec 0 k); [lia|]. simpl.
  destruct (Z.leb_spec (- Z.of_nat n) k); [|lia].
  destruct (Z.ltb_spec k 0); [|lia]. done.
Qed.

Lemma wrap_index_idem (n : nat) (k : Z) :
  (- Z.of_nat n ≤ k < Z.of_nat n)%Z →
  wrap_index n (wrap_index n k) = wrap_index n k.
Proof.
  intros Hk. destruct (norm_index_wrap n k Hk) as [_ Hw].
  unfold wrap_index at 1. destruct (Z.ltb_spec (wrap_index n k) 0); [lia|done].
Qed.

Lemma norm_index_bad (n : nat) (k : Z) :
  ¬ (- Z.of_nat n ≤ k < Z.of_nat n)%Z → norm_index n k = Raise IndexError.
Proof.
  intros Hk. unfold norm_index.
  destruct (Z.leb_spec 0 k), (Z.ltb_spec k (Z.of_nat n)),
    (Z.leb_spec (- Z.of_nat n) k), (Z.ltb_spec k 0); simpl; try done; lia.
Qed.

Lemma getitem2_wrap (n : nat) (M : mat) (i j : Z) :
  is_matrix n n M →
  (- Z.of_nat n ≤ i < Z.of_nat n)%Z → (- Z.of_nat n ≤ j < Z.of_nat n)%Z →
  getitem2 M i j = getitem2 M (wrap_index n i) (wrap_index n j).
Proof.
  intros HM Hi Hj. unfold getitem2.
  pose proof (is_matrix_ncols _ _ _ HM ltac:(lia)) as Hc.
  destruct HM as [Hr _]. rewrite Hr, Hc.
  destruct (norm_index_wrap n i Hi) as [<- _].
  by destruct (norm_index_wrap n j Hj) as [<- _].
Qed.

Lemma project_information_wrap (n : nat) (M : mat) (rc : list Z) :
  is_matrix n n M →
  Forall (λ k, (- Z.of_nat n ≤ k < Z.of_nat n)%Z) rc →
  project_information M rc = project_information M (wrap_index n <$> rc) ∧
  Forall (λ k, (0 ≤ k < Z.of_nat n)%Z) (wrap_index n <$> rc).
Proof.
  intros HM Hrc. split.
  - unfold project_information, enumerate. rewrite !length_fmap.
    trans (for_each (λ new '(xnew, xold),
               for_each (λ new '(ynew, yold),
                   v ← getitem2 M xold yold; setitem2 new xnew ynew v)
                 (enumerate_from 0 (wrap_index n <$> rc)) new)
             (enumerate_from 0 rc) (zeros2 (length rc) (length rc))).
    { apply for_each_ext. intros new [xnew xold].
      apply (for_each_enumerate_fmap _ (wrap_index n) _ rc Hrc).
      intros s i y Hy. simpl.
      destruct (decide (- Z.of_nat n ≤ xold < Z.of_nat n)%Z) as [Hx|Hx].
      - rewrite (getitem2_wrap n M xold y), (getitem2_wrap n M xold (wrap_index n y));
          auto.
        + by rewrite (wrap_index_idem n y Hy).
        + destruct (norm_index_wrap n y Hy) as [_ Hw]. lia.
      - unfold getitem2. destruct HM as [-> _].
        by rewrite (norm_index_bad n xold Hx). }
    apply (for_each_enumerate_fmap _ (wrap_index n) _ rc Hrc).
    intros s i x Hx. apply for_each_ext. intros new [ynew yold]. simpl.
    destruct (decide (- Z.of_nat n ≤ yold < Z.of_nat n)%Z) as [Hy|Hy].
    + rewrite (getitem2_wrap n M x yold), (getitem2_wrap n M (wrap_index n x) yold);
        auto.
      * by rewrite (wrap_index_idem n x Hx).
      * destruct (norm_index_wrap n x Hx) as [_ Hw]. lia.
    + unfold getitem2.
      pose proof (is_matrix_ncols _ _ _ HM ltac:(lia)) as Hc.
      destruct HM as [-> _]. rewrite Hc.
      rewrite (norm_index_bad n yold Hy).
      by destruct (norm_index_wrap n x Hx) as [<- _].
  - apply Forall_fmap. eapply Forall_impl; [exact Hrc|].
    intros k Hk. simpl. by destruct (norm_index_wrap n k Hk).
Qed.

(** X19. Indices in [-n, n) are all accepted, repeated or not, and a
    negative index counts from the end: the result is the result for the
    indices written from the front, whose entry [(i, j)] is the entry
    [(keep[i], keep[j])] of the input. *)
Theorem negative_components_count_from_the_end (n : nat) (M : mat)
    (remaining_components : list Z) :
  is_matrix n n M →
  Forall (λ k, (- Z.of_nat n ≤ k < Z.of_nat n)%Z) remaining_components →
  ∃ R : mat,
    project_information M remaining_components = Ok R ∧
    project_information M (wrap_index n <$> remaining_components) = Ok R ∧
    is_matrix (length remaining_components) (length remaining_components) R ∧
    ∀ (i j : nat) (ki kj : Z),
      remaining_components !! i = Some ki →
      remaining_components !! j = Some kj →
      lookup2 R i j
      = lookup2 M (Z.to_nat (wrap_index n ki)) (Z.to_nat (wrap_index n kj)) ∧
      is_Some (lookup2 R i j).
Proof.
  intros HM Hrc.
  destruct (project_information_wrap n M _ HM Hrc) as [Heq Hw].
  exists (projected M (wrap_index n <$> remaining_components)).
  rewrite Heq, (project_information_projected n M HM _ Hw).
  split; [done|]. split; [done|]. split.
  - pose proof (projected_is_matrix M (wrap_index n <$> remaining_components)) as H.
    by rewrite length_fmap in H.
  - intros i j ki kj Hi Hj.
    apply (projected_lookup2 n); auto.
    + eapply (Forall_lookup_1 _ _ i _ Hw). by rewrite list_lookup_fmap, Hi.
    + eapply (Forall_lookup_1 _ _ j _ Hw). by rewrite list_lookup_fmap, Hj.
    + by rewrite list_lookup_fmap, Hi.
    + by rewrite list_lookup_fmap, Hj.
Qed.

Lemma negative_components_count_from_the_end_witness :
  is_matrix 3 3 example_matrix ∧
  ∃ R : mat,
    project_information example_matrix [-1; 0; -1]%Z = Ok R ∧
    project_information example_matrix (wrap_index 3 <$> [-1; 0; -1]%Z) = Ok R ∧
    is_matrix 3 3 R ∧
    ∀ (i j : nat) (ki kj : Z),
      [-1; 0; -1]%Z !! i = Some ki →
      [-1; 0; -1]%Z !! j = Some kj →
      lookup2 R i j
      = lookup2 example_matrix (Z.to_nat (wrap_index 3 ki))
          (Z.to_nat (wrap_index 3 kj)) ∧
      is_Some (lookup2 R i j).
Proof.
  assert (HM : is_matrix 3 3 example_matrix).
  { split; [reflexivity|]. repeat constructor. }
  split; [exact HM|].
  apply (negative_components_count_from_the_end 3 example_matrix [-1; 0; -1]%Z HM).
  repeat constructor; lia.
Defined.

Lemma for_each_head_raises {S A : Type} (body : S → A → res S) (x : A)
    (l : list A) (s : S) (e : exn) :
  body s x = Raise e → for_each body (x :: l) s = Raise e.
Proof. intros H. simpl. by rewrite H. Qed.

Section ProjectFails.

Variables (n : nat) (M : mat).
Hypothesis HM : is_matrix n n M.

Let good (k : Z) : Prop := (- Z.of_nat n ≤ k < Z.of_nat n)%Z.

Lemma getitem2_good (i j : Z) :
  good i → good j → ∃ v, getitem2 M i j = Ok v.
Proof.
  intros Hi Hj. rewrite (getitem2_wrap n) by done.
  destruct (norm_index_wrap n i Hi) as [_ Hwi].
  destruct (norm_index_wrap n j Hj) as [_ Hwj].
  destruct (getitem2_ok _ _ _ _ _ HM Hwi Hwj) as [-> _]. eauto.
Qed.

Lemma project_inner_loop_raises (m xnew : nat) (xold : Z) (l : list Z) :
  good xold → Exists (λ k, ¬ good k) l → xnew < m →
  ∀ (off : nat) (new : mat), is_matrix m m new → off + length l ≤ m →
    for_each (λ new '(ynew, yold),
        v ← getitem2 M xold yold; setitem2 new (Z.of_nat xnew) ynew v)
      (enumerate_from off l) new
    = Raise IndexError.
Proof.
  intros Hx Hl Hxn. induction l as [|yold l IH]; intros off new Hnew Hoff.
  - by apply Exists_nil in Hl.
  - simpl in *. destruct (decide (good yold)) as [Hy|Hy].
    + destruct (getitem2_good xold yold Hx Hy) as [v ->]. simpl.
      rewrite (setitem2_ok m m) by (auto; lia). simpl.
      apply IH; [|apply is_matrix_insert; [done|]|lia].
      * apply Exists_cons in Hl as [Hl|Hl]; [done|exact Hl].
      * rewrite length_insert. unfold nth_row.
        destruct (lookup_lt_is_Some_2 new xnew ltac:(destruct Hnew; lia)) as [row Hrow].
        rewrite Hrow. simpl. by apply (is_matrix_row m m new xnew).
    + unfold getitem2.
      assert (0 < n) by (unfold good in Hx; lia).
      rewrite (is_matrix_ncols _ _ _ HM) by done.
      destruct HM as [-> _].
      rewrite (norm_index_bad n yold Hy).
      destruct (norm_index_wrap n xold Hx) as [-> Hw].
      by rewrite norm_index_ok by done.
Qed.

Lemma project_information_raises (rc : list Z) :
  Exists (λ k, ¬ good k) rc → project_information M rc = Raise IndexError.
Proof.
  intros Hrc. unfold project_information, enumerate.
  destruct rc as [|xold rc]; [by apply Exists_nil in Hrc|].
  apply for_each_head_raises.
  destruct (decide (good xold)) as [Hx|Hx].
  - apply (project_inner_loop_raises (length (xold :: rc)) 0 xold (xold :: rc) Hx Hrc
             ltac:(simpl; lia) 0); [|simpl; lia].
    split; unfold zeros2, zeros1.
    + by rewrite length_replicate.
    + apply Forall_replicate. by rewrite length_replicate.
  - simpl. unfold getitem2. destruct HM as [-> _].
    by rewrite (norm_index_bad n xold Hx).
Qed.

End ProjectFails.

(** X20. One index outside [-n, n) among the components to keep, whatever
    the others are, makes [project_information] raise [IndexError]. *)
Theorem component_out_of_range_raises (n : nat) (M : mat)
    (remaining_components : list Z) (k : Z) :
  is_matrix n n M →
  k ∈ remaining_components →
  (k < - Z.of_nat n ∨ Z.of_nat n ≤ k)%Z →
  project_information M remaining_components = Raise IndexError.
Proof.
  intros HM Hin Hk. apply (project_information_raises n M HM).
  apply Exists_exists. exists k. split; [done|lia].
Qed.

Lemma component_out_of_range_raises_witness :
  project_information example_matrix [0; 3; 1]%Z = Raise IndexError.
Proof.
  apply (component_out_of_range_raises 3 example_matrix [0; 3; 1]%Z 3%Z).
  - split; [reflexivity|]. repeat constructor.
  - set_solver.
  - lia.
Defined.

Lemma compose_components_in_range (n : nat) (outer inner : list Z) :
  Forall (λ k, (0 ≤ k < Z.of_nat n)%Z) outer →
  Forall (λ k, (0 ≤ k < Z.of_nat (length outer))%Z) inner →
  Forall (λ k, (0 ≤ k < Z.of_nat n)%Z) (compose_components outer inner).
Proof.
  intros Ho Hi. unfold compose_components. apply Forall_fmap.
  eapply Forall_impl; [exact Hi|]. intros k Hk. simpl in *.
  destruct (lookup_lt_is_Some_2 outer (Z.to_nat k) ltac:(lia)) as [x Hx].
  rewrite Hx. simpl. apply (Forall_lookup_1 _ _ _ _ Ho Hx).
Qed.

Lemma projected_compose (M : mat) (outer inner : list Z) :
  Forall (λ k, (0 ≤ k < Z.of_nat (length outer))%Z) inner →
  projected (projected M outer) inner = projected M (compose_components outer inner).
Proof.
  intros Hi. unfold compose_components.
  assert (Hat : ∀ x y, (0 ≤ x < Z.of_nat (length outer))%Z →
                       (0 ≤ y < Z.of_nat (length outer))%Z →
            at2 (projected M outer) (Z.to_nat x) (Z.to_nat y)
            = at2 M (Z.to_nat (default 0%Z (outer !! Z.to_nat x)))
                (Z.to_nat (default 0%Z (outer !! Z.to_nat y)))).
  { intros x y Hx Hy.
    destruct (lookup_lt_is_Some_2 outer (Z.to_nat x) ltac:(lia)) as [kx Hkx].
    destruct (lookup_lt_is_Some_2 outer (Z.to_nat y) ltac:(lia)) as [ky Hky].
    rewrite Hkx, Hky. simpl.
    unfold at2 at 1. unfold nth_row, nth_f, projected.
    rewrite list_lookup_fmap, Hkx. simpl.
    by rewrite list_lookup_fmap, Hky. }
  unfold projected at 1 3. rewrite <- list_fmap_compose.
  apply Forall_fmap_ext. rewrite Forall_forall. intros x Hx. simpl.
  rewrite <- list_fmap_compose.
  apply Forall_fmap_ext. rewrite Forall_forall. intros y Hy. simpl.
  rewrite Forall_forall in Hi. apply Hat; auto.
Qed.

(** X21. Projecting twice is projecting once: keeping the components
    [outer] and then, of the result, the components [inner] gives the
    matrix that keeping the components [outer[k]] for [k] in [inner]
    gives. *)
Theorem project_information_composes (n : nat) (M : mat) (outer inner : list Z) :
  is_matrix n n M →
  Forall (λ k, (0 ≤ k < Z.of_nat n)%Z) outer →
  Forall (λ k, (0 ≤ k < Z.of_nat (length outer))%Z) inner →
  ∃ R R' : mat,
    project_information M outer = Ok R ∧
    project_information R inner = Ok R' ∧
    project_information M (compose_components outer inner) = Ok R'.
Proof.
  intros HM Ho Hi.
  exists (projected M outer), (projected (projected M outer) inner).
  split; [by apply (project_information_projected n)|]. split.
  - apply (project_information_projected (length outer)); [|done].
    apply projected_is_matrix.
  - rewrite projected_compose by done.
    apply (project_information_projected n); [done|].
    by apply compose_components_in_range.
Qed.

Lemma project_information_composes_witness :
  ∃ R R' : mat,
    project_information example_matrix [2; 0]%Z = Ok R ∧
    project_information R [1; 1; 0]%Z = Ok R' ∧
    project_information example_matrix (compose_components [2; 0] [1; 1; 0])%Z
    = Ok R'.
Proof.
  apply (project_information_composes 3 example_matrix [2; 0]%Z [1; 1; 0]%Z).
  - split; [reflexivity|]. repeat constructor.
  - repeat constructor; lia.
  - repeat constructor; simpl; lia.
Defined.

(** ** [profile_information], further *)

Lemma broadcast_indices_cases (rows cols : list Z) :
  if (length rows =? length cols) || (length rows =? 1) || (length cols =? 1)
  then ∃ idx, broadcast_indices rows cols = Ok idx
  else broadcast_indices rows cols = Raise IndexError.
Proof.
  unfold broadcast_indices.
  destruct (length rows =? length cols) eqn:Heq; simpl; [eauto|].
  destruct rows as [|r [|r' rows]], cols as [|c [|c' cols]]; simpl in *; eauto;
    try done.
Qed.

Lemma getitem_lists_cases (n : nat) (M : mat) (rows cols : list Z) :
  is_matrix n n M →
  Forall (λ k, (0 ≤ k < Z.of_nat n)%Z) rows →
  Forall (λ k, (0 ≤ k < Z.of_nat n)%Z) cols →
  if (length rows =? length cols) || (length rows =? 1) || (length cols =? 1)
  then ∃ v, getitem_lists (A2 M) rows cols = Ok v
  else getitem_lists (A2 M) rows cols = Raise IndexError.
Proof.
  intros HM Hrows Hcols. pose proof (broadcast_indices_cases rows cols) as Hb.
  destruct (_ || _).
  - destruct Hb as [idx Hidx].
    destruct (getitem_lists_in_range n M rows cols HM Hrows Hcols) as [Hr|Hv];
      [|done].
    unfold getitem_lists in *. rewrite Hidx in *. simpl in *.
    pose proof (broadcast_indices_in_range n _ _ _ Hrows Hcols Hidx) as Hin.
    exists ((λ p, at2 M (Z.to_nat p.1) (Z.to_nat p.2)) <$> idx).
    apply list_comp_ok. eapply Forall_impl; [exact Hin|].
    intros [i j] [Hi Hj]. simpl in *.
    by destruct (getitem2_ok _ _ _ _ _ HM Hi Hj) as [-> _].
  - unfold getitem_lists. by rewrite Hb.
Qed.

Lemma profiled_components_length (n : nat) (rc : list Z) :
  NoDup rc → Forall (λ k, (0 ≤ k < Z.of_nat n)%Z) rc →
  length (filter (λ i, py_in i rc ≠ true) (range n)) = n - length rc.
Proof.
  intros Hnd Hrc.
  pose proof (proj2 (checked_components_length n rc) (conj Hnd Hrc)) as Hchk.
  pose proof (filter_app_complement (λ i, py_in i rc = true) (range n)) as Hperm.
  apply Permutation_length in Hperm. rewrite length_app in Hperm.
  assert (Hn : length (range n) = n).
  { unfold range. by rewrite length_fmap, length_seq. }
  rewrite Hn in Hperm.
  change (filter (λ x, ¬ py_in x rc = true) (range n))
    with (filter (λ i, py_in i rc ≠ true) (range n)) in Hperm.
  lia.
Qed.

(** X22. For an [n × n] matrix and [m] distinct in-range components to
    keep, with or without a covariance, the exception of
    [profile_information] is determined by the sizes alone: [LinAlgError]
    when the [n - m] profiled indices can be paired with the [m] kept ones
    ([m = n - m], or one of the two is one), and [IndexError] otherwise. *)
Theorem profile_information_exception
    (lapack_inv : mat → res mat) (multivariate_normal : vec → mat → nat → res mat)
    (n : nat) (fisher_information : mat) (remaining_components : list Z)
    (covariance : option t4) (error_propagation_n_ensemble : nat)
    (error_propagation_factor : float64) :
  is_matrix n n fisher_information →
  Forall (λ k, (0 ≤ k < Z.of_nat n)%Z) remaining_components →
  NoDup remaining_components →
  let m := length remaining_components in
  profile_information lapack_inv multivariate_normal fisher_information
    remaining_components covariance error_propagation_n_ensemble
    error_propagation_factor
  = Raise (if (n - m =? m) || (n - m =? 1) || (m =? 1)
           then LinAlgError else IndexError).
Proof.
  intros HM Hrange Hnd m. unfold profile_information.
  rewrite group_components_filter.
  pose proof HM as [Hlen Hrows]. rewrite Hlen.
  assert (Hchk : length remaining_components =
                 length (filter (λ i, py_in i remaining_components = true) (range n)))
    by by apply checked_components_length.
  apply Nat.eqb_eq in Hchk. rewrite Hchk. simpl.
  pose proof (profiled_components_length n remaining_components Hnd Hrange) as Hp.
  set (profiled := filter (λ i, py_in i remaining_components ≠ true) (range n)) in *.
  assert (Hprof : Forall (λ k, (0 ≤ k < Z.of_nat n)%Z) profiled).
  { apply Forall_forall. intros x Hx. apply list_elem_of_filter in Hx as [_ Hx].
    by apply range_elem_of. }
  assert (Hcentral :
    _profile lapack_inv remaining_components profiled (A2 fisher_information)
    = Raise (if (n - m =? m) || (n - m =? 1) || (m =? 1)
             then LinAlgError else IndexError)).
  { unfold _profile.
    pose proof (getitem_lists_cases n _ _ _ HM Hrange Hrange) as Hphys.
    rewrite Nat.eqb_refl in Hphys. cbn [orb] in Hphys. destruct Hphys as [phys ->].
    cbn [mbind res_bind].
    pose proof (getitem_lists_cases n _ _ _ HM Hprof Hrange) as Hmix.
    rewrite Hp in Hmix. fold m in Hmix.
    destruct ((n - m =? m) || (n - m =? 1) || (m =? 1)).
    - destruct Hmix as [mix ->]. cbn [mbind res_bind].
      pose proof (getitem_lists_cases n _ _ _ HM Hprof Hprof) as Hnuis.
      rewrite Nat.eqb_refl in Hnuis. cbn [orb] in Hnuis. destruct Hnuis as [nuis ->].
      done.
    - by rewrite Hmix. }
  by rewrite Hcentral.
Qed.

Lemma profile_information_exception_witness :
  profile_information (λ m, Ok m) (λ _ _ _, Ok []) (zeros2 5 5) [0; 1; 2]%Z
    (Some (zeros4 5 5 5 5)) 10 (Fin 1)
  = Raise IndexError ∧
  profile_information (λ m, Ok m) (λ _ _ _, Ok []) example_fisher [1]%Z
    None 10 (Fin 1)
  = Raise LinAlgError.
Proof.
  split.
  - apply (profile_information_exception _ _ 5 (zeros2 5 5) [0; 1; 2]%Z).
    + split; [reflexivity|]. repeat constructor.
    + repeat constructor; lia.
    + apply (bool_decide_unpack _). vm_compute. exact I.
  - apply (profile_information_exception _ _ 2 example_fisher [1]%Z).
    + split; [reflexivity|]. repeat constructor.
    + repeat constructor; lia.
    + apply (bool_decide_unpack _). vm_compute. exact I.
Defined.


(** ** Raw data *)

Lemma list_comp_inner_ok (v : vec) (m : mat) :
  Forall (λ row, length row = length v) m →
  list_comp (inner v) m = Ok ((λ row, sum_vec (zip_with fmul v row)) <$> m).
Proof.
  intros Hm. apply list_comp_ok. eapply Forall_impl; [exact Hm|].
  intros row Hrow. simpl in Hrow. unfold inner.
  by rewrite Hrow, Nat.eqb_refl.
Qed.

Lemma list_comp_lookup {A B : Type} (f : A → res B) (l : list A) (r : list B)
    (k : nat) (a : A) :
  list_comp f l = Ok r → l !! k = Some a →
  ∃ b, r !! k = Some b ∧ f a = Ok b.
Proof.
  revert r k. induction l as [|x l IH]; intros r k Hr Hk; [done|].
  simpl in Hr. destruct (f x) as [y|] eqn:Hy; [|done]. simpl in Hr.
  destruct (list_comp f l) as [ys|] eqn:Hys; [|done]. simpl in Hr.
  injection Hr as <-. destruct k as [|k]; simpl in *.
  - injection Hk as <-. eauto.
  - by apply IH.
Qed.

(** X23. [extract_raw_data] reads the first batch of the event source
    only, and raises [StopIteration] when there is none.  Without [theta]
    it returns the benchmark weights of that batch unchanged; with [theta]
    and one benchmark weight per entry of the combination vector, the
    weight of every event is the sum over the benchmarks of the entry times
    the benchmark weight of the event, and with another number of
    benchmark weights it raises [ValueError]. *)
Theorem extract_raw_data_first_batch
    (get_theta_benchmark_matrix : vec → vec)
    (madminer_event_loader_all : list (mat * mat))
    (self : FisherInformation) (theta : vec) :
  let theta_matrix := get_theta_benchmark_matrix theta in
  match madminer_event_loader_all with
  | [] =>
      extract_raw_data get_theta_benchmark_matrix madminer_event_loader_all self None
      = Raise StopIteration ∧
      extract_raw_data get_theta_benchmark_matrix madminer_event_loader_all self
        (Some theta)
      = Raise StopIteration
  | (x, weights_benchmarks) :: _ =>
      extract_raw_data get_theta_benchmark_matrix madminer_event_loader_all self None
      = Ok (x, A2 weights_benchmarks) ∧
      (Forall (λ row, length row = length theta_matrix) weights_benchmarks →
       weight_columns self weights_benchmarks = length theta_matrix →
       extract_raw_data get_theta_benchmark_matrix madminer_event_loader_all self
         (Some theta)
       = Ok (x, A1 ((λ row, sum_vec (zip_with fmul theta_matrix row))
                      <$> weights_benchmarks))) ∧
      (weight_columns self weights_benchmarks ≠ length theta_matrix →
       extract_raw_data get_theta_benchmark_matrix madminer_event_loader_all self
         (Some theta)
       = Raise ValueError)
  end.
Proof.
  intros theta_matrix. unfold extract_raw_data.
  destruct madminer_event_loader_all as [|[x weights_benchmarks] rest]; [done|].
  simpl. split; [done|]. fold theta_matrix. unfold dot_weights_T. split.
  - intros Hrows Hcols. rewrite Hcols, Nat.eqb_refl.
    by rewrite list_comp_inner_ok.
  - intros Hcols. destruct (Nat.eqb_spec (length theta_matrix)
                              (weight_columns self weights_benchmarks)); [|done].
    congruence.
Qed.

(** X24. The weights that [extract_observables_and_weights] returns for
    the [k]-th parameter point are the weights that [extract_raw_data]
    returns for that point, and the observations are the same. *)
Theorem extract_observables_and_weights_rows
    (get_theta_benchmark_matrix : vec → vec)
    (madminer_event_loader_all : list (mat * mat))
    (self : FisherInformation) (thetas : mat) (x weights_thetas : mat) :
  extract_observables_and_weights get_theta_benchmark_matrix
    madminer_event_loader_all self thetas = Ok (x, weights_thetas) →
  length weights_thetas = length thetas ∧
  ∀ (k : nat) (theta : vec), thetas !! k = Some theta →
    ∃ weights_theta : vec,
      weights_thetas !! k = Some weights_theta ∧
      extract_raw_data get_theta_benchmark_matrix madminer_event_loader_all self
        (Some theta)
      = Ok (x, A1 weights_theta).
Proof.
  unfold extract_observables_and_weights, extract_raw_data.
  destruct madminer_event_loader_all as [|[x0 weights_benchmarks] rest]; [done|].
  simpl. destruct (list_comp _ thetas) as [ws|] eqn:Hws; [|done]. simpl.
  intros [= <- <-]. split.
  - by apply (list_comp_length _ _ _ Hws).
  - intros k theta Hk.
    destruct (list_comp_lookup _ _ _ _ _ Hws Hk) as (w & Hw & Hdot).
    exists w. split; [done|]. simpl in Hdot. by rewrite Hdot.
Qed.

Lemma extract_observables_and_weights_rows_witness :
  length [[Fin 1; Fin 1]; [Fin 1; Fin 1]] = length [[Fin 0]; [Fin 1]]%Q ∧
  ∀ (k : nat) (theta : vec), [[Fin 0]; [Fin 1]]%Q !! k = Some theta →
    ∃ weights_theta : vec,
      [[Fin 1; Fin 1]; [Fin 1; Fin 1]] !! k = Some weights_theta ∧
      extract_raw_data example_theta_matrix (example_loader 0 DefaultBatchSize)
        example_self (Some theta)
      = Ok ([[Fin 0]; [Fin 10]]%Q, A1 weights_theta).
Proof.
  apply (extract_observables_and_weights_rows example_theta_matrix
           (example_loader 0 DefaultBatchSize) example_self [[Fin 0]; [Fin 1]]%Q).
  reflexivity.
Defined.


(** ** Sums of matrices *)

Lemma madd_comm (a b : mat) :
  zip_with (zip_with fadd) a b = zip_with (zip_with fadd) b a.
Proof.
  revert b. induction a as [|x a IH]; intros [|y b]; simpl; try reflexivity.
  by rewrite vadd_comm, IH.
Qed.

Lemma madd_assoc (a b c : mat) :
  zip_with (zip_with fadd) a (zip_with (zip_with fadd) b c)
  = zip_with (zip_with fadd) (zip_with (zip_with fadd) a b) c.
Proof.
  revert b c. induction a as [|x a IH]; intros [|y b] [|z c]; simpl; try reflexivity.
  by rewrite vadd_assoc, IH.
Qed.

Lemma madd_left_comm (a b c : mat) :
  zip_with (zip_with fadd) a (zip_with (zip_with fadd) b c)
  = zip_with (zip_with fadd) b (zip_with (zip_with fadd) a c).
Proof.
  by rewrite !madd_assoc, (madd_comm a b).
Qed.

Lemma madd_zeros_l (r c : nat) (a : mat) :
  is_matrix r c a → Forall (Forall normal_f) a →
  zip_with (zip_with fadd) (zeros2 r c) a = a.
Proof.
  intros [<- Hrows] Hn. unfold zeros2.
  induction a as [|x a IH]; [done|].
  apply Forall_cons in Hrows as [Hx Hrows]. apply Forall_cons in Hn as [Hnx Hn].
  cbn [length replicate zip_with]. rewrite IH by done.
  by rewrite vadd_zeros_l.
Qed.

Lemma madd_is_matrix (r c : nat) (a b : mat) :
  is_matrix r c a → is_matrix r c b →
  is_matrix r c (zip_with (zip_with fadd) a b).
Proof.
  intros [Ha Hra] [Hb Hrb]. split.
  - rewrite length_zip_with. lia.
  - clear Ha Hb. revert b Hrb.
    induction Hra as [|x a Hx _ IH]; intros b Hrb; [done|].
    destruct Hrb as [|y b Hy Hrb]; [done|].
    simpl. constructor; [|by apply IH].
    rewrite length_zip_with. lia.
Qed.

Lemma madd_normal (a b : mat) :
  Forall (Forall normal_f) (zip_with (zip_with fadd) a b).
Proof.
  revert b. induction a as [|x a IH]; intros [|y b]; simpl; constructor; auto.
  apply vadd_normal.
Qed.

Lemma zeros2_is_matrix (r c : nat) : is_matrix r c (zeros2 r c).
Proof.
  split; unfold zeros2, zeros1.
  - by rewrite length_replicate.
  - apply Forall_replicate. by rewrite length_replicate.
Qed.

Lemma zeros2_normal (r c : nat) : Forall (Forall normal_f) (zeros2 r c).
Proof. apply Forall_replicate, zeros1_normal. Qed.

Lemma foldr_madd_shift (acc c : mat) (l : t3) :
  zip_with (zip_with fadd) (foldr (zip_with (zip_with fadd)) acc l) c
  = foldr (zip_with (zip_with fadd)) (zip_with (zip_with fadd) acc c) l.
Proof.
  induction l as [|x l IH]; simpl; [done|].
  by rewrite <- madd_assoc, IH.
Qed.

Lemma foldr_madd_insert (acc : mat) (t : t3) (i : nat) (r s : mat) :
  t !! i = Some r →
  foldr (zip_with (zip_with fadd)) acc (<[i := zip_with (zip_with fadd) r s]> t)
  = zip_with (zip_with fadd) s (foldr (zip_with (zip_with fadd)) acc t).
Proof.
  revert i. induction t as [|x t IH]; intros [|i] Hi; simpl in *; try done.
  - injection Hi as ->. by rewrite <- madd_assoc, madd_left_comm.
  - rewrite (IH i Hi). apply madd_left_comm.
Qed.

Lemma foldr_madd_permutation (acc : mat) (l1 l2 : t3) :
  l1 ≡ₚ l2 →
  foldr (zip_with (zip_with fadd)) acc l1 = foldr (zip_with (zip_with fadd)) acc l2.
Proof.
  induction 1 as [|x l1 l2 _ IH|x y l|l1 l2 l3 _ IH1 _ IH2]; simpl.
  - done.
  - by rewrite IH.
  - apply madd_left_comm.
  - by rewrite IH1.
Qed.

Lemma foldr_madd_shape (r c : nat) (acc : mat) (l : t3) :
  is_matrix r c acc → Forall (Forall normal_f) acc → Forall (is_matrix r c) l →
  is_matrix r c (foldr (zip_with (zip_with fadd)) acc l) ∧
  Forall (Forall normal_f) (foldr (zip_with (zip_with fadd)) acc l).
Proof.
  intros Hacc Hn Hl. induction Hl as [|x l Hx _ [IH1 IH2]]; simpl; [done|].
  split; [by apply madd_is_matrix|apply madd_normal].
Qed.

Lemma sum_axis0_t3_shape (p : nat) (t : t3) :
  Forall (is_matrix p p) t →
  is_matrix p p (sum_axis0_t3 p p t) ∧ Forall (Forall normal_f) (sum_axis0_t3 p p t).
Proof.
  intros Ht. unfold sum_axis0_t3.
  apply foldr_madd_shape; [apply zeros2_is_matrix|apply zeros2_normal|done].
Qed.

(** Adding the sum of a list of matrices is folding the matrices onto the
    accumulator. *)
Lemma madd_sum_matrices (p : nat) (acc : mat) (ms : t3) :
  is_matrix p p acc → Forall (Forall normal_f) acc →
  zip_with (zip_with fadd) (sum_axis0_t3 p p ms) acc
  = foldr (zip_with (zip_with fadd)) acc ms.
Proof.
  intros Hacc Hn. unfold sum_axis0_t3.
  by rewrite foldr_madd_shift, (madd_zeros_l p p).
Qed.

Lemma sum_axis0_t3_zeros3 (n p : nat) : sum_axis0_t3 p p (zeros3 n p p) = zeros2 p p.
Proof.
  unfold sum_axis0_t3, zeros3. induction n as [|n IH]; simpl; [done|].
  rewrite IH. apply madd_zeros_l; [apply zeros2_is_matrix|apply zeros2_normal].
Qed.

(** ** The events of a bin *)

Lemma mask_rows_bin_sel {A : Type} (bins : list Z) (items selected : list A) (i : Z) :
  mask_rows ((λ b, (b =? i)%Z) <$> bins) items = Ok selected →
  selected = bin_sel bins items i ∧ length bins = length items.
Proof.
  unfold mask_rows. rewrite length_fmap.
  destruct (length bins =? length items) eqn:Hlen; [|done].
  intros [= <-]. split; [done|]. by apply Nat.eqb_eq.
Qed.

Lemma bin_sel_cons {A : Type} (b : Z) (bins : list Z) (w : A) (items : list A) (i : Z) :
  bin_sel (b :: bins) (w :: items) i
  = if (b =? i)%Z then w :: bin_sel bins items i else bin_sel bins items i.
Proof.
  unfold bin_sel. simpl. rewrite filter_cons. simpl.
  destruct (b =? i)%Z; [by rewrite decide_True|by rewrite decide_False].
Qed.

Lemma bin_sel_nil_l {A : Type} (items : list A) (i : Z) : bin_sel [] items i = [].
Proof. unfold bin_sel. by destruct items. Qed.

Lemma bin_sel_Forall {A : Type} (P : A → Prop) (bins : list Z) (items : list A) (i : Z) :
  Forall P items → Forall P (bin_sel bins items i).
Proof.
  intros Hw. revert bins. induction Hw as [|w items Hw _ IH]; intros [|b bins].
  - done.
  - done.
  - by rewrite bin_sel_nil_l.
  - rewrite bin_sel_cons. destruct (b =? i)%Z; [constructor|]; auto.
Qed.

Lemma bin_sel_length {A B : Type} (bins : list Z) (xs : list A) (ys : list B) (i : Z) :
  length xs = length ys → length (bin_sel bins xs i) = length (bin_sel bins ys i).
Proof.
  revert bins ys. induction xs as [|x xs IH]; intros [|b bins] [|y ys] Hlen;
    simpl in *; try done.
  rewrite !bin_sel_cons. destruct (b =? i)%Z; simpl; [f_equal|]; apply IH; lia.
Qed.

Lemma sel_below_cons {A : Type} (b : Z) (bins : list Z) (w : A) (items : list A)
    (k : nat) :
  sel_below (b :: bins) (w :: items) k
  = if decide (0 ≤ b < Z.of_nat k)%Z then w :: sel_below bins items k
    else sel_below bins items k.
Proof.
  unfold sel_below. simpl. rewrite filter_cons. simpl. by destruct (decide _).
Qed.

Lemma sel_below_S {A : Type} (bins : list Z) (items : list A) (k : nat) :
  sel_below bins items (S k)
  ≡ₚ sel_below bins items k ++ bin_sel bins items (Z.of_nat k).
Proof.
  revert bins. induction items as [|w items IH]; intros [|b bins]; try done.
  rewrite !sel_below_cons, bin_sel_cons.
  destruct (Z.eqb_spec b (Z.of_nat k)) as [->|Hne].
  - rewrite decide_True by lia. rewrite decide_False by lia.
    rewrite IH. apply Permutation_middle.
  - destruct (decide (0 ≤ b < Z.of_nat k)%Z).
    + rewrite decide_True by lia. simpl. by rewrite IH.
    + rewrite decide_False by lia. apply IH.
Qed.

Lemma sel_below_0 {A : Type} (bins : list Z) (items : list A) :
  sel_below bins items 0 = [].
Proof.
  revert bins. induction items as [|w items IH]; intros [|b bins]; try done.
  rewrite sel_below_cons, decide_False by lia. apply IH.
Qed.

Lemma flat_map_bin_sel {A : Type} (bins : list Z) (items : list A) (n : nat) :
  flat_map (bin_sel bins items) (range n) ≡ₚ sel_below bins items n.
Proof.
  induction n as [|n IH].
  - by rewrite sel_below_0.
  - unfold range in *. rewrite seq_S, fmap_app, flat_map_app. simpl.
    rewrite app_nil_r, IH. symmetry. apply sel_below_S.
Qed.

Lemma sel_below_all {A : Type} (bins : list Z) (items : list A) (n : nat) :
  length bins = length items →
  Forall (λ b, (0 ≤ b < Z.of_nat n)%Z) bins →
  sel_below bins items n = items.
Proof.
  intros Hlen Hbins. revert items Hlen.
  induction Hbins as [|b bins Hb _ IH]; intros [|w items] Hlen; try done.
  rewrite sel_below_cons, decide_True by done. f_equal. apply IH.
  simpl in Hlen. lia.
Qed.

(** ** The slices of [histogram_of_fisher_information] *)

Lemma iadd_mat_same_shape (p : nat) (m s : mat) :
  is_matrix p p m → is_matrix p p s →
  iadd_mat m s = Ok (zip_with (zip_with fadd) m s).
Proof.
  intros [Hm Hrm] [Hs Hrs]. unfold iadd_mat, iadd_list.
  rewrite Hm, Hs, Nat.eqb_refl. clear Hm Hs. revert s Hrs.
  induction Hrm as [|x m Hx _ IH]; intros s Hrs; [by destruct s|].
  destruct Hrs as [|y s Hy Hrs]; [done|]. simpl.
  rewrite iadd_vec_same_length by lia. simpl. by rewrite IH.
Qed.

Lemma iadd_slice_sum (n p : nat) (t t' : t3) (i : nat) (s : mat) :
  length t = n → Forall (is_matrix p p) t → is_matrix p p s → i < n →
  iadd_slice t (Z.of_nat i) (Info2 s) = Ok t' →
  length t' = n ∧ Forall (is_matrix p p) t' ∧
  sum_axis0_t3 p p t' = zip_with (zip_with fadd) s (sum_axis0_t3 p p t).
Proof.
  intros Hn Ht Hs Hi. unfold iadd_slice.
  rewrite Hn, norm_index_nat by done. simpl.
  destruct (lookup_lt_is_Some_2 t i ltac:(lia)) as [m Hm]. rewrite Hm. simpl.
  pose proof (Forall_lookup_1 _ _ _ _ Ht Hm) as Hshape. simpl in Hshape.
  rewrite (iadd_mat_same_shape p) by done. simpl. intros [= <-].
  split; [by rewrite length_insert|]. split.
  - apply Forall_insert; [done|]. by apply madd_is_matrix.
  - unfold sum_axis0_t3. by apply foldr_madd_insert.
Qed.

Lemma apply_cuts_and_efficiencies_length
    (builtins math_commands : gmap string value)
    (call_function : string → list value → res value)
    (self : FisherInformation) (cuts efficiency_functions : list expr)
    (observations weights obs w : mat) :
  apply_cuts_and_efficiencies builtins math_commands call_function self cuts
    efficiency_functions observations weights = Ok (obs, w) →
  length obs = length w.
Proof.
  unfold apply_cuts_and_efficiencies.
  destruct (list_comp _ observations) as [cut_filter|]; simpl; [|done].
  destruct (mask_rows cut_filter observations) as [obs'|] eqn:Hobs'; simpl; [|done].
  destruct (mask_rows cut_filter weights) as [w'|] eqn:Hw'; simpl; [|done].
  destruct (list_comp _ obs') as [efficiencies|]; simpl; [|done].
  destruct (scale_rows w' efficiencies) as [w''|] eqn:Hscale; simpl; [|done].
  intros [= <- <-].
  destruct (mask_rows_shape (λ _, True) _ _ _ Hobs') as [_ Hlen1].
  destruct (mask_rows_shape (λ _, True) _ _ _ Hw') as [_ Hlen2].
  assert (length w'' = length w'); [|congruence].
  revert Hscale. unfold scale_rows.
  destruct (length efficiencies =? length w') eqn:He.
  - apply Nat.eqb_eq in He. intros [= <-]. rewrite length_zip_with. lia.
  - destruct efficiencies as [|e [|e' efficiencies]]; try done.
    intros [= <-]. unfold map_mat. by rewrite length_fmap.
Qed.

Section Slices.

Variable get_theta_benchmark_matrix : vec → vec.
Variable get_dtheta_benchmark_matrix : vec → mat.
Variable np_log : float64 → float64.
Variable builtins : gmap string value.
Variable math_commands : gmap string value.
Variable call_function : string → list value → res value.
Variable madminer_event_loader : nat → batch_size_t → list (mat * mat).

Variable self : FisherInformation.
Variables (theta : vec) (luminosity : float64).
Variables cuts efficiency_functions : list expr.

Let P := n_parameters self.
Let theta_matrix := get_theta_benchmark_matrix theta.
Let dtheta_matrix := get_dtheta_benchmark_matrix theta.

Hypothesis Hdtheta : length dtheta_matrix = P.

(** The loop over the bins adds every selected event to the sum of the
    slices. *)
Lemma slices_loop (n : nat) (bins : list Z) (weights : mat) (events : t3)
    (l : list Z) :
  Forall (is_matrix P P) events → length events = length weights →
  Forall (λ i, (0 ≤ i < Z.of_nat n)%Z) l →
  ∀ (wbb : mat) (fifb : t3) (wbb' : mat) (fifb' : t3),
    length fifb = n → Forall (is_matrix P P) fifb →
    for_each (λ '(weights_benchmarks_bins, fisher_info_full_bins) i,
        let mask := (λ b, (b =? i)%Z) <$> bins in
        selected ← mask_rows mask weights;
        if 0 <? length selected then
          weights_benchmarks_bins ←
            iadd_row weights_benchmarks_bins i
              (sum_axis0_mat (ncols selected) selected);
          selected_events ← mask_info mask (Info3 events);
          fisher_info_full_bins ←
            iadd_slice fisher_info_full_bins i
              (np_sum_axis0 (info_dim selected_events) selected_events);
          Ok (weights_benchmarks_bins, fisher_info_full_bins)
        else Ok (weights_benchmarks_bins, fisher_info_full_bins))
      l (wbb, fifb) = Ok (wbb', fifb') →
    length fifb' = n ∧ Forall (is_matrix P P) fifb' ∧
    sum_axis0_t3 P P fifb'
    = foldr (zip_with (zip_with fadd)) (sum_axis0_t3 P P fifb)
        (flat_map (bin_sel bins events) l).
Proof.
  intros Hev Hlen Hl.
  induction Hl as [|i l Hi _ IH]; intros wbb fifb wbb' fifb' Hn Hfifb; simpl.
  - by intros [= <- <-].
  - destruct (mask_rows _ weights) as [selected|] eqn:Hsel; simpl; [|done].
    apply mask_rows_bin_sel in Hsel as [-> Hbins].
    set (sel := bin_sel bins events i).
    assert (Hshape : Forall (is_matrix P P) sel) by by apply bin_sel_Forall.
    assert (Hcount : length sel = length (bin_sel bins weights i))
      by by apply bin_sel_length.
    rewrite (foldr_madd_permutation _ _ (flat_map (bin_sel bins events) l ++ sel))
      by apply Permutation_app_comm.
    rewrite foldr_app.
    destruct (0 <? length (bin_sel bins weights i)) eqn:Hne.
    + destruct (iadd_row wbb i _) as [wbb1|]; cbn [mbind res_bind]; [|done].
      assert (Hmask : mask_rows ((λ b, (b =? i)%Z) <$> bins) events = Ok sel).
      { unfold mask_rows. by rewrite length_fmap, Hbins, <- Hlen, Nat.eqb_refl. }
      rewrite Hmask. cbn [mbind res_bind fmap res_fmap].
      assert (Hdim : info_dim (Info3 sel) = P).
      { destruct sel as [|m sel']; [simpl in *; rewrite <- Hcount in Hne; done|].
        simpl. apply Forall_cons in Hshape as [[Hm _] _]. exact Hm. }
      rewrite Hdim. cbn [np_sum_axis0].
      destruct (iadd_slice fifb i _) as [fifb1|] eqn:Hfifb1; simpl; [|done].
      intros Hrest.
      replace i with (Z.of_nat (Z.to_nat i)) in Hfifb1 by lia.
      destruct (sum_axis0_t3_shape P sel Hshape) as [Hs _].
      apply (iadd_slice_sum n P) in Hfifb1 as (Hn1 & Hfifb1 & Hsum);
        [|done|done|done|lia].
      destruct (IH _ _ _ _ Hn1 Hfifb1 Hrest) as (Hn' & Hfifb' & Hsum').
      split; [done|]. split; [done|]. rewrite Hsum', Hsum. f_equal.
      destruct (sum_axis0_t3_shape P fifb Hfifb) as [Hacc Hnormal].
      by apply madd_sum_matrices.
    + intros Hrest. destruct (IH _ _ _ _ Hn Hfifb Hrest) as (Hn' & Hfifb' & Hsum').
      split; [done|]. split; [done|]. rewrite Hsum'. f_equal.
      destruct sel as [|m sel']; [done|].
      simpl in Hcount. rewrite <- Hcount in Hne. done.
Qed.

(** One batch adds the matrices of its surviving events to the sum of the
    slices. *)
Lemma histogram_batch_sum (observable : expr) (n : nat) (bin_boundaries : vec)
    (wbb wbb' : mat) (fifb fifb' : t3) (batch : mat * mat) :
  length fifb = n → Forall (is_matrix P P) fifb →
  histogram_batch get_theta_benchmark_matrix get_dtheta_benchmark_matrix np_log
    builtins math_commands call_function self theta luminosity observable n
    bin_boundaries cuts efficiency_functions (wbb, fifb) batch = Ok (wbb', fifb') →
  ∃ obs w,
    apply_cuts_and_efficiencies builtins math_commands call_function self cuts
      efficiency_functions batch.1 batch.2 = Ok (obs, w) ∧
    length fifb' = n ∧ Forall (is_matrix P P) fifb' ∧
    sum_axis0_t3 P P fifb'
    = foldr (zip_with (zip_with fadd)) (sum_axis0_t3 P P fifb)
        (physical_block theta_matrix dtheta_matrix w luminosity).
Proof.
  intros Hn Hfifb. unfold histogram_batch.
  destruct (apply_cuts_and_efficiencies _ _ _ _ _ _ _ _) as [[obs w]|] eqn:Happly;
    simpl; [|done].
  rewrite physical_block_per_event. simpl.
  fold theta_matrix dtheta_matrix.
  set (events := physical_block theta_matrix dtheta_matrix w luminosity).
  destruct (list_comp _ obs) as [histo|] eqn:Hhisto; simpl; [|done].
  apply list_comp_length in Hhisto.
  set (bins := np_searchsorted bin_boundaries <$> histo).
  destruct (forallb _ bins) eqn:Hbins; simpl; [|done].
  intros Hloop. exists obs, w. split; [done|].
  assert (Hev : Forall (is_matrix P P) events).
  { unfold events. rewrite <- Hdtheta. apply physical_block_is_matrix. }
  assert (Hlen : length events = length w) by apply physical_block_length.
  assert (Hobs : length obs = length w)
    by apply (apply_cuts_and_efficiencies_length _ _ _ _ _ _ _ _ _ _ Happly).
  apply (slices_loop n bins w events (range n) Hev Hlen) in Hloop
    as (Hn' & Hfifb' & Hsum); [| |done|done].
  2:{ apply Forall_forall. intros i Hi. by apply range_elem_of. }
  split; [done|]. split; [done|]. rewrite Hsum. apply foldr_madd_permutation.
  rewrite flat_map_bin_sel, sel_below_all; [done| |].
  - unfold bins. rewrite length_fmap. congruence.
  - apply Forall_forall. intros b Hb.
    apply list_elem_of_In in Hb.
    apply (proj1 (forallb_forall _ _) Hbins) in Hb.
    apply andb_prop in Hb as [H0 H1]. lia.
Qed.

(** Batch after batch. *)
Lemma histogram_batches_sum (observable : expr) (n : nat) (bin_boundaries : vec)
    (batches : list (mat * mat)) (events : list t3) :
  Forall2 (λ (batch : mat * mat) (t : t3), ∃ obs w,
      apply_cuts_and_efficiencies builtins math_commands call_function self cuts
        efficiency_functions batch.1 batch.2 = Ok (obs, w) ∧
      _calculate_fisher_information get_theta_benchmark_matrix
        get_dtheta_benchmark_matrix np_log self theta w luminosity
        false false false None None = Ok (Info3 t, None))
    batches events →
  ∀ (wbb : mat) (fifb : t3) (wbb' : mat) (fifb' : t3),
    length fifb = n → Forall (is_matrix P P) fifb →
    for_each
      (histogram_batch get_theta_benchmark_matrix get_dtheta_benchmark_matrix np_log
         builtins math_commands call_function self theta luminosity observable n
         bin_boundaries cuts efficiency_functions)
      batches (wbb, fifb) = Ok (wbb', fifb') →
    sum_axis0_t3 P P fifb'
    = foldr (zip_with (zip_with fadd)) (sum_axis0_t3 P P fifb) (concat events).
Proof.
  induction 1 as [|batch t batches events (obs & w & Happly & Hengine) _ IH];
    intros wbb fifb wbb' fifb' Hn Hfifb; simpl.
  - by intros [= <- <-].
  - destruct (histogram_batch _ _ _ _ _ _ _ _ _ _ _ _ _ _ _ _) as [[wbb1 fifb1]|]
      eqn:Hstep; simpl; [|done].
    apply histogram_batch_sum in Hstep
      as (obs' & w' & Happly' & Hn1 & Hfifb1 & Hsum); [|done|done].
    rewrite Happly in Happly'. injection Happly' as <- <-.
    rewrite physical_block_per_event in Hengine.
    fold theta_matrix dtheta_matrix in Hengine. injection Hengine as <-.
    intros Hrest. rewrite (IH _ _ _ _ Hn1 Hfifb1 Hrest), Hsum.
    rewrite <- foldr_app. apply foldr_madd_permutation, Permutation_app_comm.
Qed.

End Slices.

(** X25. The slices of [histogram_of_fisher_information] add up: when
    the gradient matrix has one row per parameter, the sum over all bins
    of the full information per bin is the sum, over all batches and all
    their events that pass the cuts, of the matrices that
    [_calculate_fisher_information] returns per event. *)
Theorem histogram_slices_add_up
    (get_theta_benchmark_matrix : vec → vec)
    (get_dtheta_benchmark_matrix : vec → mat) (np_log : float64 → float64)
    (builtins math_commands : gmap string value)
    (call_function : string → list value → res value)
    (madminer_event_loader : nat → batch_size_t → list (mat * mat))
    (self : FisherInformation) (theta : vec) (luminosity : float64)
    (observable : expr) (nbins : nat) (histrange : float64 * float64)
    (cuts efficiency_functions : list expr)
    (events : list t3) (bin_boundaries sigma_bins : vec)
    (fisher_info_rate_bins : info_array) (fisher_info_full_bins : t3) :
  length (get_dtheta_benchmark_matrix theta) = n_parameters self →
  Forall2 (λ (batch : mat * mat) (t : t3), ∃ obs w,
      apply_cuts_and_efficiencies builtins math_commands call_function self cuts
        efficiency_functions batch.1 batch.2 = Ok (obs, w) ∧
      _calculate_fisher_information get_theta_benchmark_matrix
        get_dtheta_benchmark_matrix np_log self theta w luminosity
        false false false None None = Ok (Info3 t, None))
    (madminer_event_loader 0 DefaultBatchSize) events →
  histogram_of_fisher_information get_theta_benchmark_matrix
    get_dtheta_benchmark_matrix np_log builtins math_commands call_function
    madminer_event_loader self theta luminosity observable nbins histrange
    (Some cuts) (Some efficiency_functions)
  = Ok (bin_boundaries, sigma_bins, fisher_info_rate_bins, fisher_info_full_bins) →
  length fisher_info_full_bins = nbins + 2 ∧
  sum_axis0_t3 (n_parameters self) (n_parameters self) fisher_info_full_bins
  = sum_axis0_t3 (n_parameters self) (n_parameters self) (concat events).
Proof.
  intros Hdtheta Hevents. unfold histogram_of_fisher_information. simpl.
  match goal with
  | |- context [for_each ?body ?l ?s] =>
      destruct (for_each body l s) as [[wbb fifb]|] eqn:Hloop; simpl; [|done]
  end.
  destruct (dot_weights_T _ _ _) as [sigma|]; simpl; [|done].
  destruct (_calculate_fisher_information _ _ _ _ _ _ _ _ _ _ _ _) as [[rate c]|];
    simpl; [|done].
  intros [= _ _ _ <-]. split.
  - clear Hevents. revert Hloop.
    generalize (zeros2 (nbins + 2) (n_benchmarks self)).
    assert (Hn : length (zeros3 (nbins + 2) (n_parameters self) (n_parameters self))
                 = nbins + 2) by apply length_replicate.
    revert Hn.
    generalize (zeros3 (nbins + 2) (n_parameters self) (n_parameters self)).
    induction (madminer_event_loader 0 DefaultBatchSize) as [|batch batches IH];
      intros t Hn wb; simpl.
    + by intros [= <- <-].
    + destruct (histogram_batch _ _ _ _ _ _ _ _ _ _ _ _ _ _ _ _) as [[wbb1 fifb1]|]
        eqn:Hstep; simpl; [|done].
      apply IH. revert Hstep. unfold histogram_batch.
      destruct (apply_cuts_and_efficiencies _ _ _ _ _ _ _ _) as [[obs w]|];
        simpl; [|done].
      destruct (_calculate_fisher_information _ _ _ _ _ _ _ _ _ _ _ _) as [[ev c']|];
        simpl; [|done].
      destruct (list_comp _ obs) as [histo|]; simpl; [|done].
      destruct (py_assert _); simpl; [|done].
      clear IH. revert wb t Hn. generalize (range (nbins + 2)).
      intros l. induction l as [|i l IHl]; intros wb t Hn; simpl.
      * by intros [= <- <-].
      * destruct (mask_rows _ w) as [selected|]; simpl; [|done].
        destruct (0 <? length selected); [|by apply IHl].
        destruct (iadd_row wb i _) as [wb1|]; simpl; [|done].
        destruct (mask_info _ ev) as [sel|]; simpl; [|done].
        destruct (iadd_slice t i _) as [t1|] eqn:Ht1; simpl; [|done].
        apply IHl. revert Ht1. unfold iadd_slice.
        destruct (norm_index _ _); simpl; [|done].
        destruct (from_lookup _); simpl; [|done].
        destruct (iadd_info _ _); simpl; [|done].
        intros [= <-]. by rewrite length_insert.
  - etrans.
    { eapply (histogram_batches_sum get_theta_benchmark_matrix
                get_dtheta_benchmark_matrix np_log builtins math_commands
                call_function self theta luminosity cuts efficiency_functions
                Hdtheta observable (nbins + 2) _ _ events Hevents);
        [| |exact Hloop].
      - apply length_replicate.
      - apply Forall_replicate, zeros2_is_matrix. }
    by rewrite sum_axis0_t3_zeros3.
Qed.

Lemma histogram_slices_add_up_witness :
  length [[[Fin 1]]; [[Fin 1]]; [[Fin 0]]]%Q = 1 + 2 ∧
  sum_axis0_t3 1 1 [[[Fin 1]]; [[Fin 1]]; [[Fin 0]]]%Q
  = sum_axis0_t3 1 1 (concat [[[[Fin 1]]; [[Fin 1]]]]%Q).
Proof.
  eapply (histogram_slices_add_up example_theta_matrix example_dtheta_matrix
            (λ x, x) ∅ ∅ no_functions example_loader example_self_pt []
            (Fin 1) (Name "pt") 1 (Fin 0, Fin 10)%Q [] []
            [[[[Fin 1]]; [[Fin 1]]]]%Q).
  - reflexivity.
  - constructor; [|constructor].
    exists [[Fin 0]; [Fin 10]]%Q, [[Fin 1; Fin 0]; [Fin 0; Fin 1]]%Q.
    split; vm_compute; reflexivity.
  - vm_compute. reflexivity.
Defined.


(** ** The second axis of the two-dimensional histogram *)

Lemma mask_rows_all_false {A : Type} (mask : list bool) (m : list A) :
  Forall (λ b, b = false) mask → length mask = length m → mask_rows mask m = Ok [].
Proof.
  intros Hmask Hlen. unfold mask_rows. rewrite Hlen, Nat.eqb_refl. f_equal.
  revert m Hlen. induction Hmask as [|b mask -> _ IH]; intros [|x m] Hlen; try done.
  simpl. rewrite filter_cons, decide_False by done. apply IH. simpl in Hlen. lia.
Qed.

Lemma cells_loop_skips (n1 n2 : nat) (bins1 bins2 : list Z) (weights : mat)
    (weights_benchmarks : t3) :
  length bins1 = length weights → length bins2 = length weights →
  Forall (λ b, (Z.of_nat n2 ≤ b)%Z) bins2 →
  for_each (λ weights_benchmarks i,
      for_each (λ weights_benchmarks j,
          mask ← np_and ((λ b, (b =? i)%Z) <$> bins1) ((λ b, (b =? j)%Z) <$> bins2);
          selected ← mask_rows mask weights;
          if 0 <? length selected then
            iadd_cell weights_benchmarks i j
              (sum_axis0_mat (ncols selected) selected)
          else Ok weights_benchmarks)
        (range n2) weights_benchmarks)
    (range n1) weights_benchmarks
  = Ok weights_benchmarks.
Proof.
  intros H1 H2 Hover.
  assert (Hcell : ∀ i j, j ∈ range n2 →
    (mask ← np_and ((λ b, (b =? i)%Z) <$> bins1) ((λ b, (b =? j)%Z) <$> bins2);
     selected ← mask_rows mask weights;
     if 0 <? length selected then
       iadd_cell weights_benchmarks i j (sum_axis0_mat (ncols selected) selected)
     else Ok weights_benchmarks) = Ok weights_benchmarks).
  { intros i j Hj. apply range_elem_of in Hj.
    unfold np_and. rewrite !length_fmap, H1, H2, Nat.eqb_refl.
    cbn [mbind res_bind].
    rewrite mask_rows_all_false; [done| |].
    - clear H1 H2. revert bins1.
      induction Hover as [|b bins2 Hb _ IH]; intros [|b1 bins1]; simpl;
        try constructor; auto.
      destruct (Z.eqb_spec b j); [lia|]. apply andb_false_r.
    - rewrite length_zip_with, !length_fmap. lia. }
  assert (Hinner : ∀ i l, l ⊆ range n2 →
    for_each (λ weights_benchmarks j,
        mask ← np_and ((λ b, (b =? i)%Z) <$> bins1) ((λ b, (b =? j)%Z) <$> bins2);
        selected ← mask_rows mask weights;
        if 0 <? length selected then
          iadd_cell weights_benchmarks i j
            (sum_axis0_mat (ncols selected) selected)
        else Ok weights_benchmarks)
      l weights_benchmarks = Ok weights_benchmarks).
  { intros i l. induction l as [|j l IH]; intros Hl; [done|].
    cbn [for_each]. rewrite Hcell by set_solver. cbn [mbind res_bind].
    apply IH. set_solver. }
  induction (range n1) as [|i l IH]; [done|].
  cbn [for_each]. rewrite Hinner by done. exact IH.
Qed.


